(** * Reservation engine of the voice reservation agent (db.py, tools.py)

    A shallow embedding of the in-memory ("mock") storage path of
    [db.Database] and of the tool methods of [tools.ReservationTools],
    followed by the properties of the reservation engine stated in the
    specification and by further properties of the code.

    Conventions of the embedding.
    - A Python [str] is the Rocq string of its UTF-8 bytes: equality,
      concatenation and the replacement of the letter Z act on the bytes
      as they act on the text; where the code works character by
      character (the digits of a phone number), [chars] splits the bytes
      into characters.
    - Python [int] values are [Z]; list lengths are [nat].
    - Python [float] values are binary64 floats ([PrimFloat.float]), with
      the subtraction and comparison of the machine.
    - A [datetime] is the record of its fields; [tzinfo] is [None] for a
      naive value and [Some off] (UTC offset in microseconds) for an aware
      one.
    - What the interpreter and the operating system supply (the ISO
      parser, [datetime.timestamp], the local time zone, the wall clock,
      the Unicode table behind [str.isdigit]) is the [Platform] interface.
    - Methods run in a state monad with exceptions; the state of db.py is
      [World]: the lists of the in-memory store and the number of clock
      reads made so far.
    - A dict of the in-memory store that the code hands out
      ([get_or_create_user], [create_appointment]) is the stored dict
      itself; a holder of it is modelled by the row of the record.
    - The branches of db.py that call the Supabase client are requests to
      an external service whose answers are not in the source; they are
      not modelled.  Every property below is about the in-memory store,
      except where it says what a record of the other branch would
      bring. *)

From Stdlib Require Floats.
Import PrimFloat.
From Stdlib Require Import ZArith List String Ascii Bool Lia.
From Stdlib Require Import DecimalString DecimalNat.
Import ListNotations.

Open Scope list_scope.
Open Scope string_scope.
Open Scope Z_scope.

(** ** Strings *)

(** [s.replace('Z', '+00:00')] *)
Fixpoint replace_Z (s : string) : string :=
  match s with
  | EmptyString => EmptyString
  | String c rest =>
      if Ascii.eqb c "Z"%char then "+00:00" ++ replace_Z rest
      else String c (replace_Z rest)
  end.

(** [str(n)] for a natural number, as an f-string prints it. *)
Definition str_of_nat (n : nat) : string :=
  NilEmpty.string_of_uint (Nat.to_uint n).

(** [str(n)] for an integer. *)
Definition str_of_Z (z : Z) : string :=
  match z with
  | Z0 => "0"
  | Zpos p => str_of_nat (Pos.to_nat p)
  | Zneg p => "-" ++ str_of_nat (Pos.to_nat p)
  end.

(** Zero-padded decimal of width at least [w] (the ["%02d"], ["%04d"],
    ["%06d"] conversions; the argument is never negative here). *)
Fixpoint zeros (n : nat) : string :=
  match n with
  | O => ""
  | S k => String "0" (zeros k)
  end.

Definition pad (w : nat) (z : Z) : string :=
  let s := str_of_Z z in
  zeros (w - String.length s) ++ s.

(** Truthiness of an [Optional[str]] and of an [Optional[int]] argument:
    [None], the empty string and [0] are false. *)
Definition truthy_str (o : option string) : bool :=
  match o with
  | Some s => negb (String.eqb s "")
  | None => false
  end.

Definition truthy_int (o : option Z) : bool :=
  match o with
  | Some n => negb (n =? 0)
  | None => false
  end.

(** [a or b] on an optional string with a string default. *)
Definition str_or (o : option string) (dflt : string) : string :=
  match o with
  | Some s => if String.eqb s "" then dflt else s
  | None => dflt
  end.

Definition int_or (o : option Z) (dflt : Z) : Z :=
  match o with
  | Some n => if n =? 0 then dflt else n
  | None => dflt
  end.

(** ** Dates and times *)

Record datetime := mkdt {
  year : Z; month : Z; day : Z;
  hour : Z; minute : Z; second : Z; microsecond : Z;
  tzinfo : option Z
}.

Record date := mkdate { d_year : Z; d_month : Z; d_day : Z }.

(** Days since 1970-01-01 of a proleptic Gregorian date, and back. *)
Definition days_from_civil (y m d : Z) : Z :=
  let y' := if m <=? 2 then y - 1 else y in
  let era := y' / 400 in
  let yoe := y' - era * 400 in
  let mp := (m + 9) mod 12 in
  let doy := (153 * mp + 2) / 5 + d - 1 in
  let doe := yoe * 365 + yoe / 4 - yoe / 100 + doy in
  era * 146097 + doe - 719468.

Definition civil_from_days (z : Z) : date :=
  let z' := z + 719468 in
  let era := z' / 146097 in
  let doe := z' - era * 146097 in
  let yoe := (doe - doe / 1460 + doe / 36524 - doe / 146096) / 365 in
  let doy := doe - (365 * yoe + yoe / 4 - yoe / 100) in
  let mp := (5 * doy + 2) / 153 in
  let d := doy - (153 * mp + 2) / 5 + 1 in
  let m := if mp <? 10 then mp + 3 else mp - 9 in
  let y := yoe + era * 400 in
  mkdate (if m <=? 2 then y + 1 else y) m d.

(** [date.toordinal()]: day 1 is 0001-01-01. *)
Definition toordinal (d : date) : Z :=
  days_from_civil (d_year d) (d_month d) (d_day d) + 719163.

Definition fromordinal (o : Z) : date := civil_from_days (o - 719163).

(** [date.max.toordinal()], the ordinal of 9999-12-31. *)
Definition MAXORDINAL : Z := 3652059.

(** [d + timedelta(days=k)]: [None] stands for the [OverflowError] Python
    raises when the result leaves the years 1 to 9999. *)
Definition date_add_days (d : date) (k : Z) : option date :=
  let o := toordinal d + k in
  if (0 <? o) && (o <=? MAXORDINAL) then Some (fromordinal o) else None.

(** [dt.date()] *)
Definition date_of (dt : datetime) : date :=
  mkdate (year dt) (month dt) (day dt).

(** [datetime.combine(d, datetime.min.time().replace(hour=h))] *)
Definition combine_hour (d : date) (h : Z) : datetime :=
  mkdt (d_year d) (d_month d) (d_day d) h 0 0 0 None.

(** Microseconds between 1970-01-01T00:00:00 and the fields of [dt] read
    as a civil time. *)
Definition civil_us (dt : datetime) : Z :=
  (((days_from_civil (year dt) (month dt) (day dt) * 24 + hour dt) * 60
    + minute dt) * 60 + second dt) * 1000000 + microsecond dt.

(** The naive datetime whose civil reading is [us] microseconds after
    1970-01-01T00:00:00. *)
Definition civil_of_us (us : Z) : datetime :=
  let secs := us / 1000000 in
  let days := secs / 86400 in
  let sod := secs mod 86400 in
  let d := civil_from_days days in
  mkdt (d_year d) (d_month d) (d_day d)
       (sod / 3600) ((sod mod 3600) / 60) (sod mod 60) (us mod 1000000) None.

(** The aware UTC datetime of the instant [us] microseconds after the
    epoch, as [datetime.now(timezone.utc)] builds it from the clock. *)
Definition utc_of_us (us : Z) : datetime :=
  let n := civil_of_us us in
  mkdt (year n) (month n) (day n) (hour n) (minute n) (second n)
       (microsecond n) (Some 0).

(** Field-wise (lexicographic) comparison, as Python compares two naive
    datetimes. *)
Fixpoint lex_compare (a b : list Z) : comparison :=
  match a, b with
  | x :: a', y :: b' =>
      match x ?= y with
      | Eq => lex_compare a' b'
      | c => c
      end
  | [], [] => Eq
  | [], _ :: _ => Lt
  | _ :: _, [] => Gt
  end.

Definition fields (dt : datetime) : list Z :=
  [year dt; month dt; day dt; hour dt; minute dt; second dt; microsecond dt].

(** ** Exceptions and results *)

Inductive exn := TypeError | OverflowError.

Inductive Res (A : Type) :=
| Ok (a : A)
| Raise (e : exn).
Arguments Ok {A} a.
Arguments Raise {A} e.

(** Ordering of two datetimes: a naive and an aware value do not compare
    (Python raises [TypeError]); two aware values compare as instants. *)
Definition dt_compare (a b : datetime) : Res comparison :=
  match tzinfo a, tzinfo b with
  | None, None => Ok (lex_compare (fields a) (fields b))
  | Some oa, Some ob => Ok (civil_us a - oa ?= civil_us b - ob)
  | _, _ => Raise TypeError
  end.

(** [a > b] and [a <= b] *)
Definition dt_gt (a b : datetime) : Res bool :=
  match dt_compare a b with
  | Ok Gt => Ok true
  | Ok _ => Ok false
  | Raise e => Raise e
  end.

Definition dt_le (a b : datetime) : Res bool :=
  match dt_compare a b with
  | Ok Gt => Ok false
  | Ok _ => Ok true
  | Raise e => Raise e
  end.

(** [dt.strftime("%Y-%m-%dT%H:%M:%S")]; the year is printed on four digits
    (for years below 1000 some C libraries print fewer). *)
Definition strftime_iso (dt : datetime) : string :=
  pad 4 (year dt) ++ "-" ++ pad 2 (month dt) ++ "-" ++ pad 2 (day dt) ++ "T"
  ++ pad 2 (hour dt) ++ ":" ++ pad 2 (minute dt) ++ ":" ++ pad 2 (second dt).

(** [dt.isoformat()] of a naive datetime. *)
Definition isoformat (dt : datetime) : string :=
  strftime_iso dt ++
  (if microsecond dt =? 0 then "" else "." ++ pad 6 (microsecond dt)).

(** ** The platform *)

(** What the code takes from the interpreter and the operating system.
    - [fromisoformat s] is [datetime.fromisoformat(s)]; [None] stands for
      the [ValueError] raised on text that does not parse.
    - [timestamp dt] is [dt.timestamp()], a float of seconds since the
      epoch; a naive [dt] is read in the server's time zone.  [None]
      stands for the [ValueError] CPython raises when that conversion
      leaves the years 1 to 9999 (where [time_t] has 64 bits this is the
      one way [timestamp()] fails).
    - [localtime t] is the naive local datetime of instant [t], as
      [datetime.now()] builds it from the clock.
    - [clock n] is the instant, in microseconds since the epoch, that the
      wall clock shows at its [n]-th reading.
    - [isdigit ch] is [ch.isdigit()] for a text [ch] of one character,
      read from the interpreter's Unicode table; among the ASCII
      characters the digits are 0 to 9. *)
Class Platform := {
  fromisoformat : string -> option datetime;
  timestamp : datetime -> option float;
  localtime : Z -> datetime;
  clock : nat -> Z;
  isdigit : string -> bool;
  localtime_naive : forall t, tzinfo (localtime t) = None;
  isdigit_ascii : forall c : ascii,
    (nat_of_ascii c < 128)%nat ->
    isdigit (String c "")
    = ((48 <=? nat_of_ascii c) && (nat_of_ascii c <=? 57))%nat
}.

(** ** The state monad with exceptions *)

Definition M (S A : Type) : Type := S -> Res A * S.

Definition ret {S A : Type} (a : A) : M S A := fun s => (Ok a, s).

Definition bind {S A B : Type} (m : M S A) (k : A -> M S B) : M S B :=
  fun s =>
    match m s with
    | (Ok a, s') => k a s'
    | (Raise e, s') => (Raise e, s')
    end.

Definition raise {S A : Type} (e : exn) : M S A := fun s => (Raise e, s).

Definition get {S : Type} : M S S := fun s => (Ok s, s).

Definition put {S : Type} (s : S) : M S unit := fun _ => (Ok tt, s).

Declare Scope monad_scope.
Delimit Scope monad_scope with monad.
Notation "x <- m ;; k" := (bind m (fun x => k))
  (at level 61, m at next level, right associativity) : monad_scope.
Notation "' p <- m ;; k" := (bind m (fun x => let p := x in k))
  (at level 61, p pattern, m at next level, right associativity) : monad_scope.
Notation "m ;;; k" := (bind m (fun _ => k))
  (at level 61, right associativity) : monad_scope.
Open Scope monad_scope.

(** ** Records of the store *)

Inductive Status := booked | cancelled.

Definition Status_eqb (a b : Status) : bool :=
  match a, b with
  | booked, booked | cancelled, cancelled => true
  | _, _ => false
  end.

Module User.
Record t := mk {
  id : string;
  contact_number : string;
  name : string;
  created_at : string
}.
Definition set_name (n : string) (u : t) : t :=
  mk (id u) (contact_number u) n (created_at u).
End User.

Module Appt.
Record t := mk {
  id : string;
  user_id : string;
  start_time : string;
  end_time : string;
  status : Status;
  num_people : option Z;
  details : string;
  created_at : string
}.
Definition set_status (s : Status) (a : t) : t :=
  mk (id a) (user_id a) (start_time a) (end_time a) s (num_people a)
     (details a) (created_at a).
Definition set_details (d : string) (a : t) : t :=
  mk (id a) (user_id a) (start_time a) (end_time a) (status a)
     (num_people a) d (created_at a).
(** [a.get('num_people', dflt)]: the in-memory store writes the entry
    with every appointment; a record without it ([None]) is what the
    Supabase branch of [create_appointment] sends, whose [appt_data] has
    no such entry. *)
Definition get_num_people (a : t) (dflt : Z) : Z :=
  match num_people a with
  | Some n => n
  | None => dflt
  end.
End Appt.

(** The state db.py works on: the lists [self.users] and
    [self.appointments] of the mock store, and how many times the clock has
    been read. *)
Record World := mkWorld {
  users : list User.t;
  appointments : list Appt.t;
  ticks : nat
}.

Definition set_users (us : list User.t) (w : World) : World :=
  mkWorld us (appointments w) (ticks w).

Definition set_appointments (l : list Appt.t) (w : World) : World :=
  mkWorld (users w) l (ticks w).

(** The state after one more reading of the clock. *)
Definition tick (w : World) : World :=
  mkWorld (users w) (appointments w) (S (ticks w)).

(** [Database.__init__]: empty lists. *)
Definition init_world : World := mkWorld [] [] 0.

(** [self.opening_hour], [self.closing_hour]: assigned once in [__init__]. *)
Definition opening_hour : Z := 10.
Definition closing_hour : Z := 22.

(** ** db.py *)

Section Db.
Context {P : Platform}.

(** One reading of the wall clock. *)
Definition read_clock : M World Z :=
  fun w => (Ok (clock (ticks w)), tick w).

(** [datetime.now()] *)
Definition now : M World datetime :=
  t <- read_clock ;; ret (localtime t).

(** The loop of [get_or_create_user]: the first user with this contact
    number gets the name when one is given, and is returned with its row. *)
Fixpoint lookup_user (us : list User.t) (contact_number : string)
    (name : option string) : option (list User.t * (nat * User.t)) :=
  match us with
  | [] => None
  | user :: rest =>
      if String.eqb (User.contact_number user) contact_number then
        let user' :=
          if truthy_str name then User.set_name (str_or name "") user
          else user in
        Some (user' :: rest, (O, user'))
      else
        match lookup_user rest contact_number name with
        | Some (rest', (i, u)) => Some (user :: rest', (S i, u))
        | None => None
        end
  end.

(** [get_or_create_user]: the result is the stored record and its row in
    [self.users] (the source returns a reference to the stored dict). *)
Definition get_or_create_user (contact_number : string)
    (name : option string) : M World (nat * User.t) :=
  w <- get ;;
  match lookup_user (users w) contact_number name with
  | Some (us', found) =>
      put (set_users us' w) ;;; ret found
  | None =>
      n <- now ;;
      w <- get ;;
      let new_user :=
        User.mk ("user_" ++ str_of_nat (S (List.length (users w))))
                contact_number (str_or name "Unknown") (isoformat n) in
      put (set_users (users w ++ [new_user])%list w) ;;;
      ret (List.length (users w), new_user)
  end.

(** [create_appointment]: the parse at its head has no effect (a
    [ValueError] is swallowed and the value is unused). *)
Definition create_appointment (user_id start_time : string) (num_people : Z)
    (details : string) : M World (nat * Appt.t) :=
  let final_details := "Guests: " ++ str_of_Z num_people ++ ". " ++ details in
  n <- now ;;
  w <- get ;;
  let appt :=
    Appt.mk ("appt_" ++ str_of_nat (S (List.length (appointments w))))
            user_id start_time "TBD" booked (Some num_people) final_details
            (isoformat n) in
  put (set_appointments (appointments w ++ [appt])%list w) ;;;
  ret (List.length (appointments w), appt).

(** [get_user_appointments] *)
Definition get_user_appointments (user_id : string) : M World (list Appt.t) :=
  w <- get ;;
  ret (filter (fun a => String.eqb (Appt.user_id a) user_id
                        && negb (Status_eqb (Appt.status a) cancelled))
              (appointments w)).

(** The loops of [cancel_appointment] and [update_appointment]: the first
    appointment with this id is rewritten. *)
Fixpoint update_first (f : Appt.t -> Appt.t) (appointment_id : string)
    (l : list Appt.t) : option (list Appt.t) :=
  match l with
  | [] => None
  | appt :: rest =>
      if String.eqb (Appt.id appt) appointment_id then Some (f appt :: rest)
      else
        match update_first f appointment_id rest with
        | Some rest' => Some (appt :: rest')
        | None => None
        end
  end.

Definition cancel_appointment (appointment_id : string) : M World bool :=
  w <- get ;;
  match update_first (Appt.set_status cancelled) appointment_id
                     (appointments w) with
  | Some l => put (set_appointments l w) ;;; ret true
  | None => ret false
  end.

Definition update_appointment (appointment_id details : string)
  : M World bool :=
  w <- get ;;
  match update_first (Appt.set_details details) appointment_id
                     (appointments w) with
  | Some l => put (set_appointments l w) ;;; ret true
  | None => ret false
  end.

(** The query at the end of [check_availability]: is any appointment booked
    at exactly this start-time text? *)
Definition booked_at (start_time : string) (l : list Appt.t) : bool :=
  existsb (fun appt => String.eqb (Appt.start_time appt) start_time
                       && Status_eqb (Appt.status appt) booked) l.

(** [now] in [check_availability]: the naive local time when [dt] is
    naive, and [datetime.now(timezone.utc)] otherwise. *)
Definition now_like (dt : datetime) (t : Z) : datetime :=
  match tzinfo dt with
  | None => localtime t
  | Some _ => utc_of_us t
  end.

(** [check_availability]: a [ValueError] of [fromisoformat] or of one of
    the two [timestamp()] calls is caught and answers [False]. *)
Definition check_availability (start_time : string) (num_people : Z)
  : M World bool :=
  match fromisoformat (replace_Z start_time) with
  | None => ret false
  | Some dt =>
      t <- read_clock ;;
      let n := now_like dt t in
      match timestamp dt with
      | None => ret false
      | Some a =>
          match timestamp n with
          | None => ret false
          | Some b =>
              if (a <? b - 120)%float then ret false
              else if (hour dt <? opening_hour) || (hour dt >=? closing_hour)
              then ret false
              else
                w <- get ;;
                ret (negb (booked_at start_time (appointments w)))
          end
      end
  end.

(** [available_hours] of [get_next_available_slot] *)
Definition available_hours : list Z := [10; 14; 17; 18; 19].

(** [max(dt, now)]: [now] is taken when [now > dt]. *)
Definition max_dt (dt n : datetime) : Res datetime :=
  match dt_gt n dt with
  | Ok true => Ok n
  | Ok false => Ok dt
  | Raise e => Raise e
  end.

Definition lift_res {A : Type} (r : Res A) : M World A := fun w => (r, w).

(** The inner loop: the candidate hours of one day. *)
Fixpoint scan_hours (check_date : date) (reference_time : datetime)
    (hours : list Z) : M World (option string) :=
  match hours with
  | [] => ret None
  | hour :: rest =>
      let slot_time := combine_hour check_date hour in
      skip <- lift_res (dt_le slot_time reference_time) ;;
      if skip then scan_hours check_date reference_time rest
      else
        let slot_str := strftime_iso slot_time in
        ok <- check_availability slot_str 1 ;;
        if ok then ret (Some slot_str)
        else scan_hours check_date reference_time rest
  end.

(** The outer loop over [day_offset]. *)
Fixpoint scan_days (reference_time : datetime) (offsets : list Z)
  : M World (option string) :=
  match offsets with
  | [] => ret None
  | day_offset :: rest =>
      match date_add_days (date_of reference_time) day_offset with
      | None => raise OverflowError
      | Some check_date =>
          r <- scan_hours check_date reference_time available_hours ;;
          match r with
          | Some slot => ret (Some slot)
          | None => scan_days reference_time rest
          end
      end
  end.

(** [range(7)] *)
Definition range7 : list Z := [0; 1; 2; 3; 4; 5; 6].

Definition get_next_available_slot (from_time : string)
  : M World (option string) :=
  n <- now ;;
  let dt :=
    match fromisoformat (replace_Z from_time) with
    | Some dt => dt
    | None => n
    end in
  reference_time <- lift_res (max_dt dt n) ;;
  scan_days reference_time range7.

End Db.

(** ** tools.py *)

(** A payload published to the room by [_publish_update]: the tool name,
    the ["status"] entry and the ["reason"] entry of the data (the other
    entries of the payload are not modelled). *)
Record Event := mkEvent {
  ev_tool : string;
  ev_status : string;
  ev_reason : option string
}.

(** The attributes of a [ReservationTools] instance.  [_user_context] and
    the entries of [_session_bookings] are references to dicts of the
    store, modelled by their row in [users] and [appointments]; [_room] is
    [None] without a room and otherwise holds what was published so far. *)
Record ReservationTools := mkTools {
  _user_id : option string;
  _user_context : option nat;
  _room : option (list Event);
  _session_bookings : list nat
}.

(** [ReservationTools.__init__] *)
Definition new_tools (room : option (list Event)) : ReservationTools :=
  mkTools None None room [].

(** What a tool returns.  The source returns sentences; a constructor
    stands for one return statement and carries the values its sentence is
    built from (times stay ISO text, which [format_datetime_human] would
    render for speech). *)
Inductive Reply :=
| Identify_invalid_phone (contact_number : string)
| Identified (name : string)
| Book_invalid_phone (contact_number : string)
| Book_auth_required
| Book_past_date (next_slot : option string)
| Book_unavailable (next_slot : option string)
| Booked (user_name start_time : string) (num_people : Z) (appt_id : string)
| Cancelled (appointment_id : string)
| Cancel_failed (appointment_id : string)
| Modify_nothing_to_change
| Modify_identity_required
| Modify_not_found
| Modify_past_date (next_slot : option string) (current_time : string)
| Modify_unavailable (final_time current_time : string) (current_people : Z)
                     (next_slot : option string)
| Modified (user_name final_time : string) (final_people : Z)
           (appt_id : string).

(** ** Characters of a text *)

(** A byte that continues a character of UTF-8 text. *)
Definition is_continuation (c : ascii) : bool :=
  let n := nat_of_ascii c in ((128 <=? n) && (n <? 192))%nat.

(** The characters of a text, each as the text of its own bytes: a byte
    begins a character unless it continues one. *)
Fixpoint chars (s : string) : list string :=
  match s with
  | EmptyString => []
  | String c rest =>
      match rest with
      | String c' _ =>
          if is_continuation c' then
            match chars rest with
            | ch :: more => String c ch :: more
            | [] => [String c ""]
            end
          else String c "" :: chars rest
      | EmptyString => [String c ""]
      end
  end.

(** [''.join(l)] *)
Fixpoint join (l : list string) : string :=
  match l with
  | [] => ""
  | x :: rest => x ++ join rest
  end.

(** [l[-10:]] *)
Definition last10 {A : Type} (l : list A) : list A :=
  skipn (List.length l - 10) l.





Section Tools.
Context {P : Platform}.

(** [filter(str.isdigit, contact_number)]: the digit characters of the
    text, in their order. *)
Definition digits_of (contact_number : string) : list string :=
  filter isdigit (chars contact_number).

(** The normalisation shared by [identify_user] and [book_appointment]:
    [None] when fewer than 10 digits remain, else the text of the last
    ten. *)
Definition normalize_phone (contact_number : string) : option string :=
  let digits := digits_of contact_number in
  if (List.length digits <? 10)%nat then None
  else Some (join (last10 digits)).

Definition Call : Type := ReservationTools * World.

(** A call into the [db] singleton. *)
Definition db {A : Type} (m : M World A) : M Call A :=
  fun c =>
    match m (snd c) with
    | (r, w') => (r, (fst c, w'))
    end.

Definition self : M Call ReservationTools := fun c => (Ok (fst c), c).

Definition set_self (t : ReservationTools) : M Call unit :=
  fun c => (Ok tt, (t, snd c)).

Definition _publish_update (tool status : string) (reason : option string)
  : M Call unit :=
  s <- self ;;
  match _room s with
  | Some log =>
      set_self (mkTools (_user_id s) (_user_context s)
                        (Some (log ++ [mkEvent tool status reason])%list)
                        (_session_bookings s))
  | None => ret tt
  end.

(** [self._user_id = user["id"]; self._user_context = user] *)
Definition set_identity (user : nat * User.t) : M Call unit :=
  s <- self ;;
  set_self (mkTools (Some (User.id (snd user))) (Some (fst user))
                    (_room s) (_session_bookings s)).

(** [self._user_context.get('name', 'Guest') if self._user_context else
    'Guest'] *)
Definition context_name : M Call string :=
  s <- self ;;
  w <- db get ;;
  ret (match _user_context s with
       | Some row =>
           match nth_error (users w) row with
           | Some u => User.name u
           | None => "Guest"
           end
       | None => "Guest"
       end).

Definition identify_user (contact_number : string) (name : option string)
  : M Call Reply :=
  match normalize_phone contact_number with
  | None => ret (Identify_invalid_phone contact_number)
  | Some normalized_number =>
      _publish_update "identify_user" "started" None ;;;
      user <- db (get_or_create_user normalized_number name) ;;
      set_identity user ;;;
      _publish_update "identify_user" "completed" None ;;;
      ret (Identified (User.name (snd user)))
  end.

(** The block computing [is_past] after a failed availability check:
    [dt.timestamp() < datetime.now().timestamp()] inside [try], with a
    bare [except] that leaves it false.  The left operand comes first, so
    the clock is not read when [dt.timestamp()] raises. *)
Definition is_past_of (start_time : string) : M World bool :=
  match fromisoformat (replace_Z start_time) with
  | None => ret false
  | Some dt =>
      match timestamp dt with
      | None => ret false
      | Some a =>
          n <- now ;;
          match timestamp n with
          | None => ret false
          | Some b => ret (a <? b)%float
          end
      end
  end.

Definition book_appointment (start_time : string) (num_people : Z)
    (name contact_number : option string) (details : string)
  : M Call Reply :=
  _publish_update "book_appointment" "started" None ;;;
  s <- self ;;
  identified <-
    (if truthy_str (_user_id s) then ret None
     else if truthy_str contact_number then
       let number := str_or contact_number "" in
       match normalize_phone number with
       | None =>
           _publish_update "book_appointment" "failed"
                           (Some "invalid_phone") ;;;
           ret (Some (Book_invalid_phone number))
       | Some normalized_number =>
           user <- db (get_or_create_user normalized_number name) ;;
           set_identity user ;;;
           _publish_update "identify_user" "completed" None ;;;
           ret None
       end
     else
       _publish_update "book_appointment" "failed"
                       (Some "auth_required") ;;;
       ret (Some Book_auth_required)) ;;
  match identified with
  | Some early => ret early
  | None =>
      is_available <- db (check_availability start_time num_people) ;;
      if negb is_available then
        is_past <- db (is_past_of start_time) ;;
        next_slot <- db (get_next_available_slot start_time) ;;
        _publish_update "book_appointment" "failed"
          (Some (if is_past then "past_date" else "unavailable")) ;;;
        if is_past then ret (Book_past_date next_slot)
        else ret (Book_unavailable next_slot)
      else
        s <- self ;;
        appt <- db (create_appointment (str_or (_user_id s) "") start_time
                                       num_people details) ;;
        s <- self ;;
        set_self (mkTools (_user_id s) (_user_context s) (_room s)
                          (_session_bookings s ++ [fst appt])%list) ;;;
        _publish_update "book_appointment" "completed" None ;;;
        user_name <- context_name ;;
        ret (Booked user_name start_time num_people (Appt.id (snd appt)))
  end.

Definition tool_cancel_appointment (appointment_id : string)
  : M Call Reply :=
  _publish_update "cancel_appointment" "started" None ;;;
  success <- db (cancel_appointment appointment_id) ;;
  if success then
    _publish_update "cancel_appointment" "completed" None ;;;
    ret (Cancelled appointment_id)
  else
    _publish_update "cancel_appointment" "failed" (Some "not_found") ;;;
    ret (Cancel_failed appointment_id).

Definition modify_appointment (appointment_id : string)
    (new_start_time : option string) (new_num_people : option Z)
    (new_details : option string) : M Call Reply :=
  if negb (truthy_str new_start_time) && negb (truthy_int new_num_people)
     && negb (truthy_str new_details)
  then ret Modify_nothing_to_change
  else
    _publish_update "modify_appointment" "started" None ;;;
    s <- self ;;
    if negb (truthy_str (_user_id s)) then ret Modify_identity_required
    else
      appts <- db (get_user_appointments (str_or (_user_id s) "")) ;;
      match find (fun a => String.eqb (Appt.id a) appointment_id) appts with
      | None =>
          _publish_update "modify_appointment" "failed"
                          (Some "not_found") ;;;
          ret Modify_not_found
      | Some original =>
          let current_time := Appt.start_time original in
          let current_people := Appt.get_num_people original 2 in
          let final_time := str_or new_start_time (Appt.start_time original) in
          let final_people := int_or new_num_people current_people in
          let final_details := str_or new_details (Appt.details original) in
          rejected <-
            (if truthy_str new_start_time then
               is_available <-
                 db (check_availability final_time final_people) ;;
               if negb is_available then
                 is_past <- db (is_past_of final_time) ;;
                 next_slot <- db (get_next_available_slot final_time) ;;
                 _publish_update "modify_appointment" "failed"
                   (Some (if is_past then "past_date"
                          else "new_slot_unavailable")) ;;;
                 if is_past
                 then ret (Some (Modify_past_date next_slot current_time))
                 else ret (Some (Modify_unavailable final_time current_time
                                   current_people next_slot))
               else ret None
             else ret None) ;;
          match rejected with
          | Some r => ret r
          | None =>
              db (cancel_appointment appointment_id) ;;;
              appt <- db (create_appointment (str_or (_user_id s) "")
                            final_time final_people final_details) ;;
              _publish_update "modify_appointment" "completed" None ;;;
              user_name <- context_name ;;
              ret (Modified user_name final_time final_people
                            (Appt.id (snd appt)))
          end
      end.

End Tools.

(** ** Notions used to state the properties *)

Section Notions.
Context {P : Platform}.


(** Inside opening hours. *)
Definition open_at (dt : datetime) : bool :=
  negb ((hour dt <? opening_hour) || (hour dt >=? closing_hour)).

(** The test [dt.timestamp() < (now.timestamp() - 120)] at the clock
    reading [t]: [Some true] when the start lies more than 120 seconds
    before the clock, [None] when one of the timestamps raises. *)
Definition past_test (dt : datetime) (t : Z) : option bool :=
  match timestamp dt, timestamp (now_like dt t) with
  | Some a, Some b => Some (a <? b - 120)%float
  | _, _ => None
  end.

(** The time test of [check_availability] refuses: the start is more than
    120 seconds before the clock, or a timestamp cannot be computed. *)
Definition time_refused (dt : datetime) (t : Z) : bool :=
  match past_test dt t with
  | Some false => false
  | _ => true
  end.

(** The test [dt.timestamp() < datetime.now().timestamp()] of the tools
    at the [k]-th reading of the clock, false when the text does not
    parse or a timestamp raises. *)
Definition before_clock (start_time : string) (k : nat) : bool :=
  match fromisoformat (replace_Z start_time) with
  | Some dt =>
      match timestamp dt, timestamp (localtime (clock k)) with
      | Some a, Some b => (a <? b)%float
      | _, _ => false
      end
  | None => false
  end.

(** Two worlds holding the same lists (they may differ in clock reads). *)
Definition same_store (w w' : World) : Prop :=
  users w' = users w /\ appointments w' = appointments w.

(** The reference time of [get_next_available_slot]: the later of the
    parsed [from_time] and the clock, the clock alone when the text does
    not parse. *)
Definition reference_of (from_time : string) (w : World) : Res datetime :=
  let n := localtime (clock (ticks w)) in
  match fromisoformat (replace_Z from_time) with
  | Some dt => max_dt dt n
  | None => max_dt n n
  end.

(** The candidates of the search from [ref] over the day offsets
    [offsets]: the hours of [available_hours] on each day, in the order
    in which the two loops visit them. *)
Definition candidates_on (ref : datetime) (offsets : list Z)
  : list datetime :=
  flat_map (fun day_offset =>
              match date_add_days (date_of ref) day_offset with
              | Some check_date =>
                  map (combine_hour check_date) available_hours
              | None => []
              end) offsets.

(** The candidate [c] is not skipped: [slot_time <= reference_time] is
    false. *)
Definition later_than (ref c : datetime) : bool :=
  match dt_le c ref with
  | Ok false => true
  | _ => false
  end.

(** The texts of [slots] are put to [check_availability] one after the
    other and each is refused: the first in [w], each next one in the
    world the check before it has left, the last one leaving [w']. *)
Fixpoint refused_in_turn (slots : list string) (w w' : World) : Prop :=
  match slots with
  | [] => w' = w
  | slot :: rest =>
      exists w1,
        check_availability slot 1 w = (Ok false, w1) /\
        refused_in_turn rest w1 w'
  end.

(** The record [get_or_create_user] appends for an unknown number. *)
Definition new_user (w : World) (c : string) (n : option string) : User.t :=
  User.mk ("user_" ++ str_of_nat (S (List.length (users w)))) c
          (str_or n "Unknown") (isoformat (localtime (clock (ticks w)))).

(** The record [create_appointment] appends. *)
Definition new_appt (w : World) (user_id start_time : string)
    (num_people : Z) (details : string) : Appt.t :=
  Appt.mk ("appt_" ++ str_of_nat (S (List.length (appointments w))))
          user_id start_time "TBD" booked (Some num_people)
          ("Guests: " ++ str_of_Z num_people ++ ". " ++ details)
          (isoformat (localtime (clock (ticks w)))).

(** Every appointment carries the id of its row: row [i] (from 0) holds
    ["appt_" ++ str(i+1)]. *)
Definition ids_by_row (l : list Appt.t) : Prop :=
  forall i a, nth_error l i = Some a ->
              Appt.id a = "appt_" ++ str_of_nat (S i).

(** The appointment with id [x] is stored and cancelled, in a list whose
    ids follow the rows. *)
Definition cancelled_row (x : string) (l : list Appt.t) : Prop :=
  ids_by_row l /\
  (exists a, In a l /\ Appt.id a = x) /\
  (forall a, In a l -> Appt.id a = x -> Appt.status a = cancelled).

(** States of the store: those the methods of [Database] lead to from
    the empty store (the clock may be read in between). *)
Inductive reachable : World -> Prop :=
| reach_init : reachable init_world
| reach_tick w : reachable w -> reachable (tick w)
| reach_user w c n :
    reachable w -> reachable (snd (get_or_create_user c n w))
| reach_create w u s n d :
    reachable w -> reachable (snd (create_appointment u s n d w))
| reach_cancel w x :
    reachable w -> reachable (snd (cancel_appointment x w))
| reach_update w x d :
    reachable w -> reachable (snd (update_appointment x d w))
| reach_check w s n :
    reachable w -> reachable (snd (check_availability s n w))
| reach_next w s :
    reachable w -> reachable (snd (get_next_available_slot s w)).

(** The round trip of the specification as one run: book at [s], ask
    whether [s] is free, cancel the booking, ask again. *)
Definition book_check_cancel_check (user_id s : string) (n : Z)
    (details : string) : M World (Status * bool * bool * bool) :=
  appt <- create_appointment user_id s n details ;;
  free1 <- check_availability s n ;;
  done <- cancel_appointment (Appt.id (snd appt)) ;;
  free2 <- check_availability s n ;;
  ret (Appt.status (snd appt), free1, done, free2).

Definition book_check (user_id s : string) (n : Z) (details : string)
  : M World (Status * bool) :=
  appt <- create_appointment user_id s n details ;;
  free1 <- check_availability s n ;;
  ret (Appt.status (snd appt), free1).

(** The instance after [_publish_update] has sent event [e]. *)
Definition publish (e : Event) (s : ReservationTools) : ReservationTools :=
  match _room s with
  | Some log =>
      mkTools (_user_id s) (_user_context s) (Some (log ++ [e])%list)
              (_session_bookings s)
  | None => s
  end.

(** The guest's active appointments, as [get_user_appointments] lists
    them. *)
Definition active (user_id : string) (w : World) : list Appt.t :=
  filter (fun a => String.eqb (Appt.user_id a) user_id
                   && negb (Status_eqb (Appt.status a) cancelled))
         (appointments w).

(** Two instances that differ at most in what was published. *)
Definition same_session (s s' : ReservationTools) : Prop :=
  _user_id s' = _user_id s /\ _user_context s' = _user_context s /\
  _session_bookings s' = _session_bookings s.

(** The part of [book_appointment] that follows identification. *)
Definition book_tail (start_time : string) (num_people : Z)
    (details : string) : M Call Reply :=
  is_available <- db (check_availability start_time num_people) ;;
  if negb is_available then
    is_past <- db (is_past_of start_time) ;;
    next_slot <- db (get_next_available_slot start_time) ;;
    _publish_update "book_appointment" "failed"
      (Some (if is_past then "past_date" else "unavailable")) ;;;
    if is_past then ret (Book_past_date next_slot)
    else ret (Book_unavailable next_slot)
  else
    s <- self ;;
    appt <- db (create_appointment (str_or (_user_id s) "") start_time
                                   num_people details) ;;
    s <- self ;;
    set_self (mkTools (_user_id s) (_user_context s) (_room s)
                      (_session_bookings s ++ [fst appt])%list) ;;;
    _publish_update "book_appointment" "completed" None ;;;
    user_name <- context_name ;;
    ret (Booked user_name start_time num_people (Appt.id (snd appt))).

(** The instance after [self._user_id] and [self._user_context] are set
    from the user in row [row]. *)
Definition identified_as (row : nat) (u : User.t) (s : ReservationTools)
  : ReservationTools :=
  mkTools (Some (User.id u)) (Some row) (_room s) (_session_bookings s).

(** The first event of [book_appointment]. *)
Definition started : Event := mkEvent "book_appointment" "started" None.

(** The two times of the booking scenario of the specification. *)
Definition oct27_7pm : datetime := mkdt 2023 10 27 19 0 0 0 None.
Definition oct28_10am : datetime := mkdt 2023 10 28 10 0 0 0 None.

End Notions.

(** ** The other tools of tools.py *)

(** What [retrieve_appointments] returns: the identification error, the
    sentence for an empty list, or one line per appointment with its start
    time, status and id. *)
Inductive RetrieveReply :=
| Retrieve_identity_required
| Retrieve_none
| Retrieve_found (lines : list (string * Status * string)).

(** The lines of the answer of [retrieve_appointments]. *)
Definition lines_of (r : RetrieveReply) : list (string * Status * string) :=
  match r with
  | Retrieve_found lines => lines
  | _ => []
  end.

(** What [update_booking_details] returns. *)
Inductive UpdateReply :=
| Details_updated (details : string)
| Details_not_found.

(** An entry of [slots] in [fetch_slots]. *)
Record Slot := mkSlot { iso : string; display : string }.

(** [dt.strftime('%I:%M %p')] *)
Definition hour12 (h : Z) : Z := if h mod 12 =? 0 then 12 else h mod 12.

Definition strftime_12h (dt : datetime) : string :=
  pad 2 (hour12 (hour dt)) ++ ":" ++ pad 2 (minute dt) ++ " "
  ++ (if hour dt <? 12 then "AM" else "PM").

(** [available_hours] of [fetch_slots] *)
Definition fetch_hours : list Z := [10; 14; 17; 18; 19; 20; 21].

(** The inner loop of [fetch_slots]: the hours of one day that lie after
    [now]. *)
Fixpoint day_slots (n : datetime) (d : date) (day_label : string)
    (hours : list Z) : Res (list Slot) :=
  match hours with
  | [] => Ok []
  | hour :: rest =>
      let slot_time := combine_hour d hour in
      match dt_gt slot_time n with
      | Raise e => Raise e
      | Ok later =>
          match day_slots n d day_label rest with
          | Raise e => Raise e
          | Ok more =>
              if later
              then Ok (mkSlot (strftime_iso slot_time)
                              (day_label ++ " at " ++ strftime_12h slot_time)
                       :: more)
              else Ok more
          end
      end
  end.

(** The outer loop over [day_offset] in [range(2)]; [now +
    timedelta(days=day_offset)] leaves the calendar with [OverflowError]. *)
Fixpoint all_slots (n : datetime) (offsets : list Z) : Res (list Slot) :=
  match offsets with
  | [] => Ok []
  | day_offset :: rest =>
      match date_add_days (date_of n) day_offset with
      | None => Raise OverflowError
      | Some d =>
          let day_label :=
            if day_offset =? 0 then "Today" else "Tomorrow" in
          match day_slots n d day_label fetch_hours with
          | Raise e => Raise e
          | Ok today =>
              match all_slots n rest with
              | Raise e => Raise e
              | Ok later => Ok (today ++ later)%list
              end
          end
      end
  end.

Section MoreTools.
Context {P : Platform}.

(** [fetch_slots]: the result stands for [slots[:8]], which the sentence
    returned and the event published are built from. *)
Definition fetch_slots : M Call (list Slot) :=
  _publish_update "fetch_slots" "started" None ;;;
  n <- db now ;;
  slots <- (fun c => (all_slots n [0; 1], c)) ;;
  _publish_update "fetch_slots" "completed" None ;;;
  ret (firstn 8 slots).

Definition retrieve_appointments : M Call RetrieveReply :=
  _publish_update "retrieve_appointments" "started" None ;;;
  s <- self ;;
  if negb (truthy_str (_user_id s)) then ret Retrieve_identity_required
  else
    appts <- db (get_user_appointments (str_or (_user_id s) "")) ;;
    match appts with
    | [] =>
        _publish_update "retrieve_appointments" "completed" None ;;;
        ret Retrieve_none
    | _ :: _ =>
        _publish_update "retrieve_appointments" "completed" None ;;;
        ret (Retrieve_found
               (map (fun a => (Appt.start_time a, Appt.status a, Appt.id a))
                    appts))
    end.

Definition update_booking_details (appointment_id details : string)
  : M Call UpdateReply :=
  _publish_update "update_booking_details" "started" None ;;;
  success <- db (update_appointment appointment_id details) ;;
  if success then
    _publish_update "update_booking_details" "completed" None ;;;
    ret (Details_updated details)
  else
    _publish_update "update_booking_details" "failed" (Some "not_found") ;;;
    ret Details_not_found.

End MoreTools.

(** [get_session_data] on the in-memory store: the guest and the
    bookings of the call, read through the references the instance holds.
    There the dicts the instance holds are the dicts of the lists
    [Database.users] and [Database.appointments] themselves
    ([get_or_create_user] returns [user] or [new_user], and
    [create_appointment] returns [appt], after appending them), so a
    later write to the stored dict is seen through the instance; with a
    Supabase client the instance would hold the rows of the response
    instead, which is outside this model.  The third entry of the source,
    [_session_preferences], is a list no method writes and is not part of
    the model.  A row that is not in the store gives nothing; the instance
    never holds one. *)
Definition get_session_data (c : Call) : option User.t * list Appt.t :=
  (match _user_context (fst c) with
   | Some row => nth_error (users (snd c)) row
   | None => None
   end,
   flat_map (fun row =>
               match nth_error (appointments (snd c)) row with
               | Some a => [a]
               | None => []
               end)
            (_session_bookings (fst c))).

(** ** Call summaries of db.py *)

Module Summary.
Record t := mk {
  id : string;
  user_id : option string;
  content : string;
  bookings_snapshot : list nat;
  timestamp : string;
  created_at : string
}.
End Summary.

(** [dt.strftime('%Y%m%d%H%M%S')] *)
Definition strftime_compact (dt : datetime) : string :=
  pad 4 (year dt) ++ pad 2 (month dt) ++ pad 2 (day dt)
  ++ pad 2 (hour dt) ++ pad 2 (minute dt) ++ pad 2 (second dt).

Section Summaries.
Context {P : Platform}.

(** [save_summary] on the mock store: the state is [self.summaries] with
    the rest of the store; the bookings handed in are references to
    appointments, kept as rows. *)
Definition save_summary (user_id : option string) (content : string)
    (bookings : list nat) (timestamp : string)
  : M (list Summary.t * World) Summary.t :=
  fun st =>
    let w := snd st in
    let n1 := localtime (clock (ticks w)) in
    let n2 := localtime (clock (S (ticks w))) in
    let summary :=
      Summary.mk ("summary_" ++ strftime_compact n1) user_id content
                 bookings timestamp (isoformat n2) in
    (Ok summary, ((fst st ++ [summary])%list, tick (tick w))).

End Summaries.

(** ** Tool calls and what they do to the store *)

(** A call of one of the tools, with its arguments. *)
Inductive Tool :=
| T_identify_user (contact_number : string) (name : option string)
| T_fetch_slots
| T_book_appointment (start_time : string) (num_people : Z)
    (name contact_number : option string) (details : string)
| T_retrieve_appointments
| T_cancel_appointment (appointment_id : string)
| T_modify_appointment (appointment_id : string)
    (new_start_time : option string) (new_num_people : option Z)
    (new_details : option string)
| T_update_booking_details (appointment_id details : string).

Section Calls.
Context {P : Platform}.

(** The state after a tool call (an exception leaves the state it was
    raised in). *)
Definition exec (t : Tool) (c : Call) : Call :=
  match t with
  | T_identify_user number name => snd (identify_user number name c)
  | T_fetch_slots => snd (fetch_slots c)
  | T_book_appointment start n name number details =>
      snd (book_appointment start n name number details c)
  | T_retrieve_appointments => snd (retrieve_appointments c)
  | T_cancel_appointment x => snd (tool_cancel_appointment x c)
  | T_modify_appointment x t' n d => snd (modify_appointment x t' n d c)
  | T_update_booking_details x d => snd (update_booking_details x d c)
  end.

(** States of the store that tool calls lead to from the empty store, one
    call at a time, whatever instance makes each call. *)
Inductive served : World -> Prop :=
| served_init : served init_world
| served_call w s t : served w -> served (snd (exec t (s, w))).

(** The changes tool calls make to the store: none but clock reads; a
    guest resolved; an appointment created after [check_availability]
    answered yes; a cancellation; new details; an active appointment
    cancelled and created again at its own start time; and sequences of
    these. *)
Inductive store_step : World -> World -> Prop :=
| ss_same w w' : same_store w w' -> store_step w w'
| ss_user w c n : store_step w (snd (get_or_create_user c n w))
| ss_create w w1 u s n d :
    check_availability s n w = (Ok true, w1) ->
    store_step w (snd (create_appointment u s n d w1))
| ss_cancel w x : store_step w (snd (cancel_appointment x w))
| ss_update w x d : store_step w (snd (update_appointment x d w))
| ss_recreate w a u n d :
    In a (appointments w) -> Appt.status a <> cancelled ->
    store_step w
      (snd (create_appointment u (Appt.start_time a) n d
              (snd (cancel_appointment (Appt.id a) w))))
| ss_trans w1 w2 w3 :
    store_step w1 w2 -> store_step w2 w3 -> store_step w1 w3.

(** How many booked appointments the list holds at this start-time text. *)
Definition count_booked (start_time : string) (l : list Appt.t) : nat :=
  List.length
    (filter (fun a => String.eqb (Appt.start_time a) start_time
                      && Status_eqb (Appt.status a) booked) l).

(** At most one booked appointment per start-time text. *)
Definition exclusive (l : list Appt.t) : Prop :=
  forall s, (count_booked s l <= 1)%nat.

(** The start time parses and its hour lies in opening hours. *)
Definition valid_start (a : Appt.t) : Prop :=
  exists dt, fromisoformat (replace_Z (Appt.start_time a)) = Some dt /\
             10 <= hour dt < 22.

(** Every guest carries the id of its row. *)
Definition user_ids_by_row (l : list User.t) : Prop :=
  forall i u, nth_error l i = Some u ->
              User.id u = "user_" ++ str_of_nat (S i).

(** The rewriting [update_first] does when ids are pairwise distinct:
    the one record with the id is rewritten in place. *)
Definition rewrite_id (f : Appt.t -> Appt.t) (x : string) (a : Appt.t)
  : Appt.t :=
  if String.eqb (Appt.id a) x then f a else a.

End Calls.

(** ** A reference platform

    An executable instance of [Platform]: a parser for the ISO texts
    [YYYY-MM-DD], optionally followed by one separator character and
    [HH], [HH:MM] or [HH:MM:SS], a fraction of 3 or 6 digits and an offset
    [+HH:MM] or [-HH:MM]; a server whose time zone is a fixed offset from
    UTC; and a given sequence of clock readings. *)

Module Ref.

Definition digit_val (c : ascii) : option Z :=
  let n := nat_of_ascii c in
  if ((48 <=? n) && (n <=? 57))%nat then Some (Z.of_nat n - 48) else None.

(** Reads exactly [n] decimal digits. *)
Fixpoint digits (n : nat) (acc : Z) (s : string) : option (Z * string) :=
  match n with
  | O => Some (acc, s)
  | S k =>
      match s with
      | String c rest =>
          match digit_val c with
          | Some v => digits k (acc * 10 + v) rest
          | None => None
          end
      | EmptyString => None
      end
  end.

Definition expect (c : ascii) (s : string) : option string :=
  match s with
  | String c' rest => if Ascii.eqb c c' then Some rest else None
  | EmptyString => None
  end.

Definition is_leap (y : Z) : bool :=
  (y mod 4 =? 0) && (negb (y mod 100 =? 0) || (y mod 400 =? 0)).

Definition days_in_month (y m : Z) : Z :=
  if m =? 2 then (if is_leap y then 29 else 28)
  else if (m =? 4) || (m =? 6) || (m =? 9) || (m =? 11) then 30
  else 31.

Definition parse_date (s : string) : option (Z * Z * Z * string) :=
  match digits 4 0 s with
  | Some (y, s1) =>
      match expect "-" s1 with
      | Some s2 =>
          match digits 2 0 s2 with
          | Some (m, s3) =>
              match expect "-" s3 with
              | Some s4 =>
                  match digits 2 0 s4 with
                  | Some (d, s5) =>
                      if (1 <=? y) && (1 <=? m) && (m <=? 12) && (1 <=? d)
                         && (d <=? days_in_month y m)
                      then Some (y, m, d, s5) else None
                  | None => None
                  end
              | None => None
              end
          | None => None
          end
      | None => None
      end
  | None => None
  end.

(** [:NN] when present. *)
Definition opt_field (s : string) : option (option Z * string) :=
  match s with
  | String ":" rest =>
      match digits 2 0 rest with
      | Some (v, s') => Some (Some v, s')
      | None => None
      end
  | _ => Some (None, s)
  end.

(** [.fff] or [.ffffff] when present, in microseconds. *)
Definition opt_fraction (s : string) : option (Z * string) :=
  match s with
  | String "." rest =>
      match digits 6 0 rest with
      | Some (v, s') => Some (v, s')
      | None =>
          match digits 3 0 rest with
          | Some (v, s') => Some (v * 1000, s')
          | None => None
          end
      end
  | _ => Some (0, s)
  end.

(** The offset suffix: nothing, or a sign and [HH:MM]. *)
Definition parse_offset (s : string) : option (option Z) :=
  match s with
  | EmptyString => Some None
  | String c rest =>
      let sign :=
        if Ascii.eqb c "+" then Some 1
        else if Ascii.eqb c "-" then Some (-1) else None in
      match sign with
      | Some sg =>
          match digits 2 0 rest with
          | Some (h, s1) =>
              match expect ":" s1 with
              | Some s2 =>
                  match digits 2 0 s2 with
                  | Some (m, EmptyString) =>
                      if (h <? 24) && (m <? 60)
                      then Some (Some (sg * (h * 3600 + m * 60) * 1000000))
                      else None
                  | _ => None
                  end
              | None => None
              end
          | None => None
          end
      | None => None
      end
  end.

Definition parse_time (y m d : Z) (s : string) : option datetime :=
  match digits 2 0 s with
  | Some (hh, s1) =>
      match opt_field s1 with
      | Some (omm, s2) =>
          match (match omm with
                 | Some _ => opt_field s2
                 | None => Some (None, s2)
                 end) with
          | Some (oss, s3) =>
              match (match oss with
                     | Some _ => opt_fraction s3
                     | None => Some (0, s3)
                     end) with
              | Some (us, s4) =>
                  let mm := match omm with Some v => v | None => 0 end in
                  let ss := match oss with Some v => v | None => 0 end in
                  match parse_offset s4 with
                  | Some tz =>
                      if (hh <? 24) && (mm <? 60) && (ss <? 60)
                      then Some (mkdt y m d hh mm ss us tz) else None
                  | None => None
                  end
              | None => None
              end
          | None => None
          end
      | None => None
      end
  | None => None
  end.

Definition parse (s : string) : option datetime :=
  match parse_date s with
  | Some (y, m, d, EmptyString) => Some (mkdt y m d 0 0 0 0 None)
  | Some (y, m, d, String _ rest) => parse_time y m d rest
  | None => None
  end.

(** The float of an integer below 2^53 in size, which a float holds
    exactly. *)
Definition to_float (z : Z) : float :=
  match z with
  | Z0 => 0%float
  | Zpos _ => PrimFloat.of_uint63 (Uint63.of_Z z)
  | Zneg p => (- PrimFloat.of_uint63 (Uint63.of_Z (Zpos p)))%float
  end.

(** [a / b] of two positive Python integers: the float nearest to the
    quotient. *)
Definition true_div (a b : positive) : float :=
  FloatOps.SF2Prim
    (SpecFloat.SFdiv FloatOps.prec FloatOps.emax
       (SpecFloat.S754_finite false a 0) (SpecFloat.S754_finite false b 0)).

(** [timedelta.total_seconds()] of [us] microseconds. *)
Definition total_seconds (us : Z) : float :=
  match us with
  | Z0 => 0%float
  | Zpos p => true_div p 1000000
  | Zneg p => (- true_div p 1000000)%float
  end.

(** Does the civil time [secs] seconds after 1970-01-01T00:00:00 lie in
    the years 1 to 9999? *)
Definition in_calendar (secs : Z) : bool :=
  let y := d_year (civil_from_days (secs / 86400)) in
  (1 <=? y) && (y <=? 9999).

(** [dt.timestamp()] of CPython on a server at the constant offset
    [utcoffset] (microseconds).  An aware value is
    [(dt - epoch).total_seconds()].  A naive value goes through
    [local_to_seconds], which converts three instants to local time (the
    fields read as UTC, the candidate [u1] and the instant a day before
    it) and raises [ValueError] when one of them leaves the calendar; the
    result is [u1 + microsecond / 1e6] in floats. *)
Definition posix (utcoffset : Z) (dt : datetime) : option float :=
  match tzinfo dt with
  | Some off => Some (total_seconds (civil_us dt - off))
  | None =>
      let t := civil_us dt / 1000000 in
      let a := utcoffset / 1000000 in
      let u1 := t - a in
      let u2 := u1 - 86400 in
      if in_calendar (t + a) && in_calendar (u1 + a) && in_calendar (u2 + a)
      then Some (to_float u1 + to_float (microsecond dt) / 1000000)%float
      else None
  end.

(** A part of the Unicode table of digits, on characters in UTF-8: the
    ASCII digits, the superscripts two, three and one, the Arabic-Indic
    and extended Arabic-Indic digits, the Devanagari digits and the
    full-width digits. *)
Definition unicode_isdigit (ch : string) : bool :=
  match ch with
  | String c EmptyString =>
      ((48 <=? nat_of_ascii c) && (nat_of_ascii c <=? 57))%nat
  | String c1 (String c2 EmptyString) =>
      let a := nat_of_ascii c1 in
      let b := nat_of_ascii c2 in
      ((a =? 194) && ((b =? 178) || (b =? 179) || (b =? 185))
       || (a =? 217) && (160 <=? b) && (b <=? 169)
       || (a =? 219) && (176 <=? b) && (b <=? 185))%nat
  | String c1 (String c2 (String c3 EmptyString)) =>
      let a := nat_of_ascii c1 in
      let b := nat_of_ascii c2 in
      let c := nat_of_ascii c3 in
      ((a =? 224) && (b =? 165) && (166 <=? c) && (c <=? 175)
       || (a =? 239) && (b =? 188) && (144 <=? c) && (c <=? 153))%nat
  | _ => false
  end.

(** [utcoffset] is the server's offset from UTC in microseconds. *)
Definition platform (utcoffset : Z) (readings : nat -> Z) : Platform :=
  {| fromisoformat := parse;
     timestamp := posix utcoffset;
     localtime := fun t => civil_of_us (t + utcoffset);
     clock := readings;
     isdigit := unicode_isdigit;
     localtime_naive := fun t => eq_refl;
     isdigit_ascii := fun c _ => eq_refl |}.

(** Indian Standard Time, UTC+05:30. *)
Definition IST : Z := 19800 * 1000000.

End Ref.

(** The value of a timestamp that was computed (zero stands in for one
    that was not). *)
Definition stamp (o : option float) : float :=
  match o with
  | Some a => a
  | None => 0%float
  end.

(** ** Scenarios

    Concrete platforms and states on which the properties are exercised. *)

Module Demo.

(** A server in Kochi whose clock first shows 2026-10-27T09:00:00 local
    time and advances one second per reading. *)
Definition start : Z := civil_us (mkdt 2026 10 27 9 0 0 0 None) - Ref.IST.

Definition readings (n : nat) : Z := start + 1000000 * Z.of_nat n.

Definition platform : Platform := Ref.platform Ref.IST readings.

Definition seven_pm : datetime := mkdt 2026 10 27 19 0 0 0 None.

(** States of a call on that server: Ana identifies herself, books 19:00
    for two, then 18:00 for four. *)
Definition fresh : Call := (new_tools (Some []), init_world).

Definition ana : Call :=
  snd (@identify_user platform "555-123-4567" (Some "Ana") fresh).

Definition ana_booked : Call :=
  snd (@book_appointment platform "2026-10-27T19:00:00" 2 None None
         "General Reservation" ana).

Definition ana_two : Call :=
  snd (@book_appointment platform "2026-10-27T18:00:00" 4 None None
         "General Reservation" ana_booked).

(** Her first appointment as it is stored. *)
Definition appt1 : Appt.t :=
  Appt.mk "appt_1" "user_1" "2026-10-27T19:00:00" "TBD" booked (Some 2)
          "Guests: 2. General Reservation" "2026-10-27T09:00:02".

End Demo.

(** The scenario of the specification: the same server on the morning of
    2023-10-27, and two requests for 19:00 that day. *)
Module Demo23.

Definition start : Z := civil_us (mkdt 2023 10 27 9 0 0 0 None) - Ref.IST.

Definition readings (n : nat) : Z := start + 1000000 * Z.of_nat n.

Definition platform : Platform := Ref.platform Ref.IST readings.

Definition ana : Call :=
  snd (@identify_user platform "555-123-4567" (Some "Ana") Demo.fresh).

Definition first : Res Reply * Call :=
  @book_appointment platform "2023-10-27T19:00:00" 2 (Some "Ana")
    (Some "555-123-4567") "General Reservation" Demo.fresh.

Definition second : Res Reply * Call :=
  @book_appointment platform "2023-10-27T19:00:00" 2 (Some "Ana")
    (Some "555-123-4567") "General Reservation" (snd first).

End Demo23.

(** Further states and platforms for the properties of the later
    sections. *)
Module Demo2.

(** The server of [Demo] with a clock that is set forward by 400 days
    after its first reading. *)
Definition jump (n : nat) : Z :=
  match n with
  | O => Demo.start
  | S _ => Demo.start + 400 * 86400 * 1000000
  end.

Definition jumping : Platform := Ref.platform Ref.IST jump.

(** A second caller, Ben, on the store Ana's call has left. *)
Definition ben : Call :=
  snd (@identify_user Demo.platform "555-000-1111" (Some "Ben")
         (new_tools None, snd Demo.ana_two)).

(** The server of [Demo] with a clock that is read every millisecond. *)
Definition quick : Platform :=
  Ref.platform Ref.IST (fun n => Demo.start + 1000 * Z.of_nat n).

(** Ana's second appointment as it is stored. *)
Definition appt2 : Appt.t :=
  Appt.mk "appt_2" "user_1" "2026-10-27T18:00:00" "TBD" booked (Some 4)
          "Guests: 4. General Reservation" "2026-10-27T09:00:04".

(** A booking of Ana for four as the Supabase branch of
    [create_appointment] sends it: [appt_data] has the end time equal to
    the start time and no [num_people]. *)
Definition remote : Appt.t :=
  Appt.mk "appt_1" "user_1" "2026-10-27T19:00:00" "2026-10-27T19:00:00"
          booked None "Guests: 4. General Reservation"
          "2026-10-27T09:00:02".

(** Ana's session over a store that holds this record. *)
Definition ana_remote : Call :=
  (fst Demo.ana, set_appointments [remote] (snd Demo.ana)).

(** The Arabic-Indic digit [d] (U+0660 to U+0669) in UTF-8. *)
Definition arabic_indic (d : nat) : string :=
  String (ascii_of_nat 217) (String (ascii_of_nat (160 + d)%nat) "").

(** The number 555 123 4567 written in Arabic-Indic digits, with spaces. *)
Definition arabic_number : string :=
  join (map arabic_indic [5; 5; 5]%nat) ++ " "
  ++ join (map arabic_indic [1; 2; 3]%nat) ++ " "
  ++ join (map arabic_indic [4; 5; 6; 7]%nat).

End Demo2.

(** * Properties *)

(** ** Running the monad *)

Ltac run :=
  unfold now in *;
  unfold bind, ret, get, put, raise, lift_res, read_clock in *;
  cbn beta iota zeta in *.

(** ** Availability *)

Section Availability.
Context {P : Platform}.

(** [check_availability] in closed form: the three validations in their
    order, then the query of the store. *)
Lemma check_availability_eq (s : string) (n : Z) (w : World) :
  check_availability s n w =
  match fromisoformat (replace_Z s) with
  | None => (Ok false, w)
  | Some dt =>
      (Ok (if time_refused dt (clock (ticks w)) then false
           else if negb (open_at dt) then false
           else negb (booked_at s (appointments w))),
       tick w)
  end.
Proof.
  unfold check_availability, time_refused, past_test, open_at.
  destruct (fromisoformat (replace_Z s)) as [dt|]; [|reflexivity].
  run.
  destruct (timestamp dt) as [a|]; [|reflexivity].
  destruct (timestamp (now_like dt (clock (ticks w)))) as [b|];
    [|reflexivity].
  destruct (a <? b - 120)%float; [reflexivity|].
  destruct ((hour dt <? opening_hour) || (hour dt >=? closing_hour));
    reflexivity.
Qed.

(** The time test lets a start time through exactly when both timestamps
    are computed and the start is not more than 120 seconds before the
    clock. *)
Lemma time_refused_false (dt : datetime) (t : Z) :
  time_refused dt t = false <-> past_test dt t = Some false.
Proof.
  unfold time_refused.
  destruct (past_test dt t) as [[|]|]; split; congruence.
Qed.

Lemma check_availability_total (s : string) (n : Z) (w : World) :
  exists b, fst (check_availability s n w) = Ok b.
Proof.
  rewrite check_availability_eq.
  destruct (fromisoformat (replace_Z s)); simpl; eauto.
Qed.

(** The check reads the store and the clock; it writes neither list. *)
Lemma check_availability_frame (s : string) (n : Z) (w : World) :
  users (snd (check_availability s n w)) = users w /\
  appointments (snd (check_availability s n w)) = appointments w.
Proof.
  rewrite check_availability_eq.
  destruct (fromisoformat (replace_Z s)); simpl; auto.
Qed.

Lemma open_at_hours (dt : datetime) :
  open_at dt = true <-> 10 <= hour dt < 22.
Proof.
  unfold open_at, opening_hour, closing_hour.
  rewrite negb_true_iff, orb_false_iff, Z.ltb_ge, Z.geb_leb, Z.leb_gt.
  lia.
Qed.

End Availability.

(** ** Lists of appointments *)

Lemma booked_at_app (s : string) (l1 l2 : list Appt.t) :
  booked_at s (l1 ++ l2) = booked_at s l1 || booked_at s l2.
Proof. unfold booked_at. apply existsb_app. Qed.

Lemma booked_at_false_iff (s : string) (l : list Appt.t) :
  booked_at s l = false <->
  forall a, In a l -> Appt.start_time a = s -> Appt.status a <> booked.
Proof.
  unfold booked_at. induction l as [|x l IH]; simpl.
  - split; [intros _ a []|reflexivity].
  - rewrite orb_false_iff, IH. split.
    + intros [Hx Hl] a [E|Ha] Hs.
      * subst x. rewrite <- Hs, String.eqb_refl in Hx. simpl in Hx.
        destruct (Appt.status a); [discriminate|congruence].
      * now apply Hl.
    + intros H. split.
      * destruct (String.eqb_spec (Appt.start_time x) s) as [E|]; [|reflexivity].
        specialize (H x (or_introl eq_refl) E).
        destruct (Appt.status x); [congruence|reflexivity].
      * intros a Ha. apply H. now right.
Qed.

(** The decimal text of a number determines the number. *)
Lemma str_of_nat_inj (n m : nat) : str_of_nat n = str_of_nat m -> n = m.
Proof.
  unfold str_of_nat. intros H.
  apply Unsigned.to_uint_inj.
  assert (E : NilEmpty.uint_of_string (NilEmpty.string_of_uint (Nat.to_uint n))
              = NilEmpty.uint_of_string (NilEmpty.string_of_uint (Nat.to_uint m)))
    by now rewrite H.
  rewrite !NilEmpty.usu in E. congruence.
Qed.

Lemma ids_by_row_nil : ids_by_row [].
Proof. intros [|i] a H; discriminate. Qed.

Lemma ids_by_row_snoc (l : list Appt.t) (a : Appt.t) :
  ids_by_row l ->
  Appt.id a = "appt_" ++ str_of_nat (S (List.length l)) ->
  ids_by_row (l ++ [a]).
Proof.
  intros Hl Ha i b Hi.
  destruct (Nat.lt_ge_cases i (List.length l)) as [Hlt|Hge].
  - rewrite nth_error_app1 in Hi by assumption. now apply Hl.
  - rewrite nth_error_app2 in Hi by assumption.
    destruct (i - List.length l)%nat as [|k] eqn:E; simpl in Hi.
    + injection Hi as <-. rewrite Ha. do 2 f_equal. lia.
    + destruct k; discriminate.
Qed.

Lemma update_first_length (f : Appt.t -> Appt.t) (x : string)
    (l l' : list Appt.t) :
  update_first f x l = Some l' -> List.length l' = List.length l.
Proof.
  revert l'. induction l as [|a l IH]; simpl; intros l' H; [discriminate|].
  destruct (String.eqb (Appt.id a) x).
  - injection H as <-. reflexivity.
  - destruct (update_first f x l) as [r|]; [|discriminate].
    injection H as <-. simpl. f_equal. now apply IH.
Qed.

(** Rewriting a field other than the id keeps the ids in their rows. *)
Lemma update_first_ids (f : Appt.t -> Appt.t) (x : string)
    (l l' : list Appt.t) :
  (forall a, Appt.id (f a) = Appt.id a) ->
  update_first f x l = Some l' ->
  map Appt.id l' = map Appt.id l.
Proof.
  intros Hf. revert l'.
  induction l as [|a l IH]; simpl; intros l' H; [discriminate|].
  destruct (String.eqb (Appt.id a) x).
  - injection H as <-. simpl. now rewrite Hf.
  - destruct (update_first f x l) as [r|]; [|discriminate].
    injection H as <-. simpl. f_equal. now apply IH.
Qed.

Lemma ids_by_row_map (l l' : list Appt.t) :
  map Appt.id l' = map Appt.id l -> ids_by_row l -> ids_by_row l'.
Proof.
  intros E Hl i a Hi.
  assert (Hm : nth_error (map Appt.id l') i = Some (Appt.id a))
    by (rewrite nth_error_map, Hi; reflexivity).
  rewrite E, nth_error_map in Hm.
  destruct (nth_error l i) as [b|] eqn:Hb; [|discriminate].
  injection Hm as <-. now apply Hl.
Qed.

(** No stored appointment has the id the next one will get. *)
Lemma ids_by_row_fresh (l : list Appt.t) (a : Appt.t) :
  ids_by_row l -> In a l ->
  Appt.id a <> "appt_" ++ str_of_nat (S (List.length l)).
Proof.
  intros Hl Ha E.
  apply In_nth_error in Ha. destruct Ha as [i Hi].
  assert (Hlt : (i < List.length l)%nat)
    by (apply nth_error_Some; congruence).
  rewrite (Hl i a Hi) in E. simpl in E.
  injection E as E. apply str_of_nat_inj in E. lia.
Qed.

Lemma update_first_none (f : Appt.t -> Appt.t) (x : string)
    (l : list Appt.t) :
  update_first f x l = None <-> forall a, In a l -> Appt.id a <> x.
Proof.
  induction l as [|a l IH]; simpl.
  - split; [intros _ b []|reflexivity].
  - destruct (String.eqb_spec (Appt.id a) x) as [E|NE].
    + split; [discriminate|]. intros H. now destruct (H a (or_introl eq_refl)).
    + destruct (update_first f x l) as [r|].
      * split; [discriminate|]. intros H.
        assert (N : Some r = None)
          by (apply IH; intros b Hb; apply H; now right).
        discriminate.
      * split; [|reflexivity]. intros _ b [E|Hb]; [now subst b|].
        now apply (proj1 IH).
Qed.

(** The loop passes over a prefix without the id. *)
Lemma update_first_skip (f : Appt.t -> Appt.t) (x : string)
    (l1 l2 : list Appt.t) :
  (forall a, In a l1 -> Appt.id a <> x) ->
  update_first f x (l1 ++ l2) =
  option_map (app l1) (update_first f x l2).
Proof.
  induction l1 as [|a l1 IH]; simpl; intros H.
  - destruct (update_first f x l2); reflexivity.
  - destruct (String.eqb_spec (Appt.id a) x) as [E|NE].
    + now destruct (H a (or_introl eq_refl)).
    + rewrite IH by (intros b Hb; apply H; now right).
      destruct (update_first f x l2); reflexivity.
Qed.

(** ** Guests *)

Lemma lookup_user_none (us : list User.t) (c : string) (n : option string) :
  lookup_user us c n = None <->
  forall u, In u us -> User.contact_number u <> c.
Proof.
  induction us as [|x us IH]; simpl.
  - split; [intros _ u []|reflexivity].
  - destruct (String.eqb_spec (User.contact_number x) c) as [E|NE].
    + split; [discriminate|]. intros H. now destruct (H x (or_introl eq_refl)).
    + destruct (lookup_user us c n) as [[us' [i u]]|].
      * split; [discriminate|]. intros H.
        assert (N : Some (us', (i, u)) = None)
          by (apply IH; intros b Hb; apply H; now right).
        discriminate.
      * split; [|reflexivity]. intros _ b [E|Hb]; [now subst b|].
        now apply (proj1 IH).
Qed.

(** What the loop of [get_or_create_user] does when it finds the number:
    row [i] is the first with this number; it alone may change, and only
    in its name. *)
Lemma lookup_user_some (us us' : list User.t) (c : string)
    (n : option string) (i : nat) (u : User.t) :
  lookup_user us c n = Some (us', (i, u)) ->
  exists u0,
    nth_error us i = Some u0 /\
    nth_error us' i = Some u /\
    User.contact_number u0 = c /\
    u = (if truthy_str n then User.set_name (str_or n "") u0 else u0) /\
    List.length us' = List.length us /\
    map User.contact_number us' = map User.contact_number us /\
    map User.id us' = map User.id us /\
    (forall j, j <> i -> nth_error us' j = nth_error us j).
Proof.
  revert us' i u. induction us as [|x us IH]; simpl; intros us' i u H.
  - discriminate.
  - destruct (String.eqb_spec (User.contact_number x) c) as [E|NE].
    + injection H as <- <- <-. exists x. simpl.
      repeat split; try reflexivity; try assumption.
      * destruct (truthy_str n); reflexivity.
      * destruct (truthy_str n); reflexivity.
      * intros [|j] Hj; [congruence|reflexivity].
    + destruct (lookup_user us c n) as [[r [k v]]|] eqn:L; [|discriminate].
      injection H as <- <- <-.
      destruct (IH r k v eq_refl) as (u0 & H1 & H2 & H3 & H4 & H5 & H6 & H7 & H8).
      exists u0. simpl. repeat split; try assumption; try congruence.
      intros [|j] Hj; [reflexivity|]. simpl. apply H8. congruence.
Qed.

Section Guests.
Context {P : Platform}.

Lemma get_or_create_user_eq (c : string) (n : option string) (w : World) :
  get_or_create_user c n w =
  match lookup_user (users w) c n with
  | Some (us', found) => (Ok found, set_users us' w)
  | None =>
      (Ok (List.length (users w), new_user w c n),
       set_users (users w ++ [new_user w c n]) (tick w))
  end.
Proof.
  unfold get_or_create_user. run.
  destruct (lookup_user (users w) c n) as [[us' found]|]; reflexivity.
Qed.

(** After the call the number is stored, in the returned row. *)
Lemma get_or_create_user_stored (c : string) (n : option string) (w : World) :
  exists i u,
    get_or_create_user c n w = (Ok (i, u), snd (get_or_create_user c n w)) /\
    nth_error (users (snd (get_or_create_user c n w))) i = Some u /\
    User.contact_number u = c /\
    (truthy_str n = true -> User.name u = str_or n "").
Proof.
  rewrite get_or_create_user_eq.
  destruct (lookup_user (users w) c n) as [[us' [i u]]|] eqn:L.
  - destruct (lookup_user_some _ _ _ _ _ _ L)
      as (u0 & H1 & H2 & H3 & H4 & _).
    exists i, u. simpl. repeat split; try assumption.
    + subst u. destruct (truthy_str n); simpl; assumption.
    + intros T. subst u. rewrite T. reflexivity.
  - exists (List.length (users w)), (new_user w c n). simpl.
    repeat split.
    + rewrite nth_error_app2, Nat.sub_diag by apply Nat.le_refl. reflexivity.
    + intros T. destruct n as [s|]; simpl in *; [|discriminate].
      destruct (String.eqb s ""); [discriminate|reflexivity].
Qed.

(** The numbers stored stay pairwise distinct. *)
Lemma get_or_create_user_NoDup (c : string) (n : option string) (w : World) :
  NoDup (map User.contact_number (users w)) ->
  NoDup (map User.contact_number (users (snd (get_or_create_user c n w)))).
Proof.
  intros H. rewrite get_or_create_user_eq.
  destruct (lookup_user (users w) c n) as [[us' [i u]]|] eqn:L; simpl.
  - destruct (lookup_user_some _ _ _ _ _ _ L)
      as (_ & _ & _ & _ & _ & _ & E & _).
    now rewrite E.
  - rewrite map_app. simpl.
    apply NoDup_app; [assumption|repeat constructor; intros []|].
    intros x Hx [E|[]]. simpl in E. subst x.
    apply in_map_iff in Hx. destruct Hx as (u & Hu & Hin).
    exact (proj1 (lookup_user_none _ _ _) L u Hin Hu).
Qed.

End Guests.

(** ** The search for the next slot *)

Section NextSlot.
Context {P : Platform}.

Lemma same_store_refl (w : World) : same_store w w.
Proof. split; reflexivity. Qed.

Lemma same_store_trans (w1 w2 w3 : World) :
  same_store w1 w2 -> same_store w2 w3 -> same_store w1 w3.
Proof. intros [A B] [C D]. split; congruence. Qed.

Lemma same_store_tick (w : World) : same_store w (tick w).
Proof. split; reflexivity. Qed.

Lemma check_availability_same_store (s : string) (n : Z) (w w1 : World)
    (r : Res bool) :
  check_availability s n w = (r, w1) -> same_store w w1.
Proof.
  intros E. pose proof (check_availability_frame s n w) as F.
  now rewrite E in F.
Qed.

Lemma dt_le_naive (a b : datetime) :
  tzinfo a = None -> tzinfo b = None -> exists r, dt_le a b = Ok r.
Proof.
  intros Ha Hb. unfold dt_le, dt_compare. rewrite Ha, Hb.
  destruct (lex_compare (fields a) (fields b)); eauto.
Qed.

Lemma max_dt_naive (dt n : datetime) :
  tzinfo dt = None -> tzinfo n = None ->
  exists r, max_dt dt n = Ok r /\ tzinfo r = None /\ (r = dt \/ r = n).
Proof.
  intros Ha Hb. unfold max_dt, dt_gt, dt_compare. rewrite Ha, Hb.
  destruct (lex_compare (fields n) (fields dt)); eauto.
Qed.

(** Comparing an aware value with the naive "now" raises. *)
Lemma max_dt_aware (dt n : datetime) (off : Z) :
  tzinfo dt = Some off -> tzinfo n = None -> max_dt dt n = Raise TypeError.
Proof.
  intros Ha Hb. unfold max_dt, dt_gt, dt_compare. now rewrite Ha, Hb.
Qed.

Lemma scan_hours_same_store (d : date) (ref : datetime) (hs : list Z)
    (w w1 : World) (r : Res (option string)) :
  scan_hours d ref hs w = (r, w1) -> same_store w w1.
Proof.
  revert w. induction hs as [|h hs IH]; intros w; simpl.
  - run. intros H. injection H as <- <-. apply same_store_refl.
  - unfold bind, lift_res.
    destruct (dt_le (combine_hour d h) ref) as [[|]|e]; simpl.
    + apply IH.
    + destruct (check_availability _ 1 w) as [[[|]|e] w2] eqn:E; simpl;
        apply check_availability_same_store in E.
      * unfold ret. intros H. now injection H as <- <-.
      * intros H. eapply same_store_trans; [exact E|]. now apply IH.
      * intros H. now injection H as <- <-.
    + intros H. injection H as <- <-. apply same_store_refl.
Qed.

Lemma scan_days_same_store (ref : datetime) (ks : list Z) (w w1 : World)
    (r : Res (option string)) :
  scan_days ref ks w = (r, w1) -> same_store w w1.
Proof.
  revert w. induction ks as [|k ks IH]; intros w; cbn [scan_days].
  - unfold ret. intros H. injection H as <- <-. apply same_store_refl.
  - destruct (date_add_days (date_of ref) k) as [d|].
    2:{ unfold raise. intros H. injection H as <- <-. apply same_store_refl. }
    unfold bind.
    destruct (scan_hours d ref available_hours w) as [[[s|]|e] w2] eqn:E;
      simpl; apply scan_hours_same_store in E.
    + unfold ret. intros H. now injection H as <- <-.
    + intros H. eapply same_store_trans; [exact E|]. now apply IH.
    + intros H. now injection H as <- <-.
Qed.

Lemma get_next_available_slot_same_store (s : string) (w w1 : World)
    (r : Res (option string)) :
  get_next_available_slot s w = (r, w1) -> same_store w w1.
Proof.
  unfold get_next_available_slot. run.
  destruct (max_dt _ _) as [ref|e].
  - intros H. eapply same_store_trans; [apply same_store_tick|].
    eapply scan_days_same_store; exact H.
  - intros H. injection H as <- <-. apply same_store_tick.
Qed.

(** A slot returned by the inner loop is a candidate hour of that day,
    later than the reference time, and it is the text for which
    [check_availability] has just answered yes. *)
Lemma scan_hours_sound (d : date) (ref : datetime) (hs : list Z)
    (w w' : World) (slot : string) :
  scan_hours d ref hs w = (Ok (Some slot), w') ->
  exists h wk,
    In h hs /\
    slot = strftime_iso (combine_hour d h) /\
    dt_le (combine_hour d h) ref = Ok false /\
    same_store w wk /\
    check_availability slot 1 wk = (Ok true, w').
Proof.
  revert w. induction hs as [|h hs IH]; intros w; simpl.
  - run. discriminate.
  - unfold bind, lift_res.
    destruct (dt_le (combine_hour d h) ref) as [[|]|e] eqn:L; simpl.
    + intros H. destruct (IH w H) as (h' & wk & ? & ? & ? & ? & ?).
      exists h', wk. auto.
    + destruct (check_availability _ 1 w) as [[[|]|e] w1] eqn:E; simpl.
      * unfold ret. intros H. injection H as <- <-.
        exists h, w. repeat split; auto.
      * intros H. destruct (IH w1 H) as (h' & wk & ? & ? & ? & S & ?).
        apply check_availability_same_store in E.
        exists h', wk. repeat split; auto;
          apply (same_store_trans _ _ _ E S).
      * discriminate.
    + discriminate.
Qed.

Lemma scan_days_sound (ref : datetime) (ks : list Z) (w w' : World)
    (slot : string) :
  scan_days ref ks w = (Ok (Some slot), w') ->
  exists k d h wk,
    In k ks /\ date_add_days (date_of ref) k = Some d /\
    In h available_hours /\
    slot = strftime_iso (combine_hour d h) /\
    dt_le (combine_hour d h) ref = Ok false /\
    same_store w wk /\
    check_availability slot 1 wk = (Ok true, w').
Proof.
  revert w. induction ks as [|k ks IH]; intros w; cbn [scan_days].
  - unfold ret. discriminate.
  - destruct (date_add_days (date_of ref) k) as [d|] eqn:D;
      [|unfold raise; discriminate].
    unfold bind.
    destruct (scan_hours d ref available_hours w) as [[[s|]|e] w1] eqn:E;
      simpl.
    + unfold ret. intros H. injection H as <- <-.
      destruct (scan_hours_sound _ _ _ _ _ _ E) as (h & wk & ? & ? & ? & ? & ?).
      exists k, d, h, wk. repeat split; auto; apply H2.
    + intros H.
      destruct (IH w1 H) as (k' & d' & h & wk & ? & ? & ? & ? & ? & S & ?).
      apply scan_hours_same_store in E.
      exists k', d', h, wk. repeat split; auto;
        apply (same_store_trans _ _ _ E S).
    + discriminate.
Qed.

Lemma get_next_available_slot_eq (from_time : string) (w : World) :
  get_next_available_slot from_time w =
  match reference_of from_time w with
  | Ok ref => scan_days ref range7 (tick w)
  | Raise e => (Raise e, tick w)
  end.
Proof.
  unfold get_next_available_slot, reference_of. run.
  destruct (fromisoformat (replace_Z from_time));
    destruct (max_dt _ _); reflexivity.
Qed.

(** Whatever [get_next_available_slot] returns is one of the candidate
    hours on one of the seven days from the reference date on, strictly
    later than the reference time, and available at the moment of
    return. *)
Lemma get_next_available_slot_sound (from_time slot : string)
    (w w' : World) :
  get_next_available_slot from_time w = (Ok (Some slot), w') ->
  exists ref k d h wk,
    reference_of from_time w = Ok ref /\
    In k range7 /\ date_add_days (date_of ref) k = Some d /\
    In h available_hours /\
    slot = strftime_iso (combine_hour d h) /\
    dt_le (combine_hour d h) ref = Ok false /\
    same_store w wk /\
    check_availability slot 1 wk = (Ok true, w').
Proof.
  rewrite get_next_available_slot_eq.
  destruct (reference_of from_time w) as [ref|e]; [|discriminate].
  intros H.
  destruct (scan_days_sound _ _ _ _ _ H)
    as (k & d & h & wk & ? & ? & ? & ? & ? & S & ?).
  exists ref, k, d, h, wk. repeat split; auto; apply S.
Qed.

(** An aware [from_time] makes [max(dt, now)] raise. *)
Lemma get_next_available_slot_aware (from_time : string) (dt : datetime)
    (off : Z) (w : World) :
  fromisoformat (replace_Z from_time) = Some dt ->
  tzinfo dt = Some off ->
  get_next_available_slot from_time w = (Raise TypeError, tick w).
Proof.
  intros Hp Ht. rewrite get_next_available_slot_eq.
  unfold reference_of. rewrite Hp.
  now rewrite (max_dt_aware dt _ off Ht (localtime_naive _)).
Qed.

(** With a naive reference time the inner loop returns. *)
Lemma scan_hours_returns (d : date) (ref : datetime) (hs : list Z)
    (w : World) :
  tzinfo ref = None -> exists r, fst (scan_hours d ref hs w) = Ok r.
Proof.
  intros Hn. revert w. induction hs as [|h hs IH]; intros w; cbn [scan_hours].
  - unfold ret. cbn [fst]. eauto.
  - unfold bind, lift_res.
    destruct (dt_le_naive (combine_hour d h) ref eq_refl Hn) as [[|] E];
      rewrite E.
    + apply IH.
    + destruct (check_availability_total (strftime_iso (combine_hour d h)) 1 w)
        as [b Hb].
      destruct (check_availability _ 1 w) as [rc w1].
      cbn [fst] in Hb. subst rc. destruct b; [unfold ret; cbn [fst]; eauto|].
      apply IH.
Qed.

(** With a naive reference time whose next six days exist, the outer loop
    returns. *)
Lemma scan_days_returns (ref : datetime) (ks : list Z) (w : World) :
  tzinfo ref = None ->
  (forall k, In k ks -> date_add_days (date_of ref) k <> None) ->
  exists r, fst (scan_days ref ks w) = Ok r.
Proof.
  intros Hn. revert w. induction ks as [|k ks IH]; intros w Hd;
    cbn [scan_days].
  - unfold ret. cbn [fst]. eauto.
  - destruct (date_add_days (date_of ref) k) as [d|] eqn:D.
    2:{ now destruct (Hd k (or_introl eq_refl)). }
    unfold bind.
    destruct (scan_hours_returns d ref available_hours w Hn) as [r Hr].
    destruct (scan_hours d ref available_hours w) as [rs w1].
    cbn [fst] in Hr. subst rs. destruct r as [slot|].
    + unfold ret. cbn [fst]. eauto.
    + apply IH. intros j Hj. apply Hd. now right.
Qed.

(** A [from_time] that does not parse, or parses to a naive value, gives
    a result and no exception, as long as the seven days scanned exist. *)
Lemma get_next_available_slot_returns (from_time : string) (w : World) :
  (forall dt, fromisoformat (replace_Z from_time) = Some dt ->
              tzinfo dt = None) ->
  (forall ref k, reference_of from_time w = Ok ref -> In k range7 ->
                 date_add_days (date_of ref) k <> None) ->
  exists r, fst (get_next_available_slot from_time w) = Ok r.
Proof.
  intros Hn Hd. rewrite get_next_available_slot_eq.
  assert (R : exists ref, reference_of from_time w = Ok ref
                          /\ tzinfo ref = None).
  { unfold reference_of.
    destruct (fromisoformat (replace_Z from_time)) as [dt|].
    - destruct (max_dt_naive dt (localtime (clock (ticks w)))
                  (Hn dt eq_refl) (localtime_naive _))
        as (r & E & Hr & _).
      eauto.
    - destruct (max_dt_naive (localtime (clock (ticks w)))
                  (localtime (clock (ticks w)))
                  (localtime_naive _) (localtime_naive _))
        as (r & E & Hr & _).
      eauto. }
  destruct R as (ref & E & Hr). rewrite E.
  apply scan_days_returns; [assumption|].
  intros k Hk. now apply (Hd ref k).
Qed.

(** When the inner loop finds nothing, every candidate hour of the day
    was either not after the reference time or refused by
    [check_availability]. *)
Lemma scan_hours_none (d : date) (ref : datetime) (hs : list Z)
    (w w' : World) :
  scan_hours d ref hs w = (Ok None, w') ->
  forall h, In h hs ->
    dt_le (combine_hour d h) ref = Ok true \/
    exists wk, same_store w wk /\
      fst (check_availability (strftime_iso (combine_hour d h)) 1 wk)
      = Ok false.
Proof.
  revert w. induction hs as [|h hs IH]; intros w; cbn [scan_hours].
  - intros _ h [].
  - unfold bind, lift_res.
    destruct (dt_le (combine_hour d h) ref) as [[|]|e] eqn:L.
    + intros H x [<-|Hx]; [now left|]. now apply (IH w H).
    + destruct (check_availability _ 1 w) as [[[|]|e] w1] eqn:E.
      * unfold ret. discriminate.
      * intros H x [<-|Hx].
        -- right. exists w. split; [apply same_store_refl|now rewrite E].
        -- destruct (IH w1 H x Hx) as [A|(wk & S & A)]; [now left|].
           right. exists wk. split; [|assumption].
           apply check_availability_same_store in E.
           exact (same_store_trans _ _ _ E S).
      * discriminate.
    + discriminate.
Qed.

(** When the search returns [None], every candidate of the seven days was
    either not after the reference time or refused. *)
Lemma scan_days_none (ref : datetime) (ks : list Z) (w w' : World) :
  scan_days ref ks w = (Ok None, w') ->
  forall k d h,
    In k ks -> date_add_days (date_of ref) k = Some d ->
    In h available_hours ->
    dt_le (combine_hour d h) ref = Ok true \/
    exists wk, same_store w wk /\
      fst (check_availability (strftime_iso (combine_hour d h)) 1 wk)
      = Ok false.
Proof.
  revert w. induction ks as [|k ks IH]; intros w; cbn [scan_days].
  - intros _ k d h [].
  - destruct (date_add_days (date_of ref) k) as [d0|] eqn:D;
      [|unfold raise; discriminate].
    unfold bind.
    destruct (scan_hours d0 ref available_hours w) as [[[slot|]|e] w1] eqn:E.
    + unfold ret. discriminate.
    + intros H j d h [<-|Hj] Hd Hh.
      * rewrite D in Hd. injection Hd as <-.
        exact (scan_hours_none _ _ _ _ _ E h Hh).
      * destruct (IH w1 H j d h Hj Hd Hh) as [A|(wk & S & A)]; [now left|].
        right. exists wk. split; [|assumption].
        apply scan_hours_same_store in E.
        exact (same_store_trans _ _ _ E S).
    + discriminate.
Qed.

Lemma refused_in_turn_app (a b : list string) (w w1 w' : World) :
  refused_in_turn a w w1 -> refused_in_turn b w1 w' ->
  refused_in_turn (a ++ b) w w'.
Proof.
  revert w. induction a as [|x a IH]; intros w; cbn [refused_in_turn app].
  - now intros ->.
  - intros (w2 & E & R) Hb. exists w2. split; [exact E|]. now apply IH.
Qed.

(** A run of the inner loop that finds nothing has compared every hour
    with the reference time without an exception, and has put the hours
    that are later, in order, to [check_availability], which refused each
    of them. *)
Lemma scan_hours_trace (d : date) (ref : datetime) (hs : list Z)
    (w w' : World) :
  scan_hours d ref hs w = (Ok None, w') ->
  (forall h, In h hs -> exists b, dt_le (combine_hour d h) ref = Ok b) /\
  refused_in_turn
    (map strftime_iso
       (filter (later_than ref) (map (combine_hour d) hs))) w w'.
Proof.
  revert w. induction hs as [|h hs IH]; intros w;
    cbn [scan_hours map filter].
  - unfold ret. intros H. injection H as <-. split; [intros h []|reflexivity].
  - unfold bind, lift_res, later_than at 1.
    destruct (dt_le (combine_hour d h) ref) as [[|]|e] eqn:L.
    + intros H. destruct (IH w H) as [A B]. split; [|exact B].
      intros x [<-|Hx]; [eauto|now apply A].
    + destruct (check_availability _ 1 w) as [[[|]|e] w1] eqn:E.
      * unfold ret. discriminate.
      * intros H. destruct (IH w1 H) as [A B]. split.
        -- intros x [<-|Hx]; [eauto|now apply A].
        -- cbn [map refused_in_turn]. exists w1. now split.
      * discriminate.
    + discriminate.
Qed.

Lemma scan_days_trace (ref : datetime) (ks : list Z) (w w' : World) :
  scan_days ref ks w = (Ok None, w') ->
  (forall k, In k ks -> date_add_days (date_of ref) k <> None) /\
  (forall c, In c (candidates_on ref ks) -> exists b, dt_le c ref = Ok b) /\
  refused_in_turn
    (map strftime_iso (filter (later_than ref) (candidates_on ref ks)))
    w w'.
Proof.
  revert w. induction ks as [|k ks IH]; intros w;
    cbn [scan_days candidates_on flat_map].
  - unfold ret. intros H. injection H as <-.
    split; [intros k []|]. split; [intros c []|reflexivity].
  - destruct (date_add_days (date_of ref) k) as [d0|] eqn:D;
      [|unfold raise; discriminate].
    unfold bind.
    destruct (scan_hours d0 ref available_hours w) as [[[slot|]|e] w1] eqn:E.
    + unfold ret. discriminate.
    + intros H. destruct (IH w1 H) as (A & B & C).
      destruct (scan_hours_trace _ _ _ _ _ E) as [B0 C0].
      split; [|split].
      * intros j [<-|Hj]; [now rewrite D|now apply A].
      * intros c Hc. apply in_app_or in Hc. destruct Hc as [Hc|Hc].
        -- apply in_map_iff in Hc. destruct Hc as (h & <- & Hh).
           now apply B0.
        -- now apply B.
      * rewrite filter_app, map_app.
        exact (refused_in_turn_app _ _ _ _ _ C0 C).
    + discriminate.
Qed.

(** When the search returns [None], all seven days exist, no comparison
    with the reference time has raised, and the candidates later than the
    reference time were refused one after the other, from the world after
    the clock read to the world the search leaves. *)
Lemma get_next_available_slot_trace (from_time : string) (w w' : World) :
  get_next_available_slot from_time w = (Ok None, w') ->
  exists ref,
    reference_of from_time w = Ok ref /\
    (forall k, In k range7 -> date_add_days (date_of ref) k <> None) /\
    (forall c, In c (candidates_on ref range7) ->
               exists b, dt_le c ref = Ok b) /\
    refused_in_turn
      (map strftime_iso (filter (later_than ref) (candidates_on ref range7)))
      (tick w) w'.
Proof.
  rewrite get_next_available_slot_eq.
  destruct (reference_of from_time w) as [ref|e]; [|discriminate].
  intros H. exists ref. split; [reflexivity|].
  now apply scan_days_trace.
Qed.

(** A candidate hour on one of the days is in [candidates_on]. *)
Lemma candidates_on_In (ref : datetime) (ks : list Z) (k h : Z) (d : date) :
  In k ks -> date_add_days (date_of ref) k = Some d ->
  In h available_hours ->
  In (combine_hour d h) (candidates_on ref ks).
Proof.
  intros Hk Hd Hh. unfold candidates_on. apply in_flat_map.
  exists k. split; [exact Hk|]. rewrite Hd. now apply in_map.
Qed.

Lemma get_next_available_slot_none (from_time : string) (w w' : World) :
  get_next_available_slot from_time w = (Ok None, w') ->
  exists ref,
    reference_of from_time w = Ok ref /\
    forall k d h,
      In k range7 -> date_add_days (date_of ref) k = Some d ->
      In h available_hours ->
      dt_le (combine_hour d h) ref = Ok true \/
      exists wk, same_store w wk /\
        fst (check_availability (strftime_iso (combine_hour d h)) 1 wk)
        = Ok false.
Proof.
  rewrite get_next_available_slot_eq.
  destruct (reference_of from_time w) as [ref|e]; [|discriminate].
  intros H. exists ref. split; [reflexivity|].
  intros k d h Hk Hd Hh.
  destruct (scan_days_none _ _ _ _ H k d h Hk Hd Hh) as [A|(wk & S & A)];
    [now left|].
  right. exists wk. split; [|assumption].
  exact (same_store_trans _ _ _ (same_store_tick w) S).
Qed.

End NextSlot.

(** ** The ledger *)

Section Ledger.
Context {P : Platform}.

Lemma create_appointment_eq (u s : string) (n : Z) (d : string) (w : World) :
  create_appointment u s n d w =
  (Ok (List.length (appointments w), new_appt w u s n d),
   set_appointments (appointments w ++ [new_appt w u s n d]) (tick w)).
Proof. reflexivity. Qed.

Lemma cancel_appointment_eq (x : string) (w : World) :
  cancel_appointment x w =
  match update_first (Appt.set_status cancelled) x (appointments w) with
  | Some l => (Ok true, set_appointments l w)
  | None => (Ok false, w)
  end.
Proof.
  unfold cancel_appointment. run.
  destruct (update_first _ x (appointments w)); reflexivity.
Qed.

(** Cancelling an id that no stored appointment has returns false and
    changes nothing. *)
Lemma cancel_unknown (x : string) (w : World) :
  (forall a, In a (appointments w) -> Appt.id a <> x) ->
  cancel_appointment x w = (Ok false, w).
Proof.
  intros H. rewrite cancel_appointment_eq.
  now rewrite (proj2 (update_first_none _ x (appointments w)) H).
Qed.

Lemma update_first_again (f : Appt.t -> Appt.t) (x : string)
    (l l' : list Appt.t) :
  (forall a, Appt.id (f a) = Appt.id a) ->
  (forall a, f (f a) = f a) ->
  update_first f x l = Some l' -> update_first f x l' = Some l'.
Proof.
  intros Hid Hff. revert l'.
  induction l as [|a l IH]; simpl; intros l' H; [discriminate|].
  destruct (String.eqb (Appt.id a) x) eqn:E.
  - injection H as <-. simpl. now rewrite Hid, E, Hff.
  - destruct (update_first f x l) as [r|]; [|discriminate].
    injection H as <-. simpl. now rewrite E, (IH r eq_refl).
Qed.

(** Cancelling an id that is stored answers true, whatever the status of
    the appointment was; a second cancellation finds the same record,
    answers true again and leaves the store as it is. *)
Lemma cancel_again (x : string) (w : World) :
  fst (cancel_appointment x w) = Ok true ->
  cancel_appointment x (snd (cancel_appointment x w)) =
  (Ok true, snd (cancel_appointment x w)).
Proof.
  rewrite (cancel_appointment_eq x w).
  destruct (update_first _ x (appointments w)) as [l|] eqn:E; simpl;
    [intros _|discriminate].
  rewrite cancel_appointment_eq. simpl.
  rewrite (update_first_again _ x (appointments w) l);
    [reflexivity|reflexivity|reflexivity|exact E].
Qed.

Lemma update_appointment_eq (x d : string) (w : World) :
  update_appointment x d w =
  match update_first (Appt.set_details d) x (appointments w) with
  | Some l => (Ok true, set_appointments l w)
  | None => (Ok false, w)
  end.
Proof.
  unfold update_appointment. run.
  destruct (update_first _ x (appointments w)); reflexivity.
Qed.

(** In every reachable state each appointment carries the id of its row
    and no two guests share a contact number. *)
Lemma reachable_invariant (w : World) :
  reachable w ->
  ids_by_row (appointments w) /\
  NoDup (map User.contact_number (users w)).
Proof.
  induction 1 as [|w _ [IH1 IH2]|w c n _ [IH1 IH2]|w u s n d _ [IH1 IH2]
                 |w x _ [IH1 IH2]|w x d _ [IH1 IH2]|w s n _ [IH1 IH2]
                 |w s _ [IH1 IH2]].
  - split; [apply ids_by_row_nil|constructor].
  - split; assumption.
  - split; [|now apply get_or_create_user_NoDup].
    rewrite get_or_create_user_eq.
    destruct (lookup_user (users w) c n) as [[us' found]|]; assumption.
  - rewrite create_appointment_eq. simpl. split; [|assumption].
    now apply ids_by_row_snoc.
  - rewrite cancel_appointment_eq.
    destruct (update_first _ x (appointments w)) as [l|] eqn:E; simpl;
      split; try assumption.
    eapply ids_by_row_map; [|exact IH1].
    eapply update_first_ids; [|exact E]. now intros [].
  - rewrite update_appointment_eq.
    destruct (update_first _ x (appointments w)) as [l|] eqn:E; simpl;
      split; try assumption.
    eapply ids_by_row_map; [|exact IH1].
    eapply update_first_ids; [|exact E]. now intros [].
  - destruct (check_availability s n w) as [r w1] eqn:E.
    apply check_availability_same_store in E. destruct E as [E1 E2].
    cbn [snd]. rewrite E1, E2. split; assumption.
  - destruct (get_next_available_slot s w) as [r w1] eqn:E.
    apply get_next_available_slot_same_store in E. destruct E as [E1 E2].
    cbn [snd]. rewrite E1, E2. split; assumption.
Qed.

(** Cancelling the appointment just created rewrites that record and no
    other. *)
Lemma cancel_created (w : World) (a : Appt.t) (k : nat) :
  ids_by_row (appointments w) ->
  Appt.id a = "appt_" ++ str_of_nat (S (List.length (appointments w))) ->
  cancel_appointment (Appt.id a)
    (mkWorld (users w) (appointments w ++ [a]) k) =
  (Ok true,
   mkWorld (users w) (appointments w ++ [Appt.set_status cancelled a]) k).
Proof.
  intros Hw Ha. rewrite cancel_appointment_eq. simpl.
  rewrite update_first_skip.
  - simpl. now rewrite String.eqb_refl.
  - intros b Hb. rewrite Ha. now apply ids_by_row_fresh.
Qed.

End Ledger.

(** ** The claims on the availability oracle and the ledger *)

Section OracleClaims.
Context {P : Platform}.

Lemma booked_at_new (l : list Appt.t) (w : World) (u s : string) (n : Z)
    (d : string) :
  booked_at s (l ++ [new_appt w u s n d]) = true.
Proof.
  rewrite booked_at_app. unfold booked_at at 2.
  cbn [existsb new_appt Appt.start_time Appt.status Status_eqb].
  rewrite String.eqb_refl. apply orb_true_r.
Qed.

Lemma booked_at_cancelled (l : list Appt.t) (a : Appt.t) (s : string) :
  booked_at s (l ++ [Appt.set_status cancelled a]) = booked_at s l.
Proof.
  rewrite booked_at_app. unfold booked_at at 2. cbn [existsb].
  cbn [Appt.set_status Appt.status Status_eqb].
  now rewrite andb_false_r, orb_false_r.
Qed.

(** Right after a booking at [s] the slot [s] is not available. *)
Lemma book_check_run (w : World) (u s : string) (n : Z) (d : string) :
  exists w1,
    book_check u s n d w = (Ok (booked, false), w1) /\
    same_store (set_appointments (appointments w ++ [new_appt w u s n d]) w) w1.
Proof.
  unfold book_check, bind. rewrite create_appointment_eq.
  rewrite check_availability_eq. cbn [snd].
  destruct (fromisoformat (replace_Z s)) as [dt|].
  - cbn [appointments set_appointments]. rewrite booked_at_new.
    assert (E : (if time_refused dt (clock (ticks (tick w))) then false
                 else if negb (open_at dt) then false else negb true)
                = false)
      by (destruct (time_refused dt _); [|destruct (negb (open_at dt))];
          reflexivity).
    cbn [ticks tick set_appointments] in *. rewrite E.
    eexists. split; [reflexivity|]. split; reflexivity.
  - eexists. split; [reflexivity|]. split; reflexivity.
Qed.

(** C1 (amended).  Booking a slot and at once asking whether that start
    time is available answers no, for every text.  And when the text
    parses to a naive datetime (read as server-local time), the
    timestamps of the last check are computed and the start is not more
    than 120 seconds before the clock there, its hour is inside opening
    hours and no other booked appointment is stored at it, then
    cancelling that appointment and asking again answers yes.  When
    [timestamp()] raises for the parsed start, asking again after the
    cancellation answers no. *)
Theorem C1_book_cancel_round_trip (w : World) (u s : string) (n : Z)
    (details : string) :
  reachable w ->
  fst (book_check u s n details w) = Ok (booked, false) /\
  (forall dt,
     fromisoformat (replace_Z s) = Some dt ->
     tzinfo dt = None ->
     past_test dt (clock (S (S (ticks w)))) = Some false ->
     10 <= hour dt < 22 ->
     (forall a, In a (appointments w) -> Appt.start_time a = s ->
                Appt.status a <> booked) ->
     fst (book_check_cancel_check u s n details w)
     = Ok (booked, false, true, true)) /\
  (forall dt,
     fromisoformat (replace_Z s) = Some dt ->
     timestamp dt = None ->
     fst (book_check_cancel_check u s n details w)
     = Ok (booked, false, true, false)).
Proof.
  intros R. split; [|split].
  - destruct (book_check_run w u s n details) as (w1 & E & _).
    now rewrite E.
  - intros dt Hp _ Hold Hopen Hfree.
    apply reachable_invariant in R. destruct R as [Hids _].
    apply time_refused_false in Hold. apply open_at_hours in Hopen.
    apply booked_at_false_iff in Hfree.
    unfold book_check_cancel_check, bind.
    rewrite create_appointment_eq. cbn [snd].
    rewrite check_availability_eq, Hp.
    unfold set_appointments, tick.
    cbn [users appointments ticks].
    rewrite (cancel_created w (new_appt w u s n details)) by easy.
    rewrite check_availability_eq, Hp.
    cbn [users appointments ticks].
    rewrite booked_at_new, booked_at_cancelled, Hold, Hopen, Hfree.
    cbn [negb]. unfold ret. cbn [fst new_appt Appt.status].
    destruct (time_refused dt (clock (S (ticks w)))); reflexivity.
  - intros dt Hp Hts.
    assert (T : forall t, time_refused dt t = true).
    { intros t. unfold time_refused, past_test. now rewrite Hts. }
    apply reachable_invariant in R. destruct R as [Hids _].
    unfold book_check_cancel_check, bind.
    rewrite create_appointment_eq. cbn [snd].
    rewrite check_availability_eq, Hp.
    unfold set_appointments, tick.
    cbn [users appointments ticks].
    rewrite (cancel_created w (new_appt w u s n details)) by easy.
    rewrite check_availability_eq, Hp.
    cbn [users appointments ticks].
    rewrite !T. reflexivity.
Qed.

(** [check_availability] fails closed and never raises: text that does
    not parse answers no; a start time whose timestamp, or the clock's,
    cannot be computed answers no; a start time more than 120 seconds
    before the clock answers no; an hour as written outside 10 to 21
    answers no, whatever is booked; the validations come in the order
    parse, past, hours, and only then is the store asked. *)
Lemma check_availability_fails_closed (s : string) (n : Z) (w : World) :
  (exists b, fst (check_availability s n w) = Ok b) /\
  (fromisoformat (replace_Z s) = None ->
   check_availability s n w = (Ok false, w)) /\
  (forall dt,
     fromisoformat (replace_Z s) = Some dt ->
     (past_test dt (clock (ticks w)) = None ->
      fst (check_availability s n w) = Ok false) /\
     (past_test dt (clock (ticks w)) = Some true ->
      fst (check_availability s n w) = Ok false) /\
     (hour dt < 10 \/ 22 <= hour dt ->
      fst (check_availability s n w) = Ok false) /\
     (past_test dt (clock (ticks w)) = Some false ->
      fst (check_availability s n w) =
      Ok (if (hour dt <? 10) || (hour dt >=? 22) then false
          else negb (booked_at s (appointments w))))).
Proof.
  split; [apply check_availability_total|].
  rewrite check_availability_eq. split.
  - now intros ->.
  - intros dt ->. cbn [fst]. unfold time_refused. repeat split.
    + now intros ->.
    + now intros ->.
    + intros H.
      assert (O : open_at dt = false).
      { destruct (open_at dt) eqn:O; [|reflexivity].
        apply open_at_hours in O. lia. }
      rewrite O. now destruct (past_test dt _) as [[|]|].
    + intros ->. unfold open_at, opening_hour, closing_hour.
      now rewrite negb_involutive.
Qed.

(** C10.  The conflict query compares the start-time text, not the
    instant: when two different texts denote the same point in time, a
    booking stored under the first leaves the second available (the
    second passing the time and hours tests and having no booking of its
    own), and a booking made for the second then stands beside it, both
    booked. *)
Theorem C10_conflict_check_is_textual (w : World) (u s1 s2 : string)
    (n : Z) (details : string) (dt1 dt2 : datetime) :
  s1 <> s2 ->
  fromisoformat (replace_Z s1) = Some dt1 ->
  fromisoformat (replace_Z s2) = Some dt2 ->
  timestamp dt1 = timestamp dt2 ->
  past_test dt2 (clock (S (ticks w))) = Some false ->
  10 <= hour dt2 < 22 ->
  (forall a, In a (appointments w) -> Appt.start_time a = s2 ->
             Appt.status a <> booked) ->
  exists a1 a2 w',
    (first <- create_appointment u s1 n details ;;
     free <- check_availability s2 n ;;
     second <- create_appointment u s2 n details ;;
     ret (snd first, free, snd second)) w = (Ok (a1, true, a2), w') /\
    appointments w' = (appointments w ++ [a1; a2])%list /\
    Appt.start_time a1 = s1 /\ Appt.start_time a2 = s2 /\
    Appt.status a1 = booked /\ Appt.status a2 = booked.
Proof.
  intros Hne Hp1 Hp2 Hsame Hold Hopen Hfree.
  apply time_refused_false in Hold. apply open_at_hours in Hopen.
  apply booked_at_false_iff in Hfree.
  unfold bind. rewrite create_appointment_eq. cbn [snd].
  rewrite check_availability_eq, Hp2.
  cbn [users appointments ticks set_appointments tick].
  rewrite Hold, Hopen. cbn [negb].
  rewrite booked_at_app, Hfree. unfold booked_at.
  cbn [existsb new_appt Appt.start_time Appt.status Status_eqb orb].
  destruct (String.eqb_spec s1 s2) as [E|_]; [contradiction|].
  cbn [andb orb negb].
  rewrite create_appointment_eq. unfold ret. cbn [snd].
  do 3 eexists. split; [reflexivity|].
  cbn [appointments set_appointments tick users ticks].
  rewrite <- app_assoc. repeat split; reflexivity.
Qed.

End OracleClaims.

(** ** The oracle and ledger claims on the Kochi scenario *)

Lemma C1_book_cancel_round_trip_witness :
  fst (@book_check_cancel_check Demo.platform
         "user_1" "2026-10-27T19:00:00" 2 "General Reservation" init_world)
  = Ok (booked, false, true, true).
Proof.
  apply (proj1 (proj2 (@C1_book_cancel_round_trip Demo.platform init_world
                         "user_1" "2026-10-27T19:00:00" 2
                         "General Reservation" reach_init))
           Demo.seven_pm).
  - reflexivity.
  - reflexivity.
  - vm_compute. reflexivity.
  - simpl. lia.
  - intros a [].
Defined.

(** C1 as stated fails at the end of the calendar: on the server in
    Kochi the text 9999-12-31T21:00:00 parses, its hour is inside opening
    hours, it lies after the clock at each of the three readings and
    nothing is booked at it; yet after booking and cancelling the check
    answers no, because [timestamp()] raises for it and the [except]
    clause of [check_availability] answers for the error. *)
Lemma C1_counterexample_end_of_calendar :
  let s := "9999-12-31T21:00:00" in
  let dt := mkdt 9999 12 31 21 0 0 0 None in
  fromisoformat (Platform := Demo.platform) (replace_Z s) = Some dt /\
  10 <= hour dt < 22 /\
  dt_gt dt (localtime (Platform := Demo.platform) (Demo.readings 0))
  = Ok true /\
  dt_gt dt (localtime (Platform := Demo.platform) (Demo.readings 1))
  = Ok true /\
  dt_gt dt (localtime (Platform := Demo.platform) (Demo.readings 2))
  = Ok true /\
  booked_at s (appointments init_world) = false /\
  timestamp (Platform := Demo.platform) dt = None /\
  fst (@book_check_cancel_check Demo.platform "user_1" s 2
         "General Reservation" init_world)
  = Ok (booked, false, true, false).
Proof.
  cbv zeta. repeat split; try (vm_compute; reflexivity); vm_compute;
    discriminate.
Qed.

(** C2: the hours test reads the hour as the text writes it.  On the
    server in Kochi, at 09:00 local time on 2026-10-27, the text for
    20:00 UTC is found available although that instant is 01:30 the next
    morning in Kochi, and the text for 06:30 UTC is refused although that
    instant is noon in Kochi. *)
Theorem C2_offset_text_judged_by_written_hour :
  let late := mkdt 2026 10 27 20 0 0 0 (Some 0) in
  let noon := mkdt 2026 10 27 6 30 0 0 (Some 0) in
  fromisoformat (Platform := Demo.platform)
    (replace_Z "2026-10-27T20:00:00Z") = Some late /\
  fromisoformat (Platform := Demo.platform)
    (replace_Z "2026-10-27T06:30:00+00:00") = Some noon /\
  localtime (Platform := Demo.platform) (civil_us late - 0)
  = mkdt 2026 10 28 1 30 0 0 None /\
  localtime (Platform := Demo.platform) (civil_us noon - 0)
  = mkdt 2026 10 27 12 0 0 0 None /\
  past_test (P := Demo.platform) late (Demo.readings 0) = Some false /\
  past_test (P := Demo.platform) noon (Demo.readings 0) = Some false /\
  fst (check_availability (P := Demo.platform) "2026-10-27T20:00:00Z" 2
         init_world) = Ok true /\
  fst (check_availability (P := Demo.platform) "2026-10-27T06:30:00+00:00" 2
         init_world) = Ok false.
Proof. cbv zeta. repeat split; vm_compute; reflexivity. Qed.

Lemma C10_conflict_check_is_textual_witness :
  exists a1 a2 w',
    @bind World _ _
      (@create_appointment Demo.platform "user_1" "2026-10-27T19:00:00" 2 "")
      (fun first =>
         free <- @check_availability Demo.platform "2026-10-27T19:00" 2 ;;
         second <- @create_appointment Demo.platform
                     "user_1" "2026-10-27T19:00" 2 "" ;;
         ret (snd first, free, snd second)) init_world
    = (Ok (a1, true, a2), w') /\
    appointments w' = (appointments init_world ++ [a1; a2])%list /\
    Appt.start_time a1 = "2026-10-27T19:00:00" /\
    Appt.start_time a2 = "2026-10-27T19:00" /\
    Appt.status a1 = booked /\ Appt.status a2 = booked.
Proof.
  apply (@C10_conflict_check_is_textual Demo.platform init_world "user_1"
           "2026-10-27T19:00:00" "2026-10-27T19:00" 2 ""
           Demo.seven_pm Demo.seven_pm).
  - discriminate.
  - reflexivity.
  - reflexivity.
  - reflexivity.
  - vm_compute. reflexivity.
  - simpl. lia.
  - intros a [].
Defined.

(** ** Phone numbers *)










Section PhoneNumbers.
Context {P : Platform}.










End PhoneNumbers.

(** ** One guest per number *)

Lemma NoDup_map_nth_error {A B : Type} (f : A -> B) (l : list A)
    (i j : nat) (a b : A) :
  NoDup (map f l) ->
  nth_error l i = Some a -> nth_error l j = Some b -> f a = f b -> i = j.
Proof.
  intros N Hi Hj E.
  apply (proj1 (NoDup_nth_error (map f l)) N).
  - rewrite length_map. apply nth_error_Some. congruence.
  - rewrite !nth_error_map, Hi, Hj. simpl. now rewrite E.
Qed.

Section GuestClaims.
Context {P : Platform}.

(** C4.  Resolving the same number twice stores no second record: both
    calls return the same row and id, the numbers stored stay pairwise
    distinct, a name that is given replaces the stored one, and without a
    name (absent or empty) the stored name stays. *)
Theorem C4_one_guest_per_number (w : World) (c : string)
    (name1 name2 : option string) :
  reachable w ->
  exists i u1 u2 w1 w2,
    get_or_create_user c name1 w = (Ok (i, u1), w1) /\
    get_or_create_user c name2 w1 = (Ok (i, u2), w2) /\
    List.length (users w2) = List.length (users w1) /\
    User.id u2 = User.id u1 /\
    nth_error (users w2) i = Some u2 /\
    User.contact_number u2 = c /\
    NoDup (map User.contact_number (users w2)) /\
    (forall j v, nth_error (users w2) j = Some v ->
                 User.contact_number v = c -> j = i) /\
    (forall s, name1 = Some s -> s <> "" -> User.name u1 = s) /\
    (forall s, name2 = Some s -> s <> "" -> User.name u2 = s) /\
    (name2 = None \/ name2 = Some "" -> User.name u2 = User.name u1).
Proof.
  intros R.
  pose proof (reach_user w c name1 R) as R1.
  pose proof (reach_user _ c name2 R1) as R2.
  apply reachable_invariant in R1, R2.
  destruct R1 as [_ N1]. destruct R2 as [_ N2].
  destruct (get_or_create_user_stored c name1 w)
    as (i & u1 & E1 & Hi1 & Hc1 & Hn1).
  set (w1 := snd (get_or_create_user c name1 w)) in *.
  assert (L : exists us' k u2, lookup_user (users w1) c name2
                               = Some (us', (k, u2))).
  { destruct (lookup_user (users w1) c name2) as [[us' [k u2]]|] eqn:L.
    - now exists us', k, u2.
    - exfalso. apply nth_error_In in Hi1.
      exact (proj1 (lookup_user_none _ _ _) L u1 Hi1 Hc1). }
  destruct L as (us' & k & u2 & L).
  destruct (lookup_user_some _ _ _ _ _ _ L)
    as (u0 & H1 & H2 & H3 & H4 & H5 & H6 & H7 & H8).
  assert (k = i)
    by (apply (NoDup_map_nth_error User.contact_number (users w1) k i u0 u1);
        congruence).
  subst k. assert (u0 = u1) by congruence. subst u0.
  assert (E2 : get_or_create_user c name2 w1 = (Ok (i, u2), set_users us' w1))
    by (rewrite get_or_create_user_eq, L; reflexivity).
  rewrite E2 in N2. cbn [snd set_users users] in N2.
  exists i, u1, u2, w1, (set_users us' w1).
  cbn [set_users users].
  repeat split; try assumption.
  - subst u2. now destruct (truthy_str name2).
  - subst u2. now destruct (truthy_str name2).
  - intros j v Hj Hv.
    apply (NoDup_map_nth_error User.contact_number us' j i v u2);
      try assumption.
    subst u2. destruct (truthy_str name2); simpl; congruence.
  - intros s -> Hs. simpl in Hn1.
    destruct (String.eqb_spec s ""); [contradiction|]. now apply Hn1.
  - intros s -> Hs. subst u2. simpl.
    destruct (String.eqb_spec s ""); [contradiction|reflexivity].
  - intros [->| ->]; subst u2; reflexivity.
Qed.

End GuestClaims.

(** ** The tools *)

Section ToolLemmas.
Context {P : Platform}.

Lemma _publish_update_eq (tool st : string) (r : option string) (c : Call) :
  _publish_update tool st r c
  = (Ok tt, (publish (mkEvent tool st r) (fst c), snd c)).
Proof.
  destruct c as [s w]. unfold _publish_update, publish, bind, self, set_self.
  cbn [fst snd]. destruct (_room s); reflexivity.
Qed.

Lemma db_eq {A : Type} (m : M World A) (c : Call) :
  db m c = (fst (m (snd c)), (fst c, snd (m (snd c)))).
Proof. unfold db. destruct (m (snd c)); reflexivity. Qed.

Lemma same_session_publish (e : Event) (s : ReservationTools) :
  same_session s (publish e s).
Proof. unfold publish, same_session. destruct (_room s); auto. Qed.

Lemma same_session_trans (a b c : ReservationTools) :
  same_session a b -> same_session b c -> same_session a c.
Proof. intros (?&?&?) (?&?&?). repeat split; congruence. Qed.

Lemma publish_user_id (e : Event) (s : ReservationTools) :
  _user_id (publish e s) = _user_id s.
Proof. apply same_session_publish. Qed.

Lemma publish_user_context (e : Event) (s : ReservationTools) :
  _user_context (publish e s) = _user_context s.
Proof. apply same_session_publish. Qed.

Lemma get_user_appointments_eq (uid : string) (w : World) :
  get_user_appointments uid w = (Ok (active uid w), w).
Proof. reflexivity. Qed.

(** The [is_past] block answers what [before_clock] says of the reading
    it makes, and never raises. *)
Lemma is_past_of_eq (t : string) (w : World) :
  exists w1,
    is_past_of t w = (Ok (before_clock t (ticks w)), w1) /\
    same_store w w1.
Proof.
  unfold is_past_of, before_clock.
  destruct (fromisoformat (replace_Z t)) as [dt|];
    [|exists w; split; [reflexivity|apply same_store_refl]].
  destruct (timestamp dt) as [a|];
    [|exists w; split; [reflexivity|apply same_store_refl]].
  run. exists (tick w).
  destruct (timestamp (localtime (clock (ticks w)))) as [b|];
    (split; [reflexivity|apply same_store_tick]).
Qed.

Lemma is_past_of_total (t : string) (w : World) :
  exists b, fst (is_past_of t w) = Ok b.
Proof.
  destruct (is_past_of_eq t w) as (w1 & E & _). rewrite E. cbn [fst]. eauto.
Qed.

Lemma is_past_of_same_store (t : string) (w w1 : World) (r : Res bool) :
  is_past_of t w = (r, w1) -> same_store w w1.
Proof.
  destruct (is_past_of_eq t w) as (w2 & E & S). rewrite E.
  intros H. injection H as _ <-. exact S.
Qed.

Lemma truthy_some (s : string) : s <> "" -> truthy_str (Some s) = true.
Proof.
  intros H. simpl. now destruct (String.eqb_spec s "").
Qed.

Lemma str_or_some (s d : string) : s <> "" -> str_or (Some s) d = s.
Proof.
  intros H. simpl. now destruct (String.eqb_spec s "").
Qed.

Lemma str_or_falsy (o : option string) (d : string) :
  truthy_str o = false -> str_or o d = d.
Proof.
  destruct o as [s|]; simpl; [|reflexivity].
  now destruct (String.eqb s "").
Qed.

Lemma int_or_falsy (o : option Z) (d : Z) :
  truthy_int o = false -> int_or o d = d.
Proof.
  destruct o as [n|]; simpl; [|reflexivity].
  now destruct (n =? 0).
Qed.

(** In a store whose ids follow the rows, an id names one appointment. *)
Lemma ids_by_row_unique (l : list Appt.t) (a b : Appt.t) :
  ids_by_row l -> In a l -> In b l -> Appt.id a = Appt.id b -> a = b.
Proof.
  intros Hl Ha Hb E.
  apply In_nth_error in Ha, Hb. destruct Ha as [i Hi]. destruct Hb as [j Hj].
  rewrite (Hl i a Hi), (Hl j b Hj) in E. simpl in E. injection E as E.
  apply str_of_nat_inj in E. injection E as ->. congruence.
Qed.

(** The lookup of [modify_appointment] finds the guest's active
    appointment with the given id. *)
Lemma find_active (w : World) (uid : string) (a : Appt.t) :
  ids_by_row (appointments w) ->
  In a (appointments w) -> Appt.user_id a = uid ->
  Appt.status a <> cancelled ->
  find (fun b => String.eqb (Appt.id b) (Appt.id a)) (active uid w) = Some a.
Proof.
  intros Hl Ha Hu Hs.
  assert (Hact : In a (active uid w)).
  { apply filter_In. split; [assumption|].
    rewrite Hu, String.eqb_refl. destruct (Appt.status a); [reflexivity|].
    now destruct Hs. }
  destruct (find _ (active uid w)) as [b|] eqn:F.
  - apply find_some in F. destruct F as [Hb E].
    apply String.eqb_eq in E. apply filter_In in Hb.
    f_equal. eapply ids_by_row_unique; eauto. tauto.
  - apply (find_none _ _ F) in Hact.
    now rewrite String.eqb_refl in Hact.
Qed.

End ToolLemmas.

(** ** The claims on modification *)

Section ModifyClaims.
Context {P : Platform}.

(** An active appointment is a booked one. *)
Lemma active_booked (a : Appt.t) :
  Appt.status a <> cancelled -> Appt.status a = booked.
Proof. destruct (Appt.status a); [reflexivity|now intros []]. Qed.

(** Modifying an active appointment of the identified guest with only
    new details given succeeds without asking for availability (the run
    is a cancellation followed by a creation, and it succeeds although the
    slot is reported unavailable, being held by the appointment itself);
    the new appointment has the start time of the original, and for party
    size what [original.get('num_people', 2)] gives: the party size of
    the original when its record carries one, as every record of the
    in-memory store does, and 2 when it carries none. *)
Lemma modify_details_only (s : ReservationTools) (w : World)
    (uid new_details : string) (original : Appt.t)
    (new_start_time : option string) (new_num_people : option Z) :
  reachable w ->
  _user_id s = Some uid -> uid <> "" ->
  In original (appointments w) ->
  Appt.user_id original = uid ->
  Appt.status original <> cancelled ->
  truthy_str new_start_time = false ->
  truthy_int new_num_people = false ->
  new_details <> "" ->
  exists a name s' w',
    modify_appointment (Appt.id original) new_start_time new_num_people
                       (Some new_details) (s, w)
    = (Ok (Modified name (Appt.start_time original)
                    (Appt.get_num_people original 2) (Appt.id a)), (s', w')) /\
    w' = snd (create_appointment uid (Appt.start_time original)
                (Appt.get_num_people original 2) new_details
                (snd (cancel_appointment (Appt.id original) w))) /\
    In a (appointments w') /\
    Appt.start_time a = Appt.start_time original /\
    Appt.num_people a = Some (Appt.get_num_people original 2) /\
    (forall n, Appt.num_people original = Some n ->
               Appt.num_people a = Appt.num_people original) /\
    (Appt.num_people original = None -> Appt.num_people a = Some 2) /\
    Appt.details a
    = "Guests: " ++ str_of_Z (Appt.get_num_people original 2) ++ ". "
      ++ new_details /\
    Appt.status a = booked /\
    ticks w' = S (ticks w) /\
    same_session s s' /\
    (forall k, fst (check_availability (Appt.start_time original) k w)
               = Ok false).
Proof.
  intros R Hid Huid Hin Hu Hst Ht Hn Hd.
  apply reachable_invariant in R. destruct R as [Hids _].
  pose proof (find_active w uid original Hids Hin Hu Hst) as F.
  unfold modify_appointment.
  rewrite Ht, Hn, (truthy_some _ Hd). cbn [negb andb].
  unfold bind at 1. rewrite _publish_update_eq.
  unfold bind at 1. unfold self at 1. cbn [fst snd].
  rewrite publish_user_id, Hid, (truthy_some _ Huid). cbn [negb].
  unfold bind at 1. rewrite db_eq, get_user_appointments_eq.
  cbn [fst snd]. rewrite (str_or_some _ _ Huid), F.
  rewrite (str_or_falsy _ _ Ht), (int_or_falsy _ _ Hn), (str_or_some _ _ Hd).
  unfold bind at 1. unfold ret at 1.
  unfold bind at 1. rewrite db_eq. cbn [fst snd].
  rewrite cancel_appointment_eq.
  destruct (update_first _ (Appt.id original) (appointments w)) as [l|] eqn:U.
  2:{ exfalso. exact (proj1 (update_first_none _ _ _) U original Hin eq_refl). }
  cbn [fst snd].
  unfold bind at 1. rewrite db_eq, create_appointment_eq. cbn [fst snd].
  unfold bind at 1. rewrite _publish_update_eq. cbn [fst snd].
  unfold bind at 1. unfold context_name, bind, self, ret.
  rewrite db_eq. cbn [fst snd get].
  do 4 eexists. split; [reflexivity|].
  cbn [appointments set_appointments tick users ticks new_appt
       Appt.start_time Appt.num_people Appt.status Appt.details].
  repeat split.
  - apply in_or_app. right. now left.
  - intros n E. unfold Appt.get_num_people. now rewrite E.
  - intros E. unfold Appt.get_num_people. now rewrite E.
  - eapply same_session_trans; apply same_session_publish.
  - eapply same_session_trans; apply same_session_publish.
  - eapply same_session_trans; apply same_session_publish.
  - intros k. rewrite check_availability_eq.
    assert (B : booked_at (Appt.start_time original) (appointments w) = true).
    { unfold booked_at. apply existsb_exists. exists original.
      split; [assumption|].
      now rewrite String.eqb_refl, (active_booked _ Hst). }
    destruct (fromisoformat _) as [dt|]; [|reflexivity].
    cbn [fst]. rewrite B.
    destruct (time_refused dt _); [|destruct (negb (open_at dt))]; reflexivity.
Qed.

Lemma find_none_iff {A : Type} (p : A -> bool) (l : list A) :
  find p l = None <-> forall a, In a l -> p a = false.
Proof.
  split; [apply find_none|]. intros H.
  destruct (find p l) as [a|] eqn:F; [|reflexivity].
  apply find_some in F. destruct F as [Ha Hp].
  rewrite (H a Ha) in Hp. discriminate.
Qed.

(** C5 (amended).  For an identified guest and a request that names at
    least one change: an id that is not among the guest's active
    appointments is answered with the not-found failure and the store is
    left as it was; and when a new start time is given for which
    availability fails and the search for the next slot returns, the
    answer is a rejection, classified as past date exactly when the time
    lies before the clock (the text parses and its timestamp is below
    that of the clock at the reading made after the failed check,
    [before_clock]) and as slot unavailable otherwise, carrying the
    suggested slot when there is one, and both lists of the store are left
    as they were (nothing cancelled, nothing created). *)
Theorem C5_modify_rejections (s : ReservationTools) (w : World)
    (uid appointment_id : string) (new_start_time : option string)
    (new_num_people : option Z) (new_details : option string) :
  _user_id s = Some uid -> uid <> "" ->
  truthy_str new_start_time || truthy_int new_num_people
    || truthy_str new_details = true ->
  ((forall a, In a (active uid w) -> Appt.id a <> appointment_id) ->
   exists s',
     modify_appointment appointment_id new_start_time new_num_people
                        new_details (s, w)
     = (Ok Modify_not_found, (s', w)) /\
     same_session s s') /\
  (forall original t next,
     find (fun a => String.eqb (Appt.id a) appointment_id) (active uid w)
       = Some original ->
     new_start_time = Some t -> t <> "" ->
     let people := int_or new_num_people (Appt.get_num_people original 2) in
     let w1 := snd (check_availability t people w) in
     let w2 := snd (is_past_of t w1) in
     fst (check_availability t people w) = Ok false ->
     fst (get_next_available_slot t w2) = Ok next ->
     exists s' w3,
       modify_appointment appointment_id new_start_time new_num_people
                          new_details (s, w)
       = (Ok (if before_clock t (ticks w1)
              then Modify_past_date next (Appt.start_time original)
              else Modify_unavailable t (Appt.start_time original)
                     (Appt.get_num_people original 2) next), (s', w3)) /\
       users w3 = users w /\ appointments w3 = appointments w /\
       same_session s s').
Proof.
  intros Hid Huid Hsome.
  assert (Hhead : negb (truthy_str new_start_time)
                  && negb (truthy_int new_num_people)
                  && negb (truthy_str new_details) = false).
  { destruct (truthy_str new_start_time), (truthy_int new_num_people),
      (truthy_str new_details); simpl in *; congruence. }
  split.
  - intros Hnone.
    assert (F : find (fun a => String.eqb (Appt.id a) appointment_id)
                     (active uid w) = None).
    { apply find_none_iff. intros a Ha. apply String.eqb_neq. now apply Hnone. }
    unfold modify_appointment. rewrite Hhead.
    unfold bind at 1. rewrite _publish_update_eq.
    unfold bind at 1. unfold self at 1. cbn [fst snd].
    rewrite publish_user_id, Hid, (truthy_some _ Huid). cbn [negb].
    unfold bind at 1. rewrite db_eq, get_user_appointments_eq.
    cbn [fst snd]. rewrite (str_or_some _ _ Huid), F.
    unfold bind at 1. rewrite _publish_update_eq. cbn [fst snd].
    eexists. split; [reflexivity|].
    eapply same_session_trans; apply same_session_publish.
  - intros original t next F Ht Hne people w1 w2 Hc Hnext.
    subst new_start_time w1 w2.
    destruct (check_availability t people w) as [rc wc] eqn:Ec.
    cbn [fst snd] in *.
    destruct (is_past_of t wc) as [rp wp] eqn:Ep.
    cbn [fst snd] in *.
    destruct (get_next_available_slot t wp) as [rn wn] eqn:En.
    cbn [fst snd] in *. subst rc rn.
    destruct (is_past_of_eq t wc) as (wp' & Ep' & _).
    rewrite Ep in Ep'. injection Ep' as -> _.
    set (past := before_clock t (ticks wc)) in *.
    pose proof (check_availability_same_store _ _ _ _ _ Ec) as S1.
    pose proof (is_past_of_same_store _ _ _ _ Ep) as S2.
    pose proof (get_next_available_slot_same_store _ _ _ _ En) as S3.
    destruct (same_store_trans _ _ _ (same_store_trans _ _ _ S1 S2) S3)
      as [SU SA].
    unfold modify_appointment. rewrite Hhead.
    unfold bind at 1. rewrite _publish_update_eq.
    unfold bind at 1. unfold self at 1. cbn [fst snd].
    rewrite publish_user_id, Hid, (truthy_some _ Huid). cbn [negb].
    unfold bind at 1. rewrite db_eq, get_user_appointments_eq.
    cbn [fst snd]. rewrite (str_or_some _ _ Huid), F.
    rewrite (truthy_some _ Hne), (str_or_some _ _ Hne).
    fold people.
    unfold bind at 1. unfold bind at 1. rewrite db_eq. cbn [fst snd].
    rewrite Ec. cbn [fst snd negb].
    unfold bind at 1. rewrite db_eq. cbn [fst snd]. rewrite Ep.
    cbn [fst snd].
    unfold bind at 1. rewrite db_eq. cbn [fst snd]. rewrite En.
    cbn [fst snd].
    unfold bind at 1. rewrite _publish_update_eq. cbn [fst snd].
    exists (publish
              (mkEvent "modify_appointment" "failed"
                 (Some (if past then "past_date" else "new_slot_unavailable")))
              (publish (mkEvent "modify_appointment" "started" None) s)), wn.
    split; [destruct past; reflexivity|].
    repeat split; try assumption;
      eapply same_session_trans; apply same_session_publish.
Qed.

End ModifyClaims.

(** ** Booking *)

Section Booking.
Context {P : Platform}.

Lemma book_appointment_identified (start : string) (n : Z)
    (name contact : option string) (details : string)
    (s : ReservationTools) (w : World) :
  truthy_str (_user_id s) = true ->
  book_appointment start n name contact details (s, w)
  = book_tail start n details (publish started s, w).
Proof.
  intros H. unfold book_appointment.
  unfold bind at 1. rewrite _publish_update_eq.
  unfold bind at 1. unfold self at 1. cbn [fst snd].
  unfold bind at 1. rewrite publish_user_id, H. reflexivity.
Qed.

Lemma book_appointment_invalid_phone (start : string) (n : Z)
    (name : option string) (raw details : string)
    (s : ReservationTools) (w : World) :
  truthy_str (_user_id s) = false -> raw <> "" ->
  normalize_phone raw = None ->
  book_appointment start n name (Some raw) details (s, w)
  = (Ok (Book_invalid_phone raw),
     (publish (mkEvent "book_appointment" "failed" (Some "invalid_phone"))
        (publish started s), w)).
Proof.
  intros H Hraw Hn. unfold book_appointment.
  unfold bind at 1. rewrite _publish_update_eq.
  unfold bind at 1. unfold self at 1. cbn [fst snd].
  unfold bind at 1. rewrite publish_user_id, H.
  rewrite (truthy_some _ Hraw), (str_or_some _ _ Hraw), Hn.
  unfold bind at 1. rewrite _publish_update_eq. reflexivity.
Qed.

Lemma book_appointment_implicit (start : string) (n : Z)
    (name : option string) (raw canon details : string)
    (s : ReservationTools) (w : World) :
  truthy_str (_user_id s) = false -> raw <> "" ->
  normalize_phone raw = Some canon ->
  exists row u w1,
    get_or_create_user canon name w = (Ok (row, u), w1) /\
    book_appointment start n name (Some raw) details (s, w)
    = book_tail start n details
        (publish (mkEvent "identify_user" "completed" None)
           (identified_as row u (publish started s)), w1).
Proof.
  intros H Hraw Hn.
  destruct (get_or_create_user_stored canon name w) as (row & u & E & _).
  exists row, u, (snd (get_or_create_user canon name w)).
  split; [exact E|].
  unfold book_appointment.
  unfold bind at 1. rewrite _publish_update_eq.
  unfold bind at 1. unfold self at 1. cbn [fst snd].
  unfold bind at 1. rewrite publish_user_id, H.
  rewrite (truthy_some _ Hraw), (str_or_some _ _ Hraw), Hn.
  unfold bind at 1. unfold bind at 1. rewrite db_eq. cbn [fst snd].
  rewrite E. cbn [fst snd].
  unfold bind at 1. unfold set_identity, bind, self, set_self.
  cbn [fst snd]. rewrite _publish_update_eq. reflexivity.
Qed.

Lemma context_name_eq (c : Call) :
  exists name, context_name c = (Ok name, c).
Proof.
  destruct c as [s w]. unfold context_name, bind, self, ret.
  rewrite db_eq. cbn [fst snd get]. eauto.
Qed.

(** The slot is available: the appointment is created. *)
Lemma book_tail_available (start : string) (n : Z) (details : string)
    (s : ReservationTools) (w w1 : World) :
  check_availability start n w = (Ok true, w1) ->
  exists name s',
    book_tail start n details (s, w)
    = (Ok (Booked name start n
             (Appt.id (new_appt w1 (str_or (_user_id s) "") start n details))),
       (s', snd (create_appointment (str_or (_user_id s) "") start n details
                   w1))) /\
    _user_id s' = _user_id s.
Proof.
  intros Ec. unfold book_tail.
  unfold bind at 1. rewrite db_eq. cbn [fst snd]. rewrite Ec.
  cbn [fst snd negb].
  unfold bind at 1. unfold self at 1.
  unfold bind at 1. rewrite db_eq. cbn [fst snd].
  rewrite create_appointment_eq. cbn [fst snd].
  unfold bind at 1. unfold self at 1.
  unfold bind at 1. unfold set_self at 1.
  unfold bind at 1. rewrite _publish_update_eq. cbn [fst snd].
  unfold bind at 1.
  match goal with
  | |- context [context_name ?c] =>
      destruct (context_name_eq c) as [name En]; rewrite En
  end.
  unfold ret. exists name. eexists. split; [reflexivity|].
  now rewrite publish_user_id.
Qed.

(** The slot is not available and the search returns: a rejection. *)
Lemma book_tail_unavailable (start : string) (n : Z) (details : string)
    (s : ReservationTools) (w w1 w2 w3 : World) (past : bool)
    (next : option string) :
  check_availability start n w = (Ok false, w1) ->
  is_past_of start w1 = (Ok past, w2) ->
  get_next_available_slot start w2 = (Ok next, w3) ->
  exists s',
    book_tail start n details (s, w)
    = (Ok (if past then Book_past_date next else Book_unavailable next),
       (s', w3)) /\
    _user_id s' = _user_id s.
Proof.
  intros Ec Ep En. unfold book_tail.
  unfold bind at 1. rewrite db_eq. cbn [fst snd]. rewrite Ec.
  cbn [fst snd negb].
  unfold bind at 1. rewrite db_eq. cbn [fst snd]. rewrite Ep.
  cbn [fst snd].
  unfold bind at 1. rewrite db_eq. cbn [fst snd]. rewrite En.
  cbn [fst snd].
  unfold bind at 1. rewrite _publish_update_eq. cbn [fst snd].
  exists (publish
            (mkEvent "book_appointment" "failed"
               (Some (if past then "past_date" else "unavailable"))) s).
  split; [destruct past; reflexivity|].
  now rewrite publish_user_id.
Qed.


End Booking.

(** ** The claim on identification *)

Section IdentifyClaims.
Context {P : Platform}.

Lemma identify_user_ok (raw canon : string) (name : option string)
    (s : ReservationTools) (w : World) :
  normalize_phone raw = Some canon ->
  exists row u s' w',
    identify_user raw name (s, w) = (Ok (Identified (User.name u)), (s', w')) /\
    get_or_create_user canon name w = (Ok (row, u), w') /\
    nth_error (users w') row = Some u /\
    User.contact_number u = canon /\
    _user_id s' = Some (User.id u) /\ _user_context s' = Some row.
Proof.
  intros Hn.
  destruct (get_or_create_user_stored canon name w)
    as (row & u & E & Hrow & Hc & _).
  unfold identify_user. rewrite Hn.
  unfold bind at 1. rewrite _publish_update_eq.
  unfold bind at 1. rewrite db_eq. cbn [fst snd]. rewrite E. cbn [fst snd].
  unfold bind at 1. unfold set_identity, bind, self, set_self.
  cbn [fst snd]. rewrite _publish_update_eq. cbn [fst snd].
  unfold ret. do 4 eexists. split; [reflexivity|].
  rewrite publish_user_id, publish_user_context. cbn.
  repeat split; assumption.
Qed.


End IdentifyClaims.

(** ** The booking scenario *)

Section BookingClaims.
Context {P : Platform}.

(** The time test on a naive start time, from the two timestamps. *)
Lemma past_test_naive (dt : datetime) (t : Z) (a b : float) :
  tzinfo dt = None ->
  timestamp dt = Some a -> timestamp (localtime t) = Some b ->
  past_test dt t = Some (a <? b - 120)%float.
Proof.
  intros Hz Ha Hb. unfold past_test, now_like. now rewrite Hz, Ha, Hb.
Qed.

(** The candidates of 27 October are all at or before 19:00 that day. *)
Lemma scan_hours_oct27 (w : World) :
  scan_hours (mkdate 2023 10 27) oct27_7pm available_hours w = (Ok None, w).
Proof. reflexivity. Qed.

(** From the reference time 19:00 on 27 October the search comes to
    10:00 the next morning first. *)
Lemma scan_days_oct27 (w w' : World) :
  check_availability "2023-10-28T10:00:00" 1 w = (Ok true, w') ->
  scan_days oct27_7pm range7 w = (Ok (Some "2023-10-28T10:00:00"), w').
Proof.
  intros H. unfold range7. cbn [scan_days].
  change (date_add_days (date_of oct27_7pm) 0)
    with (Some (mkdate 2023 10 27)).
  change (date_add_days (date_of oct27_7pm) 1)
    with (Some (mkdate 2023 10 28)).
  cbv beta iota. unfold bind at 1. rewrite scan_hours_oct27.
  unfold bind at 1. unfold available_hours. cbn [scan_hours].
  change (dt_le (combine_hour (mkdate 2023 10 28) 10) oct27_7pm)
    with (@Ok bool false).
  change (strftime_iso (combine_hour (mkdate 2023 10 28) 10))
    with "2023-10-28T10:00:00".
  unfold bind at 1. unfold lift_res at 1. cbv beta iota.
  unfold bind at 1. rewrite H. reflexivity.
Qed.

(** C9 (amended).  With the guest identified, the clock not past 19:00 on
    2023-10-27 during the two requests (they read it six times: at each
    reading the clock has a timestamp, that of 19:00 is not below it, and
    neither that of 19:00 nor that of 10:00 the next morning is below it
    less 120 seconds; and the local time read is not after 19:00) and
    nothing booked at the two times: the first request for
    2023-10-27T19:00:00 for two is booked; a second request for the same
    time is answered slot-unavailable with the suggestion
    2023-10-28T10:00:00, the next of the candidate hours 10, 14, 17, 18,
    19 after the requested time (20:00 and 21:00 are no candidates). *)
Theorem C9_second_request_suggests_next_candidate (s : ReservationTools)
    (w : World) (uid details1 details2 : string) (a19 a10 : float) :
  _user_id s = Some uid -> uid <> "" ->
  fromisoformat "2023-10-27T19:00:00" = Some oct27_7pm ->
  fromisoformat "2023-10-28T10:00:00" = Some oct28_10am ->
  timestamp oct27_7pm = Some a19 ->
  timestamp oct28_10am = Some a10 ->
  (forall j, (ticks w <= j <= ticks w + 5)%nat ->
             exists b,
               timestamp (localtime (clock j)) = Some b /\
               (a19 <? b)%float = false /\
               (a19 <? b - 120)%float = false /\
               (a10 <? b - 120)%float = false) ->
  (forall j, (ticks w <= j <= ticks w + 5)%nat ->
             lex_compare (fields (localtime (clock j))) (fields oct27_7pm)
             <> Gt) ->
  booked_at "2023-10-27T19:00:00" (appointments w) = false ->
  booked_at "2023-10-28T10:00:00" (appointments w) = false ->
  exists name i c1 c2,
    book_appointment "2023-10-27T19:00:00" 2 None None details1 (s, w)
    = (Ok (Booked name "2023-10-27T19:00:00" 2 i), c1) /\
    book_appointment "2023-10-27T19:00:00" 2 None None details2 c1
    = (Ok (Book_unavailable (Some "2023-10-28T10:00:00")), c2).
Proof.
  intros Hid Huid Hp19 Hp10 Ha19 Ha10 Hclock Hlex Hfree19 Hfree10.
  assert (Hold19 : forall j, (ticks w <= j <= ticks w + 5)%nat ->
                             time_refused oct27_7pm (clock j) = false).
  { intros j Hj. apply time_refused_false.
    destruct (Hclock j Hj) as (b & Hb & _ & H2 & _).
    rewrite (past_test_naive oct27_7pm _ a19 b eq_refl Ha19 Hb).
    now rewrite H2. }
  assert (Hold10 : forall j, (ticks w <= j <= ticks w + 5)%nat ->
                             time_refused oct28_10am (clock j) = false).
  { intros j Hj. apply time_refused_false.
    destruct (Hclock j Hj) as (b & Hb & _ & _ & H3).
    rewrite (past_test_naive oct28_10am _ a10 b eq_refl Ha10 Hb).
    now rewrite H3. }
  assert (Hmax : forall j, (ticks w <= j <= ticks w + 5)%nat ->
                           max_dt oct27_7pm (localtime (clock j))
                           = Ok oct27_7pm).
  { intros j Hj. unfold max_dt, dt_gt, dt_compare.
    rewrite localtime_naive. change (tzinfo oct27_7pm) with (@None Z).
    specialize (Hlex j Hj).
    destruct (lex_compare (fields (localtime (clock j))) (fields oct27_7pm));
      [reflexivity|reflexivity|now destruct Hlex]. }
  (* the first request: available, booked *)
  assert (E1 : check_availability "2023-10-27T19:00:00" 2 w
               = (Ok true, tick w)).
  { rewrite check_availability_eq.
    change (replace_Z "2023-10-27T19:00:00") with "2023-10-27T19:00:00".
    rewrite Hp19, Hold19, Hfree19 by lia. reflexivity. }
  destruct (book_tail_available "2023-10-27T19:00:00" 2 details1
              (publish started s) w (tick w) E1) as (name & s1 & B1 & I1).
  rewrite publish_user_id, Hid in I1.
  rewrite create_appointment_eq in B1. cbn [snd] in B1.
  set (a1 := new_appt (tick w) _ _ _ _) in B1.
  set (w1 := set_appointments _ _) in B1.
  assert (T1 : ticks w1 = S (S (ticks w))) by reflexivity.
  (* the second request: taken, not past, next candidate suggested *)
  assert (E2 : check_availability "2023-10-27T19:00:00" 2 w1
               = (Ok false, tick w1)).
  { rewrite check_availability_eq.
    change (replace_Z "2023-10-27T19:00:00") with "2023-10-27T19:00:00".
    rewrite Hp19, Hold19 by lia. change (open_at oct27_7pm) with true.
    subst w1 a1. cbn [appointments set_appointments tick negb].
    now rewrite booked_at_new. }
  assert (E3 : is_past_of "2023-10-27T19:00:00" (tick w1)
               = (Ok false, tick (tick w1))).
  { unfold is_past_of.
    change (replace_Z "2023-10-27T19:00:00") with "2023-10-27T19:00:00".
    rewrite Hp19, Ha19. unfold now, read_clock, bind, ret.
    assert (Hj : (ticks w <= ticks (tick w1) <= ticks w + 5)%nat)
      by (cbn [ticks tick]; lia).
    destruct (Hclock _ Hj) as (b & Hb & H1 & _).
    now rewrite Hb, H1. }
  assert (E4 : get_next_available_slot "2023-10-27T19:00:00" (tick (tick w1))
               = (Ok (Some "2023-10-28T10:00:00"),
                  tick (tick (tick (tick w1))))).
  { rewrite get_next_available_slot_eq. unfold reference_of.
    change (replace_Z "2023-10-27T19:00:00") with "2023-10-27T19:00:00".
    rewrite Hp19, Hmax by (cbn [ticks tick]; lia). apply scan_days_oct27.
    rewrite check_availability_eq.
    change (replace_Z "2023-10-28T10:00:00") with "2023-10-28T10:00:00".
    rewrite Hp10, Hold10 by (cbn [ticks tick]; lia).
    change (open_at oct28_10am) with true.
    subst w1 a1. cbn [appointments set_appointments tick negb].
    rewrite booked_at_app, Hfree10. reflexivity. }
  destruct (book_tail_unavailable "2023-10-27T19:00:00" 2 details2
              (publish started s1) _ _ _ _ _ _ E2 E3 E4) as (s2 & B2 & _).
  exists name, (Appt.id a1), (s1, w1), (s2, tick (tick (tick (tick w1)))).
  split.
  - rewrite book_appointment_identified
      by (rewrite Hid; now apply truthy_some).
    exact B1.
  - rewrite book_appointment_identified
      by (rewrite I1; now apply truthy_some).
    exact B2.
Qed.

End BookingClaims.

(** ** The guest and tool claims on the scenarios *)

(** The state after Ana's two bookings is a state of the store. *)
Lemma ana_two_reachable : reachable (P := Demo.platform) (snd Demo.ana_two).
Proof.
  exact (reach_create _ "user_1" "2026-10-27T18:00:00" 4 "General Reservation"
           (reach_check _ "2026-10-27T18:00:00" 4
              (reach_create _ "user_1" "2026-10-27T19:00:00" 2
                 "General Reservation"
                 (reach_check _ "2026-10-27T19:00:00" 2
                    (reach_user _ "5551234567" (Some "Ana") reach_init))))).
Qed.

Lemma C4_one_guest_per_number_witness :
  exists i u1 u2 w1 w2,
    get_or_create_user (P := Demo.platform) "5551234567" (Some "Ana")
      init_world = (Ok (i, u1), w1) /\
    get_or_create_user (P := Demo.platform) "5551234567" None w1
      = (Ok (i, u2), w2) /\
    List.length (users w2) = List.length (users w1) /\
    User.id u2 = User.id u1 /\
    nth_error (users w2) i = Some u2 /\
    User.contact_number u2 = "5551234567" /\
    NoDup (map User.contact_number (users w2)) /\
    (forall j v, nth_error (users w2) j = Some v ->
                 User.contact_number v = "5551234567" -> j = i) /\
    (forall s, Some "Ana" = Some s -> s <> "" -> User.name u1 = s) /\
    (forall s, @None string = Some s -> s <> "" -> User.name u2 = s) /\
    (@None string = None \/ @None string = Some "" ->
     User.name u2 = User.name u1).
Proof.
  exact (C4_one_guest_per_number (P := Demo.platform) init_world
           "5551234567" (Some "Ana") None reach_init).
Defined.

(** The scenario of the specification: a second identification under
    another spelling of the number finds the same guest, name kept. *)
Example identify_twice_same_guest :
  let c1 := snd (identify_user (P := Demo.platform) "555-123-4567"
                   (Some "Ana") Demo.fresh) in
  let r2 := identify_user (P := Demo.platform) "5551234567" None c1 in
  fst r2 = Ok (Identified "Ana") /\
  _user_id (fst (snd r2)) = _user_id (fst c1) /\
  List.length (users (snd (snd r2))) = 1%nat.
Proof. vm_compute. repeat split; reflexivity. Qed.

Example normalize_phone_examples :
  normalize_phone (P := Demo.platform) "+91 (555) 123-4567"
  = Some "5551234567" /\
  normalize_phone (P := Demo.platform) "555-1234" = None /\
  normalize_phone (P := Demo.platform) "5551234567" = Some "5551234567" /\
  List.length (chars Demo2.arabic_number) = 12%nat /\
  normalize_phone (P := Demo.platform) Demo2.arabic_number
  = Some (join (map Demo2.arabic_indic [5; 5; 5; 1; 2; 3; 4; 5; 6; 7]%nat)).
Proof. vm_compute. repeat split; reflexivity. Qed.

(** On the in-memory store a modification with details only keeps the
    party size: Ana's table for two stays a table for two. *)
Example modify_details_only_in_memory :
  exists a s' w',
    modify_appointment (P := Demo.platform) "appt_1" None None
      (Some "window seat") Demo.ana_two
    = (Ok (Modified "Ana" "2026-10-27T19:00:00" 2 "appt_3"), (s', w')) /\
    nth_error (appointments w') 2 = Some a /\
    Appt.start_time a = "2026-10-27T19:00:00" /\
    Appt.num_people a = Some 2 /\
    Appt.details a = "Guests: 2. window seat".
Proof.
  do 3 eexists. split; [vm_compute; reflexivity|].
  repeat split; reflexivity.
Qed.

(** C6: a booking for four that carries no party size of its own, which
    is how the Supabase branch of [create_appointment] records it, is
    re-created for two by a modification that gives new details only:
    [original.get('num_people', 2)] falls back to 2. *)
Theorem C6_details_only_resets_party_size :
  let run :=
    modify_appointment (P := Demo.platform) "appt_1" None None
      (Some "window seat") Demo2.ana_remote in
  In Demo2.remote (active "user_1" (snd Demo2.ana_remote)) /\
  Appt.num_people Demo2.remote = None /\
  Appt.details Demo2.remote = "Guests: 4. General Reservation" /\
  fst run = Ok (Modified "Ana" "2026-10-27T19:00:00" 2 "appt_2") /\
  nth_error (appointments (snd (snd run))) 1
  = Some (Appt.mk "appt_2" "user_1" "2026-10-27T19:00:00" "TBD" booked
            (Some 2) "Guests: 2. window seat" "2026-10-27T09:00:01").
Proof.
  cbv zeta. split; [left; reflexivity|].
  repeat split; vm_compute; reflexivity.
Qed.

(** C5 as stated fails on a request that names no change: the id is not
    among the guest's active appointments, yet the answer is the request
    to say what to change, not the not-found failure. *)
Lemma C5_counterexample_nothing_to_change :
  _user_id (fst Demo.ana_two) = Some "user_1" /\
  (forall a, In a (active "user_1" (snd Demo.ana_two)) ->
             Appt.id a <> "appt_9") /\
  fst (modify_appointment (P := Demo.platform) "appt_9" None None None
         Demo.ana_two) = Ok Modify_nothing_to_change /\
  fst (modify_appointment (P := Demo.platform) "appt_9" None None None
         Demo.ana_two) <> Ok Modify_not_found.
Proof.
  split; [vm_compute; reflexivity|]. split.
  - intros a Ha. vm_compute in Ha.
    destruct Ha as [<-|[<-|[]]]; discriminate.
  - split; [vm_compute; reflexivity|vm_compute; discriminate].
Qed.

Lemma C5_modify_rejections_witness :
  fst (modify_appointment (P := Demo.platform) "appt_9"
         (Some "2026-10-27T18:00:00") None None
         (fst Demo.ana_two, snd Demo.ana_two))
  = Ok Modify_not_found /\
  fst (modify_appointment (P := Demo.platform) "appt_1"
         (Some "2026-10-27T18:00:00") None None
         (fst Demo.ana_two, snd Demo.ana_two))
  = Ok (Modify_unavailable "2026-10-27T18:00:00" "2026-10-27T19:00:00" 2
          (Some "2026-10-28T10:00:00")) /\
  fst (modify_appointment (P := Demo.platform) "appt_1"
         (Some "2020-01-01T12:00:00") None None
         (fst Demo.ana_two, snd Demo.ana_two))
  = Ok (Modify_past_date (Some "2026-10-27T10:00:00")
          "2026-10-27T19:00:00").
Proof.
  split; [|split].
  - destruct (C5_modify_rejections (P := Demo.platform) (fst Demo.ana_two)
                (snd Demo.ana_two) "user_1" "appt_9"
                (Some "2026-10-27T18:00:00") None None
                ltac:(vm_compute; reflexivity) ltac:(discriminate) eq_refl)
      as [A _].
    destruct A as (s' & E & _).
    + intros a Ha. vm_compute in Ha.
      destruct Ha as [<-|[<-|[]]]; discriminate.
    + rewrite E. reflexivity.
  - destruct (C5_modify_rejections (P := Demo.platform) (fst Demo.ana_two)
                (snd Demo.ana_two) "user_1" "appt_1"
                (Some "2026-10-27T18:00:00") None None
                ltac:(vm_compute; reflexivity) ltac:(discriminate) eq_refl)
      as [_ B].
    destruct (B Demo.appt1 "2026-10-27T18:00:00" (Some "2026-10-28T10:00:00"))
      as (s' & w3 & E & _).
    + vm_compute. reflexivity.
    + reflexivity.
    + discriminate.
    + vm_compute. reflexivity.
    + vm_compute. reflexivity.
    + rewrite E. vm_compute. reflexivity.
  - destruct (C5_modify_rejections (P := Demo.platform) (fst Demo.ana_two)
                (snd Demo.ana_two) "user_1" "appt_1"
                (Some "2020-01-01T12:00:00") None None
                ltac:(vm_compute; reflexivity) ltac:(discriminate) eq_refl)
      as [_ B].
    destruct (B Demo.appt1 "2020-01-01T12:00:00" (Some "2026-10-27T10:00:00"))
      as (s' & w3 & E & _).
    + vm_compute. reflexivity.
    + reflexivity.
    + discriminate.
    + vm_compute. reflexivity.
    + vm_compute. reflexivity.
    + rewrite E. vm_compute. reflexivity.
Defined.

(** C9 as stated fails: on the morning of 2023-10-27 the first request
    for 19:00 is booked and the second is answered slot-unavailable, but
    the suggestion is 10:00 the next morning, although 20:00 and 21:00
    that evening are inside opening hours and free. *)
Lemma C9_counterexample_suggestion :
  fst Demo23.first = Ok (Booked "Ana" "2023-10-27T19:00:00" 2 "appt_1") /\
  fst Demo23.second = Ok (Book_unavailable (Some "2023-10-28T10:00:00")) /\
  ~ In "2023-10-28T10:00:00"
       ["2023-10-27T20:00:00"; "2023-10-27T21:00:00"] /\
  fst (check_availability (P := Demo23.platform) "2023-10-27T20:00:00" 2
         (snd (snd Demo23.second))) = Ok true /\
  fst (check_availability (P := Demo23.platform) "2023-10-27T21:00:00" 2
         (snd (snd Demo23.second))) = Ok true.
Proof.
  repeat split; try (vm_compute; reflexivity).
  intros [H|[H|[]]]; discriminate.
Qed.

Lemma C9_second_request_suggests_next_candidate_witness :
  exists name i c1 c2,
    book_appointment (P := Demo23.platform) "2023-10-27T19:00:00" 2 None None
      "General Reservation" (fst Demo23.ana, snd Demo23.ana)
    = (Ok (Booked name "2023-10-27T19:00:00" 2 i), c1) /\
    book_appointment (P := Demo23.platform) "2023-10-27T19:00:00" 2 None None
      "General Reservation" c1
    = (Ok (Book_unavailable (Some "2023-10-28T10:00:00")), c2).
Proof.
  apply (C9_second_request_suggests_next_candidate (P := Demo23.platform)
           (fst Demo23.ana) (snd Demo23.ana) "user_1" _ _
           (stamp (timestamp (Platform := Demo23.platform) oct27_7pm))
           (stamp (timestamp (Platform := Demo23.platform) oct28_10am))).
  - vm_compute. reflexivity.
  - discriminate.
  - reflexivity.
  - reflexivity.
  - vm_compute. reflexivity.
  - vm_compute. reflexivity.
  - intros j Hj. vm_compute in Hj.
    do 7 (destruct j as [|j];
          [try lia;
           match goal with
           | |- exists b, ?t = Some b /\ _ => exists (stamp t)
           end;
           repeat split; vm_compute; reflexivity|]).
    lia.
  - intros j Hj. vm_compute in Hj.
    do 7 (destruct j as [|j]; [try lia; vm_compute; discriminate|]).
    lia.
  - vm_compute. reflexivity.
  - vm_compute. reflexivity.
Defined.

(** C3: the search for the next slot handles the UTC marker in its input
    and then compares the aware value with the naive clock, which raises.
    [check_availability] answers for the same text; [book_appointment]
    and [modify_appointment] pass the requested time on to the search, so
    a request for an unavailable time written with an offset ends in the
    exception instead of a rejection. *)
Theorem C3_aware_from_time_raises :
  fst (check_availability (P := Demo.platform) "2026-10-27T19:00:00Z" 1
         init_world) = Ok true /\
  fst (get_next_available_slot (P := Demo.platform) "2026-10-27T19:00:00Z"
         init_world) = Raise TypeError /\
  fst (book_appointment (P := Demo.platform) "2020-01-01T12:00:00Z" 2
         None None "General Reservation" Demo.ana) = Raise TypeError /\
  fst (modify_appointment (P := Demo.platform) "appt_1"
         (Some "2020-01-01T12:00:00+00:00") None None Demo.ana_two)
  = Raise TypeError.
Proof.
  split; [vm_compute; reflexivity|].
  split; [|split; vm_compute; reflexivity].
  now rewrite (get_next_available_slot_aware (P := Demo.platform)
                 "2026-10-27T19:00:00Z"
                 (mkdt 2026 10 27 19 0 0 0 (Some 0)) 0).
Qed.

(** The search also leaves the calendar: from the last evening of the
    year 9999 the next day does not exist. *)
Example next_slot_overflow :
  fst (get_next_available_slot (P := Demo.platform) "9999-12-31T20:00:00"
         init_world) = Raise OverflowError.
Proof. vm_compute. reflexivity. Qed.

(** C7: cancelling the stored appointment a second time answers true
    again (the store stays as the first cancellation left it); only an id
    that is not stored answers false. *)
Theorem C7_second_cancel_returns_true :
  let w1 := snd Demo.ana_booked in
  let w2 := snd (cancel_appointment "appt_1" w1) in
  fst (cancel_appointment "appt_1" w1) = Ok true /\
  map Appt.status (appointments w2) = [cancelled] /\
  cancel_appointment "appt_1" w2 = (Ok true, w2) /\
  fst (tool_cancel_appointment "appt_1"
         (fst Demo.ana_booked, w2)) = Ok (Cancelled "appt_1") /\
  cancel_appointment "appt_9" w2 = (Ok false, w2).
Proof.
  intros w1 w2. split; [vm_compute; reflexivity|].
  split; [vm_compute; reflexivity|].
  split; [|split; vm_compute; reflexivity].
  apply cancel_again. vm_compute. reflexivity.
Qed.

(** * Further properties of the code *)

(** ** Ids and rewriting a record by id *)

Lemma ids_by_row_NoDup (l : list Appt.t) :
  ids_by_row l -> NoDup (map Appt.id l).
Proof.
  intros H. apply NoDup_nth_error. intros i j Hi E.
  rewrite length_map in Hi. rewrite !nth_error_map in E.
  destruct (nth_error l i) as [a|] eqn:Ha.
  2:{ apply nth_error_None in Ha. lia. }
  destruct (nth_error l j) as [b|] eqn:Hb; [|discriminate].
  simpl in E. injection E as E.
  rewrite (H i a Ha), (H j b Hb) in E. simpl in E. injection E as E.
  apply str_of_nat_inj in E. now injection E.
Qed.

Lemma user_ids_by_row_NoDup (l : list User.t) :
  user_ids_by_row l -> NoDup (map User.id l).
Proof.
  intros H. apply NoDup_nth_error. intros i j Hi E.
  rewrite length_map in Hi. rewrite !nth_error_map in E.
  destruct (nth_error l i) as [a|] eqn:Ha.
  2:{ apply nth_error_None in Ha. lia. }
  destruct (nth_error l j) as [b|] eqn:Hb; [|discriminate].
  simpl in E. injection E as E.
  rewrite (H i a Ha), (H j b Hb) in E. simpl in E. injection E as E.
  apply str_of_nat_inj in E. now injection E.
Qed.

Lemma map_rewrite_id_absent (f : Appt.t -> Appt.t) (x : string)
    (l : list Appt.t) :
  (forall a, In a l -> Appt.id a <> x) -> map (rewrite_id f x) l = l.
Proof.
  induction l as [|a l IH]; intros H; [reflexivity|]. simpl.
  unfold rewrite_id at 1.
  destruct (String.eqb_spec (Appt.id a) x) as [E|_].
  - now destruct (H a (or_introl eq_refl)).
  - f_equal. apply IH. intros b Hb. apply H. now right.
Qed.

Lemma update_first_map (f : Appt.t -> Appt.t) (x : string)
    (l : list Appt.t) :
  NoDup (map Appt.id l) ->
  update_first f x l =
  if existsb (fun a => String.eqb (Appt.id a) x) l
  then Some (map (rewrite_id f x) l) else None.
Proof.
  induction l as [|a l IH]; intros N; [reflexivity|].
  simpl in N. apply NoDup_cons_iff in N. destruct N as [Na N].
  simpl. unfold rewrite_id at 1.
  destruct (String.eqb_spec (Appt.id a) x) as [E|NE]; simpl.
  - rewrite map_rewrite_id_absent; [reflexivity|].
    intros b Hb Eb. apply Na. rewrite E, <- Eb. now apply in_map.
  - rewrite (IH N). now destruct (existsb _ l).
Qed.

Lemma set_appointments_same (w : World) :
  set_appointments (appointments w) w = w.
Proof. now destruct w. Qed.

Lemma existsb_id_false (x : string) (l : list Appt.t) :
  existsb (fun a => String.eqb (Appt.id a) x) l = false ->
  forall a, In a l -> Appt.id a <> x.
Proof.
  intros H a Ha E.
  assert (T : existsb (fun a => String.eqb (Appt.id a) x) l = true)
    by (apply existsb_exists; exists a; split; [assumption|];
        now apply String.eqb_eq).
  congruence.
Qed.

Lemma booked_at_rewrite_details (d x s : string) (l : list Appt.t) :
  booked_at s (map (rewrite_id (Appt.set_details d) x) l) = booked_at s l.
Proof.
  unfold booked_at. induction l as [|a l IH]; [reflexivity|].
  simpl. rewrite IH. f_equal. unfold rewrite_id.
  now destruct (String.eqb (Appt.id a) x).
Qed.

Lemma filter_rewrite_details_ids (q : Appt.t -> bool) (d x : string)
    (l : list Appt.t) :
  (forall a, q (Appt.set_details d a) = q a) ->
  map Appt.id (filter q (map (rewrite_id (Appt.set_details d) x) l))
  = map Appt.id (filter q l).
Proof.
  intros Hq. induction l as [|a l IH]; [reflexivity|].
  cbn [map filter].
  set (b := rewrite_id (Appt.set_details d) x a).
  assert (Hb : q b = q a /\ Appt.id b = Appt.id a).
  { unfold b, rewrite_id. destruct (String.eqb (Appt.id a) x);
      split; try reflexivity. apply Hq. }
  destruct Hb as [Hb1 Hb2]. rewrite Hb1.
  destruct (q a); cbn [map]; rewrite IH; congruence.
Qed.

Section LedgerExtras.
Context {P : Platform}.

(** In a state of the store, [cancel_appointment] and
    [update_appointment] answer whether the id is stored and rewrite that
    one record. *)
Lemma cancel_appointment_map (x : string) (w : World) :
  reachable w ->
  cancel_appointment x w =
  (Ok (existsb (fun a => String.eqb (Appt.id a) x) (appointments w)),
   set_appointments
     (map (rewrite_id (Appt.set_status cancelled) x) (appointments w)) w).
Proof.
  intros R. apply reachable_invariant in R. destruct R as [Hids _].
  rewrite cancel_appointment_eq, update_first_map
    by now apply ids_by_row_NoDup.
  destruct (existsb _ (appointments w)) eqn:E; [reflexivity|].
  rewrite map_rewrite_id_absent by now apply existsb_id_false.
  now rewrite set_appointments_same.
Qed.

Lemma update_appointment_map (x d : string) (w : World) :
  reachable w ->
  update_appointment x d w =
  (Ok (existsb (fun a => String.eqb (Appt.id a) x) (appointments w)),
   set_appointments
     (map (rewrite_id (Appt.set_details d) x) (appointments w)) w).
Proof.
  intros R. apply reachable_invariant in R. destruct R as [Hids _].
  rewrite update_appointment_eq, update_first_map
    by now apply ids_by_row_NoDup.
  destruct (existsb _ (appointments w)) eqn:E; [reflexivity|].
  rewrite map_rewrite_id_absent by now apply existsb_id_false.
  now rewrite set_appointments_same.
Qed.

(** X1.  [update_appointment] answers true exactly when the id is stored,
    whatever the status of the appointment; it replaces the details of
    that appointment by the given text and changes no other field, no
    other appointment and no guest; so what [check_availability] answers
    and which appointments a guest has listed stay as they were. *)
Theorem X1_update_appointment_details_only (x d : string) (w : World) :
  reachable w ->
  let r := update_appointment x d w in
  (fst r = Ok true <-> exists a, In a (appointments w) /\ Appt.id a = x) /\
  (fst r = Ok false <-> forall a, In a (appointments w) -> Appt.id a <> x) /\
  users (snd r) = users w /\
  (forall i a, nth_error (appointments w) i = Some a ->
     nth_error (appointments (snd r)) i =
     Some (if String.eqb (Appt.id a) x then Appt.set_details d a else a)) /\
  (forall s n, check_availability s n (snd r)
               = (fst (check_availability s n w),
                  set_appointments (appointments (snd r))
                    (snd (check_availability s n w)))) /\
  (forall u, map Appt.id (active u (snd r)) = map Appt.id (active u w)).
Proof.
  intros R r. subst r. rewrite (update_appointment_map x d w R).
  cbn [fst snd set_appointments users appointments].
  repeat split.
  - intros H. injection H as H. apply existsb_exists in H.
    destruct H as (a & Ha & E). exists a. split; [assumption|].
    now apply String.eqb_eq.
  - intros (a & Ha & E). f_equal. apply existsb_exists. exists a.
    split; [assumption|]. now apply String.eqb_eq.
  - intros H. injection H as H. now apply existsb_id_false.
  - intros H. f_equal.
    destruct (existsb _ (appointments w)) eqn:E; [|reflexivity].
    apply existsb_exists in E. destruct E as (a & Ha & E).
    apply String.eqb_eq in E. now destruct (H a Ha).
  - intros i a Hi. rewrite nth_error_map, Hi. reflexivity.
  - intros s n. rewrite !check_availability_eq.
    destruct (fromisoformat (replace_Z s)) as [dt|].
    + cbn [fst snd appointments ticks tick set_appointments users].
      now rewrite booked_at_rewrite_details.
    + cbn [fst snd]. reflexivity.
  - intros u. unfold active. cbn [appointments].
    apply filter_rewrite_details_ids. reflexivity.
Qed.

End LedgerExtras.

(** ** Listing, ids and the search for the next slot *)

Lemma ids_by_row_map_users (l l' : list User.t) :
  map User.id l' = map User.id l -> user_ids_by_row l -> user_ids_by_row l'.
Proof.
  intros E Hl i a Hi.
  assert (Hm : nth_error (map User.id l') i = Some (User.id a))
    by (rewrite nth_error_map, Hi; reflexivity).
  rewrite E, nth_error_map in Hm.
  destruct (nth_error l i) as [b|] eqn:Hb; [|discriminate].
  injection Hm as <-. now apply Hl.
Qed.

Lemma user_ids_by_row_snoc (l : list User.t) (u : User.t) :
  user_ids_by_row l ->
  User.id u = "user_" ++ str_of_nat (S (List.length l)) ->
  user_ids_by_row (l ++ [u]).
Proof.
  intros Hl Hu i b Hi.
  destruct (Nat.lt_ge_cases i (List.length l)) as [Hlt|Hge].
  - rewrite nth_error_app1 in Hi by assumption. now apply Hl.
  - rewrite nth_error_app2 in Hi by assumption.
    destruct (i - List.length l)%nat as [|k] eqn:E; simpl in Hi.
    + injection Hi as <-. rewrite Hu. do 2 f_equal. lia.
    + destruct k; discriminate.
Qed.

Section ListingExtras.
Context {P : Platform}.

Lemma reachable_user_ids (w : World) :
  reachable w -> user_ids_by_row (users w).
Proof.
  induction 1 as [|w _ IH|w c n _ IH|w u s n d _ IH|w x _ IH|w x d _ IH
                 |w s n _ IH|w s _ IH].
  - intros [|i] u H; discriminate.
  - assumption.
  - rewrite get_or_create_user_eq.
    destruct (lookup_user (users w) c n) as [[us' [i u]]|] eqn:L;
      cbn [snd set_users users tick].
    + destruct (lookup_user_some _ _ _ _ _ _ L)
        as (_ & _ & _ & _ & _ & _ & _ & E & _).
      now apply (ids_by_row_map_users (users w)).
    + now apply user_ids_by_row_snoc.
  - rewrite create_appointment_eq. assumption.
  - rewrite cancel_appointment_eq.
    destruct (update_first _ x (appointments w)); assumption.
  - rewrite update_appointment_eq.
    destruct (update_first _ x (appointments w)); assumption.
  - destruct (check_availability s n w) as [r w1] eqn:E.
    apply check_availability_same_store in E. destruct E as [E _].
    cbn [snd]. now rewrite E.
  - destruct (get_next_available_slot s w) as [r w1] eqn:E.
    apply get_next_available_slot_same_store in E. destruct E as [E _].
    cbn [snd]. now rewrite E.
Qed.

(** X2.  Creating an appointment for a guest puts it at the end of that
    guest's list of active appointments and leaves the lists of the other
    guests as they were; cancelling it again gives every guest the list
    they had before. *)
Theorem X2_listing_round_trip (w : World) (u s : string) (n : Z)
    (d : string) :
  reachable w ->
  let created := create_appointment u s n d w in
  let a := new_appt w u s n d in
  let w1 := snd created in
  let w2 := snd (cancel_appointment (Appt.id a) w1) in
  fst created = Ok (List.length (appointments w), a) /\
  get_user_appointments u w1 = (Ok (active u w ++ [a])%list, w1) /\
  (forall u', u' <> u ->
     fst (get_user_appointments u' w1) = fst (get_user_appointments u' w)) /\
  fst (cancel_appointment (Appt.id a) w1) = Ok true /\
  (forall u',
     fst (get_user_appointments u' w2) = fst (get_user_appointments u' w)).
Proof.
  intros R created a w1 w2.
  apply reachable_invariant in R. destruct R as [Hids _].
  subst created w1 w2. rewrite create_appointment_eq. cbn [fst snd].
  unfold set_appointments, tick. cbn [users appointments ticks].
  rewrite (cancel_created w a) by easy. cbn [fst snd].
  assert (F : forall u' l (b : Appt.t),
            fst (get_user_appointments u'
                   (mkWorld (users w) (appointments w ++ [b]) l))
            = Ok (active u' w
                  ++ (if String.eqb (Appt.user_id b) u'
                         && negb (Status_eqb (Appt.status b) cancelled)
                      then [b] else []))%list).
  { intros u' l b. rewrite get_user_appointments_eq. cbn [fst].
    unfold active. cbn [appointments]. now rewrite filter_app. }
  split; [reflexivity|]. split.
  - rewrite get_user_appointments_eq. f_equal. f_equal.
    unfold active. cbn [appointments]. rewrite filter_app. cbn [filter].
    subst a. cbn [new_appt Appt.user_id Appt.status Status_eqb negb].
    now rewrite String.eqb_refl.
  - split; [|split; [reflexivity|]].
    + intros u' Hu. rewrite F. subst a.
      cbn [new_appt Appt.user_id Appt.status Status_eqb negb].
      destruct (String.eqb_spec u u'); [congruence|].
      cbn [andb]. now rewrite app_nil_r.
    + intros u'. rewrite F. subst a.
      cbn [new_appt Appt.set_status Appt.user_id Appt.status Status_eqb negb].
      now rewrite andb_false_r, app_nil_r.
Qed.

(** X3.  In every state of the store the appointment in row [i] (from 0)
    has the id ["appt_"] followed by [i+1] and the guest in row [i] the id
    ["user_"] followed by [i+1]; so the ids of appointments, and of
    guests, are pairwise distinct, cancelled appointments included. *)
Theorem X3_ids_follow_rows (w : World) :
  reachable w ->
  (forall i a, nth_error (appointments w) i = Some a ->
               Appt.id a = "appt_" ++ str_of_nat (S i)) /\
  (forall i u, nth_error (users w) i = Some u ->
               User.id u = "user_" ++ str_of_nat (S i)) /\
  NoDup (map Appt.id (appointments w)) /\
  NoDup (map User.id (users w)).
Proof.
  intros R. pose proof (reachable_user_ids w R) as HU.
  apply reachable_invariant in R. destruct R as [HA _].
  repeat split; try assumption.
  - now apply ids_by_row_NoDup.
  - now apply user_ids_by_row_NoDup.
Qed.

(** X4.  A slot [get_next_available_slot] returns is the text of one of
    the hours 10, 14, 17, 18, 19 on one of the seven days from the date of
    the reference time on, the reference time being the later of the
    parsed [from_time] and the clock; it is strictly later than the
    reference time, and it is the text for which [check_availability] has
    answered yes as the last step of the search. *)
Theorem X4_next_slot_sound (from_time slot : string) (w w' : World) :
  get_next_available_slot from_time w = (Ok (Some slot), w') ->
  exists ref k d h wk,
    reference_of from_time w = Ok ref /\
    In k [0; 1; 2; 3; 4; 5; 6] /\
    date_add_days (date_of ref) k = Some d /\
    In h [10; 14; 17; 18; 19] /\
    slot = strftime_iso (combine_hour d h) /\
    dt_gt (combine_hour d h) ref = Ok true /\
    users wk = users w /\ appointments wk = appointments w /\
    check_availability slot 1 wk = (Ok true, w').
Proof.
  intros H.
  destruct (get_next_available_slot_sound _ _ _ _ H)
    as (ref & k & d & h & wk & H1 & H2 & H3 & H4 & H5 & H6 & [H7 H8] & H9).
  exists ref, k, d, h, wk. repeat split; try assumption.
  unfold dt_le in H6. unfold dt_gt.
  destruct (dt_compare (combine_hour d h) ref) as [[| |]|e];
    try discriminate. reflexivity.
Qed.

(** X5.  When [get_next_available_slot] returns [None], every one of the
    hours 10, 14, 17, 18, 19 on each of the seven days was either not
    later than the reference time or refused by [check_availability]
    during the search: the candidates later than the reference time, in
    the order of the days and hours, were put to [check_availability] one
    after the other, the first in the world after the clock read of the
    search and each next one in the world the check before it left, each
    was refused, and the last check left the world the search returns. *)
Theorem X5_next_slot_none (from_time : string) (w w' : World) :
  get_next_available_slot from_time w = (Ok None, w') ->
  exists ref slots,
    reference_of from_time w = Ok ref /\
    slots = map strftime_iso
              (filter (later_than ref)
                 (candidates_on ref [0; 1; 2; 3; 4; 5; 6])) /\
    refused_in_turn slots (tick w) w' /\
    forall k d h,
      In k [0; 1; 2; 3; 4; 5; 6] ->
      date_add_days (date_of ref) k = Some d ->
      In h [10; 14; 17; 18; 19] ->
      dt_le (combine_hour d h) ref = Ok true \/
      (dt_le (combine_hour d h) ref = Ok false /\
       In (strftime_iso (combine_hour d h)) slots).
Proof.
  intros H.
  destruct (get_next_available_slot_trace _ _ _ H) as (ref & E & _ & B & C).
  exists ref, (map strftime_iso
                 (filter (later_than ref) (candidates_on ref range7))).
  split; [exact E|]. split; [reflexivity|]. split; [exact C|].
  intros k d h Hk Hd Hh.
  pose proof (candidates_on_In ref range7 k h d Hk Hd Hh) as Hc.
  destruct (B _ Hc) as [[|] Hb]; [now left|right].
  split; [exact Hb|]. apply in_map, filter_In. split; [exact Hc|].
  unfold later_than. now rewrite Hb.
Qed.

(** X6.  For a [from_time] that does not parse or parses to a naive
    datetime, and a reference date whose next six days are in the
    calendar, [get_next_available_slot] returns (a slot or [None]) and
    raises nothing. *)
Theorem X6_next_slot_returns (from_time : string) (w : World) :
  (forall dt, fromisoformat (replace_Z from_time) = Some dt ->
              tzinfo dt = None) ->
  (forall ref k, reference_of from_time w = Ok ref ->
                 In k [0; 1; 2; 3; 4; 5; 6] ->
                 date_add_days (date_of ref) k <> None) ->
  exists r, fst (get_next_available_slot from_time w) = Ok r.
Proof. apply get_next_available_slot_returns. Qed.

End ListingExtras.

(** ** What each tool does to the store *)

Section ToolEffects.
Context {P : Platform}.

Lemma get_or_create_user_appointments (c : string) (n : option string)
    (w : World) :
  appointments (snd (get_or_create_user c n w)) = appointments w.
Proof.
  rewrite get_or_create_user_eq.
  destruct (lookup_user (users w) c n) as [[us' found]|]; reflexivity.
Qed.

Lemma cancel_appointment_tick (x : string) (w : World) :
  snd (cancel_appointment x (tick w)) = tick (snd (cancel_appointment x w)).
Proof.
  rewrite !cancel_appointment_eq. cbn [appointments tick].
  destruct (update_first _ x (appointments w)); reflexivity.
Qed.

(** A yes of [check_availability] says: the text parses, the time is not
    too old, the hour is in opening hours, nothing is booked at the text;
    and the clock has been read once. *)
Lemma check_availability_true (s : string) (n : Z) (w w1 : World) :
  check_availability s n w = (Ok true, w1) ->
  exists dt,
    fromisoformat (replace_Z s) = Some dt /\
    time_refused dt (clock (ticks w)) = false /\
    open_at dt = true /\
    booked_at s (appointments w) = false /\
    w1 = tick w.
Proof.
  rewrite check_availability_eq.
  destruct (fromisoformat (replace_Z s)) as [dt|]; [|discriminate].
  intros H. injection H as H <-. exists dt.
  destruct (time_refused dt _); [discriminate|].
  destruct (open_at dt); [|discriminate].
  destruct (booked_at s _); [discriminate|]. auto.
Qed.

(** The world after the part of [book_appointment] that follows
    identification: an appointment created after a yes of the check, or
    the same store. *)
Lemma book_tail_store (start : string) (n : Z) (details : string)
    (s : ReservationTools) (w : World) :
  (exists w1,
     check_availability start n w = (Ok true, w1) /\
     snd (snd (book_tail start n details (s, w)))
     = snd (create_appointment (str_or (_user_id s) "") start n details w1))
  \/ same_store w (snd (snd (book_tail start n details (s, w)))).
Proof.
  destruct (check_availability start n w) as [[[|]|e] w1] eqn:Ec.
  - left. exists w1. split; [reflexivity|].
    destruct (book_tail_available start n details s w w1 Ec)
      as (name & s' & E & _).
    now rewrite E.
  - right. pose proof (check_availability_same_store _ _ _ _ _ Ec) as S1.
    destruct (is_past_of start w1) as [rp w2] eqn:Ep.
    pose proof (is_past_of_same_store _ _ _ _ Ep) as S2.
    destruct (is_past_of_total start w1) as [past Hp].
    rewrite Ep in Hp. cbn [fst] in Hp. subst rp.
    destruct (get_next_available_slot start w2) as [[next|e] w3] eqn:En;
      pose proof (get_next_available_slot_same_store _ _ _ _ En) as S3.
    + destruct (book_tail_unavailable start n details s _ _ _ _ _ _
                  Ec Ep En) as (s' & E & _).
      rewrite E. cbn [snd].
      exact (same_store_trans _ _ _ (same_store_trans _ _ _ S1 S2) S3).
    + unfold book_tail.
      unfold bind at 1. rewrite db_eq. cbn [fst snd]. rewrite Ec.
      cbn [fst snd negb].
      unfold bind at 1. rewrite db_eq. cbn [fst snd]. rewrite Ep.
      cbn [fst snd].
      unfold bind at 1. rewrite db_eq. cbn [fst snd]. rewrite En.
      cbn [fst snd].
      exact (same_store_trans _ _ _ (same_store_trans _ _ _ S1 S2) S3).
  - right. destruct (check_availability_total start n w) as [b Hb].
    rewrite Ec in Hb. discriminate.
Qed.

(** The world after [book_appointment]: the guest resolved or not, then
    the part after identification. *)
Lemma book_appointment_store (start : string) (n : Z)
    (name contact : option string) (details : string)
    (s : ReservationTools) (w : World) :
  snd (snd (book_appointment start n name contact details (s, w))) = w \/
  (exists s0 w0,
     (w0 = w \/ exists c, w0 = snd (get_or_create_user c name w)) /\
     snd (snd (book_appointment start n name contact details (s, w)))
     = snd (snd (book_tail start n details (s0, w0)))).
Proof.
  destruct (truthy_str (_user_id s)) eqn:Hs.
  - right. rewrite (book_appointment_identified _ _ _ _ _ _ _ Hs).
    do 2 eexists. split; [left; reflexivity|reflexivity].
  - destruct contact as [raw|].
    + destruct (String.eqb_spec raw "") as [->|Hraw].
      * left. unfold book_appointment.
        unfold bind at 1. rewrite _publish_update_eq.
        unfold bind at 1. unfold self at 1. cbn [fst snd].
        unfold bind at 1. rewrite publish_user_id, Hs. cbn [truthy_str].
        cbn [String.eqb negb].
        unfold bind at 1. rewrite _publish_update_eq. reflexivity.
      * destruct (normalize_phone raw) as [canon|] eqn:Hn.
        -- right.
           destruct (book_appointment_implicit start n name raw canon
                       details s w Hs Hraw Hn) as (row & u & w1 & G & E).
           rewrite E. do 2 eexists. split; [|reflexivity].
           right. exists canon. now rewrite G.
        -- left.
           now rewrite (book_appointment_invalid_phone _ _ _ _ _ _ _
                          Hs Hraw Hn).
    + left. unfold book_appointment.
      unfold bind at 1. rewrite _publish_update_eq.
      unfold bind at 1. unfold self at 1. cbn [fst snd].
      unfold bind at 1. rewrite publish_user_id, Hs. cbn [truthy_str].
      unfold bind at 1. rewrite _publish_update_eq. reflexivity.
Qed.

Lemma find_in_active (x uid : string) (w : World) (original : Appt.t) :
  find (fun a => String.eqb (Appt.id a) x) (active uid w) = Some original ->
  In original (appointments w) /\ Appt.id original = x /\
  Appt.user_id original = uid /\ Appt.status original <> cancelled.
Proof.
  intros F. apply find_some in F. destruct F as [Hin E].
  apply String.eqb_eq in E. apply filter_In in Hin.
  destruct Hin as [Hin Q]. apply andb_true_iff in Q. destruct Q as [Q1 Q2].
  apply String.eqb_eq in Q1. repeat split; try assumption.
  intros C. rewrite C in Q2. discriminate.
Qed.

(** A modification that passes its checks: the old appointment is
    cancelled and a new one created with the effective values. *)
Lemma modify_appointment_success (s : ReservationTools) (w w1 : World)
    (uid x : string) (nst : option string) (nnp : option Z)
    (nd : option string) (original : Appt.t) :
  _user_id s = Some uid -> uid <> "" ->
  truthy_str nst || truthy_int nnp || truthy_str nd = true ->
  find (fun a => String.eqb (Appt.id a) x) (active uid w) = Some original ->
  (if truthy_str nst
   then check_availability (str_or nst (Appt.start_time original))
          (int_or nnp (Appt.get_num_people original 2)) w = (Ok true, w1)
   else w1 = w) ->
  let ft := str_or nst (Appt.start_time original) in
  let fp := int_or nnp (Appt.get_num_people original 2) in
  let fd := str_or nd (Appt.details original) in
  let wc := snd (cancel_appointment x w1) in
  exists name s',
    modify_appointment x nst nnp nd (s, w)
    = (Ok (Modified name ft fp (Appt.id (new_appt wc uid ft fp fd))),
       (s', snd (create_appointment uid ft fp fd wc))) /\
    same_session s s'.
Proof.
  intros Hid Huid Hsome F Hc ft fp fd wc.
  assert (Hhead : negb (truthy_str nst) && negb (truthy_int nnp)
                  && negb (truthy_str nd) = false).
  { destruct (truthy_str nst), (truthy_int nnp), (truthy_str nd);
      simpl in *; congruence. }
  unfold modify_appointment. rewrite Hhead.
  unfold bind at 1. rewrite _publish_update_eq.
  unfold bind at 1. unfold self at 1. cbn [fst snd].
  rewrite publish_user_id, Hid, (truthy_some _ Huid). cbn [negb].
  unfold bind at 1. rewrite db_eq, get_user_appointments_eq.
  cbn [fst snd]. rewrite (str_or_some _ _ Huid), F.
  fold ft fp fd.
  assert (R : exists s1,
             (if truthy_str nst
              then
                is_available <- db (check_availability ft fp) ;;
                (if negb is_available
                 then
                   is_past <- db (is_past_of ft) ;;
                   next_slot <- db (get_next_available_slot ft) ;;
                   _publish_update "modify_appointment" "failed"
                     (Some (if is_past then "past_date"
                            else "new_slot_unavailable")) ;;;
                   (if is_past
                    then ret (Some (Modify_past_date next_slot
                                      (Appt.start_time original)))
                    else ret (Some (Modify_unavailable ft
                                      (Appt.start_time original)
                                      (Appt.get_num_people original 2) next_slot)))
                 else ret None)
              else ret None)
               (publish (mkEvent "modify_appointment" "started" None) s, w)
             = (Ok None, (s1, w1)) /\ same_session s s1).
  { revert Hc. destruct (truthy_str nst); intros Hc.
    - unfold bind at 1. rewrite db_eq. cbn [fst snd]. unfold ft, fp.
      rewrite Hc.
      cbn [fst snd negb]. unfold ret. eexists. split; [reflexivity|].
      apply same_session_publish.
    - subst w1. unfold ret. eexists. split; [reflexivity|].
      apply same_session_publish. }
  destruct R as (s1 & R & S1).
  unfold bind at 1. rewrite R.
  unfold bind at 1. rewrite db_eq. cbn [fst snd].
  destruct (cancel_appointment x w1) as [rc wc'] eqn:Ecan.
  assert (Hrc : exists b, rc = Ok b).
  { rewrite cancel_appointment_eq in Ecan.
    destruct (update_first _ x (appointments w1));
      injection Ecan as <- _; eauto. }
  destruct Hrc as [b ->]. cbn [fst snd].
  subst wc. cbn [snd].
  unfold bind at 1. rewrite db_eq. cbn [fst snd].
  rewrite create_appointment_eq. cbn [fst snd].
  unfold bind at 1. rewrite _publish_update_eq. cbn [fst snd].
  unfold bind at 1.
  match goal with
  | |- context [context_name ?c] =>
      destruct (context_name_eq c) as [name En]; rewrite En
  end.
  unfold ret. exists name. eexists. split; [reflexivity|].
  eapply same_session_trans; [exact S1|apply same_session_publish].
Qed.

End ToolEffects.

Lemma truthy_str_inv (o : option string) :
  truthy_str o = true -> exists u, o = Some u /\ u <> "".
Proof.
  destruct o as [u|]; simpl; [|discriminate].
  destruct (String.eqb_spec u ""); [discriminate|]. eauto.
Qed.

(** A booked appointment left after a cancellation was booked before. *)
Lemma update_first_cancel_booked (x : string) (l l' : list Appt.t) :
  update_first (Appt.set_status cancelled) x l = Some l' ->
  forall a, In a l' -> Appt.status a = booked ->
  exists a0, In a0 l /\ Appt.start_time a0 = Appt.start_time a /\
             Appt.status a0 = booked.
Proof.
  revert l'. induction l as [|b l IH]; simpl; intros l' H; [discriminate|].
  destruct (String.eqb (Appt.id b) x).
  - injection H as <-. intros a [E|Ha] Hb.
    + subst a. discriminate.
    + exists a. auto.
  - destruct (update_first _ x l) as [r|]; [|discriminate].
    injection H as <-. intros a [E|Ha] Hb.
    + subst a. exists b. auto.
    + destruct (IH r eq_refl a Ha Hb) as (a0 & ? & ? & ?).
      exists a0. auto.
Qed.

Section ToolStore.
Context {P : Platform}.

(** The world after [modify_appointment]: the same store, or the
    appointment found among the guest's active ones cancelled and created
    again with the effective values, after a yes of the check when a new
    start time was given. *)
Lemma modify_appointment_store (x : string) (nst : option string)
    (nnp : option Z) (nd : option string) (s : ReservationTools)
    (w : World) :
  same_store w (snd (snd (modify_appointment x nst nnp nd (s, w)))) \/
  exists uid original w1,
    find (fun a => String.eqb (Appt.id a) x) (active uid w) = Some original /\
    (if truthy_str nst
     then check_availability (str_or nst (Appt.start_time original))
            (int_or nnp (Appt.get_num_people original 2)) w = (Ok true, w1)
     else w1 = w) /\
    snd (snd (modify_appointment x nst nnp nd (s, w)))
    = snd (create_appointment uid (str_or nst (Appt.start_time original))
             (int_or nnp (Appt.get_num_people original 2))
             (str_or nd (Appt.details original))
             (snd (cancel_appointment x w1))).
Proof.
  destruct (negb (truthy_str nst) && negb (truthy_int nnp)
            && negb (truthy_str nd)) eqn:Hhead.
  { left. unfold modify_appointment. rewrite Hhead.
    apply same_store_refl. }
  assert (Hsome : truthy_str nst || truthy_int nnp || truthy_str nd = true).
  { destruct (truthy_str nst), (truthy_int nnp), (truthy_str nd);
      simpl in *; congruence. }
  destruct (truthy_str (_user_id s)) eqn:Hs.
  2:{ left. unfold modify_appointment. rewrite Hhead.
      unfold bind at 1. rewrite _publish_update_eq.
      unfold bind at 1. unfold self at 1. cbn [fst snd].
      rewrite publish_user_id, Hs. apply same_store_refl. }
  destruct (truthy_str_inv _ Hs) as (uid & Hid & Huid).
  destruct (find (fun a => String.eqb (Appt.id a) x) (active uid w))
    as [original|] eqn:F.
  2:{ left. unfold modify_appointment. rewrite Hhead.
      unfold bind at 1. rewrite _publish_update_eq.
      unfold bind at 1. unfold self at 1. cbn [fst snd].
      rewrite publish_user_id, Hid, (truthy_some _ Huid). cbn [negb].
      unfold bind at 1. rewrite db_eq, get_user_appointments_eq.
      cbn [fst snd]. rewrite (str_or_some _ _ Huid), F.
      unfold bind at 1. rewrite _publish_update_eq.
      apply same_store_refl. }
  destruct (truthy_str nst) eqn:Ht.
  2:{ right. exists uid, original, w. split; [exact F|].
      split; [reflexivity|].
      destruct (modify_appointment_success s w w uid x nst nnp nd original
                  Hid Huid ltac:(rewrite Ht; exact Hsome) F) as (name & s' & E & _).
      - now rewrite Ht.
      - now rewrite E. }
  destruct (check_availability (str_or nst (Appt.start_time original))
              (int_or nnp (Appt.get_num_people original 2)) w)
    as [[[|]|e] w1] eqn:Ec.
  - right. exists uid, original, w1. split; [exact F|].
    split; [exact Ec|].
    destruct (modify_appointment_success s w w1 uid x nst nnp nd original
                Hid Huid ltac:(rewrite Ht; exact Hsome) F) as (name & s' & E & _).
    + now rewrite Ht.
    + now rewrite E.
  - left.
    pose proof (check_availability_same_store _ _ _ _ _ Ec) as S1.
    destruct (is_past_of (str_or nst (Appt.start_time original)) w1)
      as [rp w2] eqn:Ep.
    pose proof (is_past_of_same_store _ _ _ _ Ep) as S2.
    destruct (is_past_of_total (str_or nst (Appt.start_time original)) w1)
      as [past Hp].
    rewrite Ep in Hp. cbn [fst] in Hp. subst rp.
    destruct (get_next_available_slot
                (str_or nst (Appt.start_time original)) w2)
      as [rn w3] eqn:En.
    pose proof (get_next_available_slot_same_store _ _ _ _ En) as S3.
    pose proof (same_store_trans _ _ _ (same_store_trans _ _ _ S1 S2) S3)
      as S.
    unfold modify_appointment. rewrite Ht, Hhead.
    unfold bind at 1. rewrite _publish_update_eq.
    unfold bind at 1. unfold self at 1. cbn [fst snd].
    rewrite publish_user_id, Hid, (truthy_some _ Huid). cbn [negb].
    unfold bind at 1. rewrite db_eq, get_user_appointments_eq.
    cbn [fst snd]. rewrite (str_or_some _ _ Huid), F.
    unfold bind at 1. unfold bind at 1. rewrite db_eq. cbn [fst snd].
    rewrite Ec. cbn [fst snd negb].
    unfold bind at 1. rewrite db_eq. cbn [fst snd]. rewrite Ep.
    cbn [fst snd].
    unfold bind at 1. rewrite db_eq. cbn [fst snd]. rewrite En.
    cbn [fst snd].
    destruct rn as [next|e]; [|exact S].
    unfold bind at 1. rewrite _publish_update_eq. cbn [fst snd].
    destruct past; exact S.
  - left.
    destruct (check_availability_total
                (str_or nst (Appt.start_time original))
                (int_or nnp (Appt.get_num_people original 2)) w) as [b Hb].
    rewrite Ec in Hb. discriminate.
Qed.

Lemma tool_cancel_appointment_eq (x : string) (s : ReservationTools)
    (w : World) :
  tool_cancel_appointment x (s, w) =
  match update_first (Appt.set_status cancelled) x (appointments w) with
  | Some l =>
      (Ok (Cancelled x),
       (publish (mkEvent "cancel_appointment" "completed" None)
          (publish (mkEvent "cancel_appointment" "started" None) s),
        set_appointments l w))
  | None =>
      (Ok (Cancel_failed x),
       (publish (mkEvent "cancel_appointment" "failed" (Some "not_found"))
          (publish (mkEvent "cancel_appointment" "started" None) s), w))
  end.
Proof.
  unfold tool_cancel_appointment.
  unfold bind at 1. rewrite _publish_update_eq.
  unfold bind at 1. rewrite db_eq. cbn [fst snd].
  rewrite cancel_appointment_eq.
  destruct (update_first _ x (appointments w)); cbn [fst snd];
    unfold bind; rewrite _publish_update_eq; reflexivity.
Qed.

Lemma update_booking_details_eq (x d : string) (s : ReservationTools)
    (w : World) :
  update_booking_details x d (s, w) =
  match update_first (Appt.set_details d) x (appointments w) with
  | Some l =>
      (Ok (Details_updated d),
       (publish (mkEvent "update_booking_details" "completed" None)
          (publish (mkEvent "update_booking_details" "started" None) s),
        set_appointments l w))
  | None =>
      (Ok Details_not_found,
       (publish (mkEvent "update_booking_details" "failed"
                   (Some "not_found"))
          (publish (mkEvent "update_booking_details" "started" None) s), w))
  end.
Proof.
  unfold update_booking_details.
  unfold bind at 1. rewrite _publish_update_eq.
  unfold bind at 1. rewrite db_eq. cbn [fst snd].
  rewrite update_appointment_eq.
  destruct (update_first _ x (appointments w)); cbn [fst snd];
    unfold bind; rewrite _publish_update_eq; reflexivity.
Qed.

Lemma retrieve_appointments_eq (s : ReservationTools) (w : World) :
  retrieve_appointments (s, w) =
  let s1 := publish (mkEvent "retrieve_appointments" "started" None) s in
  let s2 := publish (mkEvent "retrieve_appointments" "completed" None) s1 in
  if truthy_str (_user_id s) then
    match active (str_or (_user_id s) "") w with
    | [] => (Ok Retrieve_none, (s2, w))
    | a :: l =>
        (Ok (Retrieve_found
               (map (fun a => (Appt.start_time a, Appt.status a, Appt.id a))
                    (a :: l))), (s2, w))
    end
  else (Ok Retrieve_identity_required, (s1, w)).
Proof.
  unfold retrieve_appointments.
  unfold bind at 1. rewrite _publish_update_eq.
  unfold bind at 1. unfold self at 1. cbn [fst snd].
  rewrite publish_user_id.
  destruct (truthy_str (_user_id s)); [|reflexivity].
  cbn [negb]. unfold bind at 1. rewrite db_eq, get_user_appointments_eq.
  cbn [fst snd].
  destruct (active _ w); unfold bind; rewrite _publish_update_eq;
    reflexivity.
Qed.

Lemma fetch_slots_eq (s : ReservationTools) (w : World) :
  fetch_slots (s, w) =
  let s1 := publish (mkEvent "fetch_slots" "started" None) s in
  match all_slots (localtime (clock (ticks w))) [0; 1] with
  | Ok slots =>
      (Ok (firstn 8 slots),
       (publish (mkEvent "fetch_slots" "completed" None) s1, tick w))
  | Raise e => (Raise e, (s1, tick w))
  end.
Proof.
  unfold fetch_slots.
  unfold bind at 1. rewrite _publish_update_eq.
  unfold bind at 1. rewrite db_eq. cbn [fst snd].
  unfold now, read_clock, bind, ret. cbn [fst snd].
  destruct (all_slots _ _); [|reflexivity].
  rewrite _publish_update_eq. reflexivity.
Qed.

(** Every tool call changes the store by one of the steps of
    [store_step]. *)
Lemma exec_store_step (t : Tool) (s : ReservationTools) (w : World) :
  store_step w (snd (exec t (s, w))).
Proof.
  destruct t as [raw name| |start n name contact details| |x
                |x nst nnp nd|x d]; cbn [exec].
  - destruct (normalize_phone raw) as [canon|] eqn:Hn.
    + destruct (identify_user_ok raw canon name s w Hn)
        as (row & u & s' & w' & E & G & _).
      rewrite E. cbn [snd].
      replace w' with (snd (get_or_create_user canon name w))
        by now rewrite G.
      apply ss_user.
    + unfold identify_user. rewrite Hn.
      apply ss_same, same_store_refl.
  - rewrite fetch_slots_eq. cbv zeta.
    destruct (all_slots _ _); apply ss_same, same_store_tick.
  - destruct (book_appointment_store start n name contact details s w)
      as [E|(s0 & w0 & Hw0 & E)]; rewrite E.
    + apply ss_same, same_store_refl.
    + assert (S0 : store_step w w0).
      { destruct Hw0 as [->|[c ->]];
          [apply ss_same, same_store_refl|apply ss_user]. }
      eapply ss_trans; [exact S0|].
      destruct (book_tail_store start n details s0 w0)
        as [(w1 & Ec & E1)|S1].
      * rewrite E1. now apply ss_create.
      * now apply ss_same.
  - rewrite retrieve_appointments_eq. cbv zeta.
    destruct (truthy_str (_user_id s)); [destruct (active _ w)|];
      apply ss_same, same_store_refl.
  - replace (snd (snd (tool_cancel_appointment x (s, w))))
      with (snd (cancel_appointment x w)); [apply ss_cancel|].
    rewrite tool_cancel_appointment_eq, cancel_appointment_eq.
    destruct (update_first _ x (appointments w)); reflexivity.
  - destruct (modify_appointment_store x nst nnp nd s w)
      as [S|(uid & original & w1 & F & Hc & E)].
    + now apply ss_same.
    + rewrite E. destruct (find_in_active _ _ _ _ F) as (Hin & Hx & _ & Hst).
      destruct (truthy_str nst) eqn:Ht.
      * destruct (check_availability_true _ _ _ _ Hc)
          as (dt & Hp & Hold & Hopen & Hfree & ->).
        rewrite cancel_appointment_tick.
        eapply ss_trans; [apply (ss_cancel w x)|].
        apply ss_create with (n := int_or nnp (Appt.get_num_people original 2)).
        rewrite check_availability_eq, Hp.
        rewrite cancel_appointment_eq.
        destruct (update_first _ x (appointments w)) as [l|] eqn:U;
          cbn [snd ticks appointments set_appointments].
        -- rewrite Hold, Hopen. cbn [negb].
           replace (booked_at _ l) with false; [reflexivity|].
           symmetry. apply booked_at_false_iff. intros a Ha Hsa Hb.
           destruct (update_first_cancel_booked _ _ _ U a Ha Hb)
             as (a0 & Ha0 & Hs0 & Hb0).
           apply (proj1 (booked_at_false_iff _ _) Hfree a0 Ha0);
             congruence.
        -- now rewrite Hold, Hopen, Hfree.
      * subst w1. rewrite <- Hx, (str_or_falsy _ _ Ht).
        now apply ss_recreate.
  - replace (snd (snd (update_booking_details x d (s, w))))
      with (snd (update_appointment x d w)); [apply ss_update|].
    rewrite update_booking_details_eq, update_appointment_eq.
    destruct (update_first _ x (appointments w)); reflexivity.
Qed.

End ToolStore.

(** ** One booked appointment per slot, inside opening hours *)

Lemma count_booked_app (s : string) (l1 l2 : list Appt.t) :
  count_booked s (l1 ++ l2) = (count_booked s l1 + count_booked s l2)%nat.
Proof. unfold count_booked. now rewrite filter_app, length_app. Qed.

Lemma count_booked_cons (s : string) (a : Appt.t) (l : list Appt.t) :
  count_booked s (a :: l) =
  ((if String.eqb (Appt.start_time a) s && Status_eqb (Appt.status a) booked
    then 1 else 0) + count_booked s l)%nat.
Proof.
  unfold count_booked. simpl.
  now destruct (String.eqb (Appt.start_time a) s
                && Status_eqb (Appt.status a) booked).
Qed.

Lemma booked_at_count (s : string) (l : list Appt.t) :
  booked_at s l = false <-> count_booked s l = 0%nat.
Proof.
  induction l as [|a l IH]; [now split|].
  rewrite count_booked_cons. unfold booked_at in *. simpl.
  destruct (String.eqb (Appt.start_time a) s
            && Status_eqb (Appt.status a) booked); simpl.
  - split; [discriminate|lia].
  - exact IH.
Qed.

Lemma count_booked_cancel_le (s x : string) (l : list Appt.t) :
  (count_booked s (map (rewrite_id (Appt.set_status cancelled) x) l)
   <= count_booked s l)%nat.
Proof.
  induction l as [|a l IH]; [apply Nat.le_refl|].
  cbn [map]. rewrite !count_booked_cons.
  destruct (String.eqb (Appt.id a) x) eqn:E.
  - replace (rewrite_id (Appt.set_status cancelled) x a)
      with (Appt.set_status cancelled a)
      by (unfold rewrite_id; now rewrite E).
    cbn [Appt.set_status Appt.status Appt.start_time Status_eqb].
    rewrite andb_false_r. lia.
  - replace (rewrite_id (Appt.set_status cancelled) x a) with a
      by (unfold rewrite_id; now rewrite E).
    lia.
Qed.

Lemma update_first_cancel_count (s x : string) (l l' : list Appt.t) :
  update_first (Appt.set_status cancelled) x l = Some l' ->
  (count_booked s l' <= count_booked s l)%nat.
Proof.
  revert l'. induction l as [|a l IH]; simpl; intros l' H; [discriminate|].
  destruct (String.eqb (Appt.id a) x).
  - injection H as <-. rewrite !count_booked_cons.
    cbn [Appt.set_status Appt.status Appt.start_time Status_eqb].
    rewrite andb_false_r. lia.
  - destruct (update_first _ x l) as [r|]; [|discriminate].
    injection H as <-. rewrite !count_booked_cons.
    specialize (IH r eq_refl). lia.
Qed.

Lemma update_first_details_count (s x d : string) (l l' : list Appt.t) :
  update_first (Appt.set_details d) x l = Some l' ->
  count_booked s l' = count_booked s l.
Proof.
  revert l'. induction l as [|a l IH]; simpl; intros l' H; [discriminate|].
  destruct (String.eqb (Appt.id a) x).
  - injection H as <-. now rewrite !count_booked_cons.
  - destruct (update_first _ x l) as [r|]; [|discriminate].
    injection H as <-. rewrite !count_booked_cons.
    now rewrite (IH r eq_refl).
Qed.

(** Cancelling the one appointment booked at its start time leaves that
    time without a booked appointment. *)
Lemma cancel_frees_slot (l : list Appt.t) (a : Appt.t) :
  exclusive l -> In a l -> Appt.status a = booked ->
  count_booked (Appt.start_time a)
    (map (rewrite_id (Appt.set_status cancelled) (Appt.id a)) l) = 0%nat.
Proof.
  intros Hex Hin Hb. apply in_split in Hin. destruct Hin as (l1 & l2 & ->).
  specialize (Hex (Appt.start_time a)).
  rewrite count_booked_app, count_booked_cons in Hex.
  rewrite String.eqb_refl, Hb in Hex. cbn [Status_eqb andb] in Hex.
  rewrite map_app. cbn [map].
  rewrite count_booked_app, count_booked_cons.
  replace (rewrite_id (Appt.set_status cancelled) (Appt.id a) a)
    with (Appt.set_status cancelled a)
    by (unfold rewrite_id; now rewrite String.eqb_refl).
  cbn [Appt.set_status Appt.status Appt.start_time Status_eqb].
  rewrite andb_false_r.
  pose proof (count_booked_cancel_le (Appt.start_time a) (Appt.id a) l1).
  pose proof (count_booked_cancel_le (Appt.start_time a) (Appt.id a) l2).
  lia.
Qed.

(** With at most one booked appointment per text, two booked appointments
    at one text are in the same row. *)
Lemma count_two_rows {A : Type} (p : A -> bool) (l : list A) (i j : nat)
    (a b : A) :
  (i < j)%nat -> nth_error l i = Some a -> nth_error l j = Some b ->
  p a = true -> p b = true -> (2 <= List.length (filter p l))%nat.
Proof.
  revert i j. induction l as [|x l IH]; intros i j Hij Hi Hj Ha Hb.
  - destruct i; discriminate.
  - destruct j as [|j]; [lia|]. destruct i as [|i]; simpl in Hi, Hj.
    + injection Hi as ->. simpl. rewrite Ha. simpl.
      assert (In b (filter p l))
        by (apply filter_In; split; [eapply nth_error_In; eauto|assumption]).
      destruct (filter p l); [contradiction|simpl; lia].
    + assert (2 <= List.length (filter p l))%nat
        by (apply (IH i j); auto; lia).
      simpl. destruct (p x); simpl; lia.
Qed.

Lemma exclusive_rows (l : list Appt.t) (i j : nat) (a b : Appt.t) :
  exclusive l ->
  nth_error l i = Some a -> nth_error l j = Some b ->
  Appt.status a = booked -> Appt.status b = booked ->
  Appt.start_time a = Appt.start_time b -> i = j.
Proof.
  intros Hex Hi Hj Ha Hb E.
  specialize (Hex (Appt.start_time a)). unfold count_booked in Hex.
  set (p := fun c => String.eqb (Appt.start_time c) (Appt.start_time a)
                     && Status_eqb (Appt.status c) booked) in Hex.
  assert (Pa : p a = true) by (unfold p; now rewrite String.eqb_refl, Ha).
  assert (Pb : p b = true)
    by (unfold p; now rewrite <- E, String.eqb_refl, Hb).
  destruct (Nat.lt_trichotomy i j) as [L|[L|L]]; [|assumption|].
  - pose proof (count_two_rows p l i j a b L Hi Hj Pa Pb). lia.
  - pose proof (count_two_rows p l j i b a L Hj Hi Pb Pa). lia.
Qed.

Lemma update_first_start_times (f : Appt.t -> Appt.t) (x : string)
    (l l' : list Appt.t) :
  (forall a, Appt.start_time (f a) = Appt.start_time a) ->
  update_first f x l = Some l' ->
  map Appt.start_time l' = map Appt.start_time l.
Proof.
  intros Hf. revert l'.
  induction l as [|a l IH]; simpl; intros l' H; [discriminate|].
  destruct (String.eqb (Appt.id a) x).
  - injection H as <-. simpl. now rewrite Hf.
  - destruct (update_first f x l) as [r|]; [|discriminate].
    injection H as <-. simpl. f_equal. now apply IH.
Qed.

Section Invariants.
Context {P : Platform}.

Lemma valid_start_map (l l' : list Appt.t) :
  map Appt.start_time l' = map Appt.start_time l ->
  (forall a, In a l -> valid_start a) ->
  forall a, In a l' -> valid_start a.
Proof.
  intros E H a Ha.
  assert (Hs : In (Appt.start_time a) (map Appt.start_time l))
    by (rewrite <- E; now apply in_map).
  apply in_map_iff in Hs. destruct Hs as (b & Eb & Hb).
  destruct (H b Hb) as (dt & Hp & Hh). exists dt. now rewrite <- Eb.
Qed.

(** The steps tool calls make keep the ids in their rows, at most one
    booked appointment per start-time text, and every start time inside
    opening hours. *)
Lemma store_step_invariant (w w' : World) :
  store_step w w' ->
  ids_by_row (appointments w) /\ exclusive (appointments w) /\
  (forall a, In a (appointments w) -> valid_start a) ->
  ids_by_row (appointments w') /\ exclusive (appointments w') /\
  (forall a, In a (appointments w') -> valid_start a).
Proof.
  induction 1 as [w w' [_ E]|w c n|w w1 u s n d Hc|w x|w x d
                 |w a u n d Hin Hst|w1 w2 w3 _ IH1 _ IH2];
    intros (Hids & Hex & Hval).
  - now rewrite E.
  - now rewrite get_or_create_user_appointments.
  - destruct (check_availability_true _ _ _ _ Hc)
      as (dt & Hp & Hold & Hopen & Hfree & ->).
    rewrite create_appointment_eq.
    cbn [snd appointments set_appointments tick].
    split; [|split].
    + now apply ids_by_row_snoc.
    + intros s'. rewrite count_booked_app, count_booked_cons.
      cbn [new_appt Appt.start_time Appt.status Status_eqb].
      unfold count_booked at 2. cbn [filter List.length].
      destruct (String.eqb_spec s s') as [<-|NE]; cbn [andb].
      * apply booked_at_count in Hfree. lia.
      * specialize (Hex s'). lia.
    + intros a Ha. apply in_app_or in Ha. destruct Ha as [Ha|[<-|[]]].
      * now apply Hval.
      * exists dt. split; [exact Hp|]. now apply open_at_hours.
  - rewrite cancel_appointment_eq.
    destruct (update_first _ x (appointments w)) as [l|] eqn:U;
      cbn [snd appointments set_appointments]; [|auto].
    split; [|split].
    + eapply ids_by_row_map; [|exact Hids].
      eapply update_first_ids; [|exact U]. reflexivity.
    + intros s. pose proof (update_first_cancel_count s _ _ _ U).
      specialize (Hex s). lia.
    + eapply valid_start_map; [|exact Hval].
      eapply update_first_start_times; [|exact U]. reflexivity.
  - rewrite update_appointment_eq.
    destruct (update_first _ x (appointments w)) as [l|] eqn:U;
      cbn [snd appointments set_appointments]; [|auto].
    split; [|split].
    + eapply ids_by_row_map; [|exact Hids].
      eapply update_first_ids; [|exact U]. reflexivity.
    + intros s. rewrite (update_first_details_count s _ _ _ _ U).
      apply Hex.
    + eapply valid_start_map; [|exact Hval].
      eapply update_first_start_times; [|exact U]. reflexivity.
  - rewrite cancel_appointment_eq, update_first_map
      by now apply ids_by_row_NoDup.
    replace (existsb _ (appointments w)) with true.
    2:{ symmetry. apply existsb_exists. exists a.
        split; [assumption|apply String.eqb_refl]. }
    cbn [snd]. rewrite create_appointment_eq.
    cbn [snd appointments set_appointments tick].
    set (l := map _ (appointments w)).
    assert (Hl : map Appt.id l = map Appt.id (appointments w)).
    { unfold l. rewrite map_map. apply map_ext. intros b.
      unfold rewrite_id. now destruct (String.eqb (Appt.id b) (Appt.id a)). }
    assert (Hs : map Appt.start_time l
                 = map Appt.start_time (appointments w)).
    { unfold l. rewrite map_map. apply map_ext. intros b.
      unfold rewrite_id. now destruct (String.eqb (Appt.id b) (Appt.id a)). }
    split; [|split].
    + apply ids_by_row_snoc.
      * now apply (ids_by_row_map (appointments w)).
      * cbn [new_appt Appt.id appointments set_appointments].
        reflexivity.
    + intros s'. rewrite count_booked_app, count_booked_cons.
      cbn [new_appt Appt.start_time Appt.status Status_eqb].
      unfold count_booked at 2. cbn [filter List.length].
      destruct (String.eqb_spec (Appt.start_time a) s') as [<-|NE];
        cbn [andb].
      * unfold l. rewrite cancel_frees_slot; [lia|assumption..|].
        now apply active_booked.
      * pose proof (count_booked_cancel_le s' (Appt.id a) (appointments w)).
        fold l in H. specialize (Hex s'). lia.
    + intros b Hb. apply in_app_or in Hb. destruct Hb as [Hb|[<-|[]]].
      * now apply (valid_start_map (appointments w) l).
      * destruct (Hval a Hin) as (dt & Hp & Hh). now exists dt.
  - auto.
Qed.

(** X7.  In every state of the store that tool calls lead to, taken one
    call at a time, there is at most one booked appointment for each
    start-time text: two booked appointments with the same text are the
    same row. *)
Theorem X7_one_booked_appointment_per_slot (w : World) :
  served w ->
  (forall s, (count_booked s (appointments w) <= 1)%nat) /\
  (forall i j a b,
     nth_error (appointments w) i = Some a ->
     nth_error (appointments w) j = Some b ->
     Appt.status a = booked -> Appt.status b = booked ->
     Appt.start_time a = Appt.start_time b -> i = j).
Proof.
  intros S.
  assert (I : ids_by_row (appointments w) /\ exclusive (appointments w) /\
              (forall a, In a (appointments w) -> valid_start a)).
  { induction S as [|w s t _ IH].
    - split; [apply ids_by_row_nil|]. split; [intros s; apply Nat.le_0_l|].
      intros a [].
    - exact (store_step_invariant _ _ (exec_store_step t s w) IH). }
  destruct I as (_ & Hex & _). split; [exact Hex|].
  intros i j a b. now apply exclusive_rows.
Qed.

(** X8.  In every state of the store that tool calls lead to, the start
    time of every stored appointment, cancelled ones included, parses and
    has its hour of day in opening hours, from 10 to 21. *)
Theorem X8_stored_appointments_in_opening_hours (w : World) :
  served w ->
  forall a, In a (appointments w) ->
  exists dt, fromisoformat (replace_Z (Appt.start_time a)) = Some dt /\
             10 <= hour dt < 22.
Proof.
  intros S.
  assert (I : ids_by_row (appointments w) /\ exclusive (appointments w) /\
              (forall a, In a (appointments w) -> valid_start a)).
  { induction S as [|w s t _ IH].
    - split; [apply ids_by_row_nil|]. split; [intros s; apply Nat.le_0_l|].
      intros a [].
    - exact (store_step_invariant _ _ (exec_store_step t s w) IH). }
  destruct I as (_ & _ & Hval). exact Hval.
Qed.

End Invariants.

(** ** What a booking request does *)

Section BookingContract.
Context {P : Platform}.

(** The part of [book_appointment] after identification, with what it
    leaves in the instance: either the check answers yes and the new
    appointment is created and recorded in the session, or nothing is
    created and recorded. *)
Lemma book_tail_cases (start : string) (n : Z) (details : string)
    (s : ReservationTools) (w : World) :
  (exists w1 name s',
     check_availability start n w = (Ok true, w1) /\
     book_tail start n details (s, w)
     = (Ok (Booked name start n
              (Appt.id (new_appt w1 (str_or (_user_id s) "") start n
                          details))),
        (s', snd (create_appointment (str_or (_user_id s) "") start n
                    details w1))) /\
     _user_id s' = _user_id s /\ _user_context s' = _user_context s /\
     _session_bookings s'
     = (_session_bookings s ++ [List.length (appointments w1)])%list) \/
  (exists r s' w',
     book_tail start n details (s, w) = (r, (s', w')) /\
     same_store w w' /\ same_session s s' /\
     fst (check_availability start n w) = Ok false /\
     forall name i, r <> Ok (Booked name start n i)).
Proof.
  destruct (check_availability start n w) as [[[|]|e] w1] eqn:Ec.
  - left. unfold book_tail.
    unfold bind at 1. rewrite db_eq. cbn [fst snd]. rewrite Ec.
    cbn [fst snd negb].
    unfold bind at 1. unfold self at 1.
    unfold bind at 1. rewrite db_eq. cbn [fst snd].
    rewrite create_appointment_eq. cbn [fst snd].
    unfold bind at 1. unfold self at 1.
    unfold bind at 1. unfold set_self at 1.
    unfold bind at 1. rewrite _publish_update_eq. cbn [fst snd].
    unfold bind at 1.
    match goal with
    | |- context [context_name ?c] =>
        destruct (context_name_eq c) as [name En]; rewrite En
    end.
    unfold ret. exists w1, name. eexists. split; [reflexivity|].
    split; [reflexivity|].
    rewrite publish_user_id, publish_user_context.
    destruct (same_session_publish
                (mkEvent "book_appointment" "completed" None)
                (mkTools (_user_id s) (_user_context s) (_room s)
                   (_session_bookings s ++ [List.length (appointments w1)])))
      as (_ & _ & B).
    rewrite B. auto.
  - right. pose proof (check_availability_same_store _ _ _ _ _ Ec) as S1.
    destruct (is_past_of start w1) as [rp w2] eqn:Ep.
    pose proof (is_past_of_same_store _ _ _ _ Ep) as S2.
    destruct (is_past_of_total start w1) as [past Hp].
    rewrite Ep in Hp. cbn [fst] in Hp. subst rp.
    destruct (get_next_available_slot start w2) as [rn w3] eqn:En.
    pose proof (get_next_available_slot_same_store _ _ _ _ En) as S3.
    pose proof (same_store_trans _ _ _ (same_store_trans _ _ _ S1 S2) S3)
      as S.
    unfold book_tail.
    unfold bind at 1. rewrite db_eq. cbn [fst snd]. rewrite Ec.
    cbn [fst snd negb].
    unfold bind at 1. rewrite db_eq. cbn [fst snd]. rewrite Ep.
    cbn [fst snd].
    unfold bind at 1. rewrite db_eq. cbn [fst snd]. rewrite En.
    cbn [fst snd].
    destruct rn as [next|e].
    + unfold bind at 1. rewrite _publish_update_eq. cbn [fst snd].
      exists (Ok (if past then Book_past_date next
                  else Book_unavailable next)),
        (publish (mkEvent "book_appointment" "failed"
                    (Some (if past then "past_date" else "unavailable"))) s),
        w3.
      split; [destruct past; reflexivity|].
      split; [exact S|]. split; [apply same_session_publish|].
      split; [reflexivity|]. intros name i. destruct past; discriminate.
    + exists (Raise e), s, w3. split; [reflexivity|].
      split; [exact S|]. split; [repeat split|].
      split; [reflexivity|]. discriminate.
  - destruct (check_availability_total start n w) as [b Hb].
    rewrite Ec in Hb. discriminate.
Qed.

(** The outcomes of [book_appointment]: the confirmation, with one
    appointment created after a yes of the check and recorded in the
    session, or any other answer, with the appointments and the session's
    bookings as before. *)
Lemma book_appointment_outcome (start : string) (n : Z)
    (name contact : option string) (details : string)
    (s : ReservationTools) (w : World) :
  exists r s' w',
    book_appointment start n name contact details (s, w) = (r, (s', w')) /\
    ((exists uname a w0,
        r = Ok (Booked uname start n (Appt.id a)) /\
        appointments w' = (appointments w ++ [a])%list /\
        Appt.start_time a = start /\ Appt.num_people a = Some n /\
        Appt.status a = booked /\
        Appt.details a = "Guests: " ++ str_of_Z n ++ ". " ++ details /\
        _user_id s' = Some (Appt.user_id a) /\
        _session_bookings s'
        = (_session_bookings s ++ [List.length (appointments w)])%list /\
        appointments w0 = appointments w /\
        fst (check_availability start n w0) = Ok true) \/
     ((forall uname i, r <> Ok (Booked uname start n i)) /\
      appointments w' = appointments w /\
      _session_bookings s' = _session_bookings s)).
Proof.
  assert (T : forall s0 w0 uid,
            appointments w0 = appointments w ->
            _session_bookings s0 = _session_bookings s ->
            _user_id s0 = Some uid ->
            exists r s' w',
              book_tail start n details (s0, w0) = (r, (s', w')) /\
              ((exists uname a w0,
                  r = Ok (Booked uname start n (Appt.id a)) /\
                  appointments w' = (appointments w ++ [a])%list /\
                  Appt.start_time a = start /\ Appt.num_people a = Some n /\
                  Appt.status a = booked /\
                  Appt.details a
                  = "Guests: " ++ str_of_Z n ++ ". " ++ details /\
                  _user_id s' = Some (Appt.user_id a) /\
                  _session_bookings s'
                  = (_session_bookings s
                     ++ [List.length (appointments w)])%list /\
                  appointments w0 = appointments w /\
                  fst (check_availability start n w0) = Ok true) \/
               ((forall uname i, r <> Ok (Booked uname start n i)) /\
                appointments w' = appointments w /\
                _session_bookings s' = _session_bookings s))).
  { intros s0 w0 uid Ea Eb Eu.
    destruct (book_tail_cases start n details s0 w0)
      as [(w1 & uname & s' & Ec & E & I1 & I2 & I3)
         |(r & s' & w' & E & [_ Sa] & (_ & _ & Sb) & _ & Hr)].
    - pose proof (check_availability_same_store _ _ _ _ _ Ec) as [_ S1].
      rewrite E. do 3 eexists. split; [reflexivity|]. left.
      exists uname,
        (new_appt w1 (str_or (_user_id s0) "") start n details), w0.
      rewrite create_appointment_eq.
      cbn [snd appointments set_appointments tick new_appt Appt.start_time
           Appt.num_people Appt.status Appt.details Appt.user_id].
      rewrite I1, I3, S1, Ea, Eb, Eu, Ec.
      repeat split; try reflexivity.
      f_equal. simpl. now destruct (String.eqb_spec uid "").
    - rewrite E. do 3 eexists. split; [reflexivity|]. right.
      repeat split; [exact Hr|congruence|congruence]. }
  destruct (truthy_str (_user_id s)) eqn:Hs.
  - destruct (truthy_str_inv _ Hs) as (uid & Hid & _).
    rewrite (book_appointment_identified _ _ _ _ _ _ _ Hs).
    apply (T _ _ uid); [reflexivity| |].
    + apply same_session_publish.
    + now rewrite publish_user_id.
  - assert (Early : forall r0 e1 e2,
              (forall uname i, r0 <> Booked uname start n i) ->
              exists r s' w',
                (Ok r0, (publish e1 (publish e2 s), w)) = (r, (s', w')) /\
                ((exists uname a w0,
                    r = Ok (Booked uname start n (Appt.id a)) /\
                    appointments w' = (appointments w ++ [a])%list /\
                    Appt.start_time a = start /\ Appt.num_people a = Some n /\
                    Appt.status a = booked /\
                    Appt.details a
                    = "Guests: " ++ str_of_Z n ++ ". " ++ details /\
                    _user_id s' = Some (Appt.user_id a) /\
                    _session_bookings s'
                    = (_session_bookings s
                       ++ [List.length (appointments w)])%list /\
                    appointments w0 = appointments w /\
                    fst (check_availability start n w0) = Ok true) \/
                 ((forall uname i, r <> Ok (Booked uname start n i)) /\
                  appointments w' = appointments w /\
                  _session_bookings s' = _session_bookings s))).
    { intros r0 e1 e2 Hr0. do 3 eexists. split; [reflexivity|]. right.
      repeat split.
      - intros uname i H. injection H as H. now apply (Hr0 uname i).
      - destruct (same_session_publish e1 (publish e2 s)) as (_ & _ & B1).
        destruct (same_session_publish e2 s) as (_ & _ & B2).
        congruence. }
    destruct contact as [raw|].
    + destruct (String.eqb_spec raw "") as [->|Hraw].
      * unfold book_appointment.
        unfold bind at 1. rewrite _publish_update_eq.
        unfold bind at 1. unfold self at 1. cbn [fst snd].
        unfold bind at 1. rewrite publish_user_id, Hs.
        cbn [truthy_str String.eqb negb].
        unfold bind at 1. rewrite _publish_update_eq. cbn [fst snd].
        unfold ret. apply Early. discriminate.
      * destruct (normalize_phone raw) as [canon|] eqn:Hn.
        -- destruct (book_appointment_implicit start n name raw canon
                       details s w Hs Hraw Hn) as (row & u & w1 & G & E).
           rewrite E. apply (T _ _ (User.id u)).
           ++ rewrite <- (get_or_create_user_appointments canon name w).
              now rewrite G.
           ++ destruct (same_session_publish
                          (mkEvent "identify_user" "completed" None)
                          (identified_as row u (publish started s)))
                as (_ & _ & B1).
              rewrite B1. cbn [identified_as _session_bookings].
              apply same_session_publish.
           ++ now rewrite publish_user_id.
        -- rewrite (book_appointment_invalid_phone _ _ _ _ _ _ _
                      Hs Hraw Hn).
           apply Early. discriminate.
    + unfold book_appointment.
      unfold bind at 1. rewrite _publish_update_eq.
      unfold bind at 1. unfold self at 1. cbn [fst snd].
      unfold bind at 1. rewrite publish_user_id, Hs. cbn [truthy_str].
      unfold bind at 1. rewrite _publish_update_eq. cbn [fst snd].
      unfold ret. apply Early. discriminate.
Qed.


End BookingContract.

(** ** The tools on the store of a running server *)

Section ServedStore.
Context {P : Platform}.

Lemma served_invariant (w : World) :
  served w ->
  ids_by_row (appointments w) /\ exclusive (appointments w) /\
  (forall a, In a (appointments w) -> valid_start a).
Proof.
  intros S. induction S as [|w s t _ IH].
  - split; [apply ids_by_row_nil|]. split; [intros s; apply Nat.le_0_l|].
    intros a [].
  - exact (store_step_invariant _ _ (exec_store_step t s w) IH).
Qed.

Lemma served_update_first (f : Appt.t -> Appt.t) (x : string) (w : World) :
  served w ->
  update_first f x (appointments w) =
  if existsb (fun a => String.eqb (Appt.id a) x) (appointments w)
  then Some (map (rewrite_id f x) (appointments w)) else None.
Proof.
  intros S. apply served_invariant in S. destruct S as [Hids _].
  apply update_first_map. now apply ids_by_row_NoDup.
Qed.

Lemma existsb_id_true (x : string) (l : list Appt.t) (a : Appt.t) :
  In a l -> Appt.id a = x ->
  existsb (fun a => String.eqb (Appt.id a) x) l = true.
Proof.
  intros Ha E. apply existsb_exists. exists a. split; [assumption|].
  now apply String.eqb_eq.
Qed.

(** X10.  The tools [cancel_appointment] and [update_booking_details]
    look at the id alone: whoever calls, identified or not, and whatever
    the owner and the status of the appointment, a stored id gets the
    confirmation and that one appointment is set to cancelled, or has its
    details replaced by the given text; an id that is not stored gets the
    failure and the store stays as it was.  Guests are never touched. *)
Theorem X10_cancel_and_update_by_id_alone (x d : string)
    (s : ReservationTools) (w : World) :
  served w ->
  exists r1 s1 w1 r2 s2 w2,
    tool_cancel_appointment x (s, w) = (Ok r1, (s1, w1)) /\
    update_booking_details x d (s, w) = (Ok r2, (s2, w2)) /\
    same_session s s1 /\ same_session s s2 /\
    users w1 = users w /\ users w2 = users w /\
    appointments w1
    = map (rewrite_id (Appt.set_status cancelled) x) (appointments w) /\
    appointments w2
    = map (rewrite_id (Appt.set_details d) x) (appointments w) /\
    ((exists a, In a (appointments w) /\ Appt.id a = x) ->
     r1 = Cancelled x /\ r2 = Details_updated d) /\
    ((forall a, In a (appointments w) -> Appt.id a <> x) ->
     r1 = Cancel_failed x /\ r2 = Details_not_found /\
     w1 = w /\ w2 = w).
Proof.
  intros S.
  rewrite tool_cancel_appointment_eq, update_booking_details_eq.
  rewrite !(served_update_first _ x w S).
  destruct (existsb (fun a => String.eqb (Appt.id a) x) (appointments w))
    eqn:E.
  - do 6 eexists. split; [reflexivity|]. split; [reflexivity|].
    split; [eapply same_session_trans; apply same_session_publish|].
    split; [eapply same_session_trans; apply same_session_publish|].
    do 4 (split; [reflexivity|]). split; [auto|].
    intros H. apply existsb_exists in E. destruct E as (a & Ha & Ea).
    apply String.eqb_eq in Ea. now destruct (H a Ha).
  - pose proof (existsb_id_false _ _ E) as H.
    do 6 eexists. split; [reflexivity|]. split; [reflexivity|].
    split; [eapply same_session_trans; apply same_session_publish|].
    split; [eapply same_session_trans; apply same_session_publish|].
    do 2 (split; [reflexivity|]).
    rewrite !map_rewrite_id_absent by assumption.
    do 2 (split; [reflexivity|]). split; [|auto].
    intros (a & Ha & Ea). now destruct (H a Ha).
Qed.

(** The ways [modify_appointment] ends: without touching the store or the
    session and with an answer other than the confirmation, or at an
    active appointment of the identified guest, after a yes of the check
    when a new start time was given. *)
Lemma modify_appointment_cases (x : string) (nst : option string)
    (nnp : option Z) (nd : option string) (s : ReservationTools)
    (w : World) :
  (exists r s' w',
     modify_appointment x nst nnp nd (s, w) = (r, (s', w')) /\
     same_store w w' /\ same_session s s' /\
     forall name t p i, r <> Ok (Modified name t p i)) \/
  (exists uid original w1,
     _user_id s = Some uid /\ uid <> "" /\
     truthy_str nst || truthy_int nnp || truthy_str nd = true /\
     find (fun a => String.eqb (Appt.id a) x) (active uid w)
     = Some original /\
     (if truthy_str nst
      then check_availability (str_or nst (Appt.start_time original))
             (int_or nnp (Appt.get_num_people original 2)) w = (Ok true, w1)
      else w1 = w)).
Proof.
  destruct (negb (truthy_str nst) && negb (truthy_int nnp)
            && negb (truthy_str nd)) eqn:Hhead.
  { left. unfold modify_appointment. rewrite Hhead. unfold ret.
    do 3 eexists. split; [reflexivity|]. split; [apply same_store_refl|].
    split; [repeat split|discriminate]. }
  assert (Hsome : truthy_str nst || truthy_int nnp || truthy_str nd = true).
  { destruct (truthy_str nst), (truthy_int nnp), (truthy_str nd);
      simpl in *; congruence. }
  destruct (truthy_str (_user_id s)) eqn:Hs.
  2:{ left. unfold modify_appointment. rewrite Hhead.
      unfold bind at 1. rewrite _publish_update_eq.
      unfold bind at 1. unfold self at 1. cbn [fst snd].
      rewrite publish_user_id, Hs. cbn [negb]. unfold ret.
      do 3 eexists. split; [reflexivity|]. split; [apply same_store_refl|].
      split; [apply same_session_publish|discriminate]. }
  destruct (truthy_str_inv _ Hs) as (uid & Hid & Huid).
  destruct (find (fun a => String.eqb (Appt.id a) x) (active uid w))
    as [original|] eqn:F.
  2:{ left. unfold modify_appointment. rewrite Hhead.
      unfold bind at 1. rewrite _publish_update_eq.
      unfold bind at 1. unfold self at 1. cbn [fst snd].
      rewrite publish_user_id, Hid, (truthy_some _ Huid). cbn [negb].
      unfold bind at 1. rewrite db_eq, get_user_appointments_eq.
      cbn [fst snd]. rewrite (str_or_some _ _ Huid), F.
      unfold bind at 1. rewrite _publish_update_eq. unfold ret.
      do 3 eexists. split; [reflexivity|]. split; [apply same_store_refl|].
      split; [|discriminate].
      eapply same_session_trans; apply same_session_publish. }
  destruct (truthy_str nst) eqn:Ht.
  2:{ right. exists uid, original, w. split; [exact Hid|].
      split; [exact Huid|]. split; [exact Hsome|].
      split; [exact F|reflexivity]. }
  destruct (check_availability (str_or nst (Appt.start_time original))
              (int_or nnp (Appt.get_num_people original 2)) w)
    as [[[|]|e] w1] eqn:Ec.
  - right. exists uid, original, w1. split; [exact Hid|].
    split; [exact Huid|]. split; [exact Hsome|].
    split; [exact F|exact Ec].
  - left.
    pose proof (check_availability_same_store _ _ _ _ _ Ec) as S1.
    destruct (is_past_of (str_or nst (Appt.start_time original)) w1)
      as [rp w2] eqn:Ep.
    pose proof (is_past_of_same_store _ _ _ _ Ep) as S2.
    destruct (is_past_of_total (str_or nst (Appt.start_time original)) w1)
      as [past Hp].
    rewrite Ep in Hp. cbn [fst] in Hp. subst rp.
    destruct (get_next_available_slot
                (str_or nst (Appt.start_time original)) w2)
      as [rn w3] eqn:En.
    pose proof (get_next_available_slot_same_store _ _ _ _ En) as S3.
    pose proof (same_store_trans _ _ _ (same_store_trans _ _ _ S1 S2) S3)
      as S.
    unfold modify_appointment. rewrite Ht, Hhead.
    unfold bind at 1. rewrite _publish_update_eq.
    unfold bind at 1. unfold self at 1. cbn [fst snd].
    rewrite publish_user_id, Hid, (truthy_some _ Huid). cbn [negb].
    unfold bind at 1. rewrite db_eq, get_user_appointments_eq.
    cbn [fst snd]. rewrite (str_or_some _ _ Huid), F.
    unfold bind at 1. unfold bind at 1. rewrite db_eq. cbn [fst snd].
    rewrite Ec. cbn [fst snd negb].
    unfold bind at 1. rewrite db_eq. cbn [fst snd]. rewrite Ep.
    cbn [fst snd].
    unfold bind at 1. rewrite db_eq. cbn [fst snd]. rewrite En.
    cbn [fst snd].
    destruct rn as [next|e].
    + unfold bind at 1. rewrite _publish_update_eq. cbn [fst snd].
      exists (Ok (if past
                  then Modify_past_date next (Appt.start_time original)
                  else Modify_unavailable
                         (str_or nst (Appt.start_time original))
                         (Appt.start_time original)
                         (Appt.get_num_people original 2) next)),
        (publish (mkEvent "modify_appointment" "failed"
                    (Some (if past then "past_date"
                           else "new_slot_unavailable")))
           (publish (mkEvent "modify_appointment" "started" None) s)),
        w3.
      split; [destruct past; reflexivity|].
      split; [exact S|]. split.
      * eapply same_session_trans; apply same_session_publish.
      * intros name t p i. destruct past; discriminate.
    + do 3 eexists. split; [reflexivity|]. split; [exact S|].
      split; [apply same_session_publish|discriminate].
  - destruct (check_availability_total
                (str_or nst (Appt.start_time original))
                (int_or nnp (Appt.get_num_people original 2)) w) as [b Hb].
    rewrite Ec in Hb. discriminate.
Qed.

End ServedStore.

(** ** What a modification does *)

Section ModifyContract.
Context {P : Platform}.

Lemma find_id_none (x : string) (l : list Appt.t) :
  (forall a, In a l -> Appt.id a <> x) ->
  find (fun a => String.eqb (Appt.id a) x) l = None.
Proof.
  intros H. destruct (find _ l) as [a|] eqn:F; [|reflexivity].
  apply find_some in F. destruct F as [Ha E].
  apply String.eqb_eq in E. now destruct (H a Ha).
Qed.

(** An id that is not among the identified guest's active appointments
    is answered with the not-found failure. *)
Lemma modify_appointment_not_found (x uid : string) (nst : option string)
    (nnp : option Z) (nd : option string) (s : ReservationTools)
    (w : World) :
  _user_id s = Some uid -> uid <> "" ->
  truthy_str nst || truthy_int nnp || truthy_str nd = true ->
  find (fun a => String.eqb (Appt.id a) x) (active uid w) = None ->
  exists s',
    modify_appointment x nst nnp nd (s, w) = (Ok Modify_not_found, (s', w)).
Proof.
  intros Hid Huid Hsome F.
  assert (Hhead : negb (truthy_str nst) && negb (truthy_int nnp)
                  && negb (truthy_str nd) = false).
  { destruct (truthy_str nst), (truthy_int nnp), (truthy_str nd);
      simpl in *; congruence. }
  unfold modify_appointment. rewrite Hhead.
  unfold bind at 1. rewrite _publish_update_eq.
  unfold bind at 1. unfold self at 1. cbn [fst snd].
  rewrite publish_user_id, Hid, (truthy_some _ Huid). cbn [negb].
  unfold bind at 1. rewrite db_eq, get_user_appointments_eq.
  cbn [fst snd]. rewrite (str_or_some _ _ Huid), F.
  unfold bind at 1. rewrite _publish_update_eq. unfold ret.
  eexists. reflexivity.
Qed.

(** No appointment with the id is active once the id is cancelled. *)
Lemma active_after_cancel (x uid : string) (l : list Appt.t) (a : Appt.t) :
  In a (filter (fun a => String.eqb (Appt.user_id a) uid
                         && negb (Status_eqb (Appt.status a) cancelled))
          (map (rewrite_id (Appt.set_status cancelled) x) l)) ->
  Appt.id a <> x.
Proof.
  intros H E. apply filter_In in H. destruct H as [H Q].
  apply in_map_iff in H. destruct H as (b & <- & _).
  unfold rewrite_id in *.
  destruct (String.eqb_spec (Appt.id b) x) as [Eb|NE].
  - cbn in Q. rewrite andb_false_r in Q. discriminate.
  - contradiction.
Qed.

(** What the confirmation of [modify_appointment] says about the run:
    the original was an active appointment of the identified guest, it is
    cancelled, and the new appointment is appended. *)
Lemma modify_appointment_modified (x : string) (nst : option string)
    (nnp : option Z) (nd : option string) (s s' : ReservationTools)
    (w w' : World) (name t : string) (p : Z) (i : string) :
  served w ->
  modify_appointment x nst nnp nd (s, w)
  = (Ok (Modified name t p i), (s', w')) ->
  exists original a,
    In original (appointments w) /\ Appt.id original = x /\
    Appt.status original = booked /\
    _user_id s = Some (Appt.user_id original) /\
    appointments w'
    = (map (rewrite_id (Appt.set_status cancelled) x) (appointments w)
       ++ [a])%list /\
    users w' = users w /\
    Appt.id a = i /\ i <> x /\
    Appt.user_id a = Appt.user_id original /\
    Appt.status a = booked /\
    Appt.start_time a = t /\ t = str_or nst (Appt.start_time original) /\
    Appt.num_people a = Some p /\
    p = int_or nnp (Appt.get_num_people original 2) /\
    Appt.details a
    = "Guests: " ++ str_of_Z p ++ ". " ++ str_or nd (Appt.details original) /\
    same_session s s' /\ Appt.user_id original <> "".
Proof.
  intros S H.
  destruct (modify_appointment_cases x nst nnp nd s w)
    as [(r & s0 & w0 & E & _ & _ & Hr)
       |(uid & original & w1 & Hid & Huid & Hsome & F & Hc)].
  { rewrite E in H. injection H as -> _ _. now destruct (Hr name t p i). }
  destruct (modify_appointment_success s w w1 uid x nst nnp nd original
              Hid Huid Hsome F Hc) as (name0 & s0 & E & Ss).
  cbv zeta in E.
  set (wc := snd (cancel_appointment x w1)) in *.
  set (ft := str_or nst (Appt.start_time original)) in *.
  set (fp := int_or nnp (Appt.get_num_people original 2)) in *.
  set (fd := str_or nd (Appt.details original)) in *.
  set (a := new_appt wc uid ft fp fd) in *.
  set (wn := snd (create_appointment uid ft fp fd wc)) in *.
  rewrite E in H. clear E.
  assert (Et : ft = t) by congruence.
  assert (Ep : fp = p) by congruence.
  assert (Ei : Appt.id a = i) by congruence.
  assert (Es : s0 = s') by congruence.
  assert (Ew : wn = w') by congruence.
  clear H. subst t p i s' w'.
  destruct (find_in_active _ _ _ _ F) as (Hin & Hx & Hu & Hst).
  assert (S1 : appointments w1 = appointments w /\ users w1 = users w).
  { destruct (truthy_str nst).
    - destruct (check_availability_same_store _ _ _ _ _ Hc). now split.
    - now subst w1. }
  destruct S1 as [S1 U1].
  assert (Ec : appointments wc
               = map (rewrite_id (Appt.set_status cancelled) x)
                     (appointments w) /\
               users wc = users w).
  { unfold wc.
    rewrite cancel_appointment_eq, S1, (served_update_first _ x w S).
    rewrite (existsb_id_true x _ original Hin Hx). cbn [snd].
    destruct w1; split; [reflexivity|exact U1]. }
  destruct Ec as [Ec Eu].
  pose proof (served_invariant w S) as (Hids & _ & _).
  assert (Hi : Appt.id a <> x).
  { unfold a. cbn [new_appt Appt.id]. rewrite Ec, length_map, <- Hx.
    intros C. symmetry in C. revert C. now apply ids_by_row_fresh. }
  assert (Ea : appointments wn = (appointments wc ++ [a])%list /\
               users wn = users wc).
  { unfold wn. rewrite create_appointment_eq. split; reflexivity. }
  destruct Ea as [Ea Eua].
  exists original, a.
  rewrite Ea, Eua, Ec, Eu, Hu, Hid.
  split; [exact Hin|]. split; [exact Hx|].
  split; [now apply active_booked|].
  do 4 (split; [reflexivity|]). split; [exact Hi|].
  do 7 (split; [reflexivity|]). split; [exact Ss|exact Huid].
Qed.


(** Rewriting one record in place keeps a cancelled appointment
    cancelled when the rewriting keeps the id and either keeps the status
    or cancels. *)
Lemma cancelled_row_map (f : Appt.t -> Appt.t) (x y : string)
    (l : list Appt.t) :
  (forall a, Appt.id (f a) = Appt.id a) ->
  (forall a, Appt.status (f a) = cancelled \/
             Appt.status (f a) = Appt.status a) ->
  cancelled_row x l -> cancelled_row x (map (rewrite_id f y) l).
Proof.
  intros Hid Hst (Hids & (a & Ha & Hx) & Hc).
  assert (Ri : forall b, Appt.id (rewrite_id f y b) = Appt.id b).
  { intros b. unfold rewrite_id.
    now destruct (String.eqb (Appt.id b) y); [apply Hid|]. }
  split; [|split].
  - eapply ids_by_row_map; [|exact Hids].
    rewrite map_map. now apply map_ext.
  - exists (rewrite_id f y a). split; [now apply in_map|].
    now rewrite Ri.
  - intros b Hb Eb. apply in_map_iff in Hb. destruct Hb as (b0 & <- & Hb0).
    rewrite Ri in Eb. specialize (Hc b0 Hb0 Eb).
    unfold rewrite_id. destruct (String.eqb (Appt.id b0) y); [|exact Hc].
    destruct (Hst b0) as [E|E]; [exact E|now rewrite E].
Qed.

(** A record appended under the next id leaves it cancelled too. *)
Lemma cancelled_row_snoc (x : string) (l : list Appt.t) (a : Appt.t) :
  Appt.id a = "appt_" ++ str_of_nat (S (List.length l)) ->
  cancelled_row x l -> cancelled_row x (l ++ [a]).
Proof.
  intros Ea (Hids & (b & Hb & Hx) & Hc). split; [|split].
  - now apply ids_by_row_snoc.
  - exists b. split; [apply in_or_app; now left|exact Hx].
  - intros c Hin Ec. apply in_app_or in Hin.
    destruct Hin as [Hin|[<-|[]]]; [now apply Hc|].
    exfalso. apply (ids_by_row_fresh l b Hids Hb).
    now rewrite Hx, <- Ec.
Qed.

Lemma cancelled_row_update_first (f : Appt.t -> Appt.t) (x y : string)
    (l : list Appt.t) :
  (forall a, Appt.id (f a) = Appt.id a) ->
  (forall a, Appt.status (f a) = cancelled \/
             Appt.status (f a) = Appt.status a) ->
  cancelled_row x l ->
  cancelled_row x (match update_first f y l with
                   | Some l' => l'
                   | None => l
                   end).
Proof.
  intros Hid Hst C. pose proof C as (Hids & _).
  rewrite (update_first_map f y l (ids_by_row_NoDup l Hids)).
  destruct (existsb _ l); [|exact C]. now apply cancelled_row_map.
Qed.

(** No step of a tool call brings a cancelled appointment back: whatever
    the calls that follow, it stays stored and cancelled. *)
Lemma store_step_cancelled_row (x : string) (w w' : World) :
  store_step w w' ->
  cancelled_row x (appointments w) -> cancelled_row x (appointments w').
Proof.
  assert (Hcancel : forall y v,
             cancelled_row x (appointments v) ->
             cancelled_row x (appointments (snd (cancel_appointment y v)))).
  { intros y v C.
    pose proof (cancelled_row_update_first (Appt.set_status cancelled) x y
                  (appointments v) (fun _ => eq_refl)
                  (fun _ => or_introl eq_refl) C) as K.
    rewrite cancel_appointment_eq.
    destruct (update_first _ y (appointments v)); exact K. }
  assert (Hcreate : forall u t n d v,
             cancelled_row x (appointments v) ->
             cancelled_row x
               (appointments (snd (create_appointment u t n d v)))).
  { intros u t n d v C. rewrite create_appointment_eq.
    cbn [snd appointments set_appointments tick].
    now apply cancelled_row_snoc. }
  induction 1 as [w w' [_ E]|w c n|w w1 u t n d Hc|w y|w y d
                 |w a u n d Hin Hst|w1 w2 w3 _ IH1 _ IH2]; intros C.
  - now rewrite E.
  - now rewrite get_or_create_user_appointments.
  - apply Hcreate.
    destruct (check_availability_same_store _ _ _ _ _ Hc) as [_ E].
    now rewrite E.
  - now apply Hcancel.
  - pose proof (cancelled_row_update_first (Appt.set_details d) x y
                  (appointments w) (fun _ => eq_refl)
                  (fun _ => or_intror eq_refl) C) as K.
    rewrite update_appointment_eq.
    destruct (update_first _ y (appointments w)); exact K.
  - now apply Hcreate, Hcancel.
  - auto.
Qed.

(** X11.  When [modify_appointment] answers with the confirmation, the
    id named an active appointment of the identified guest; that
    appointment is now cancelled and a new one is appended, booked for the
    same guest under a new id, with the time and party size of the answer
    (the given ones, or those of the original where none was given); its
    details are the given or the original details behind a new guest-count
    prefix, so details carried over keep the old prefix inside; the
    session's own list of bookings is not extended; and from then on a
    request to modify the old id that names a change is answered
    not-found and changes nothing: in the session right after the
    confirmation, and made by any identified session after whatever
    further steps of tool calls on the store. *)
Theorem X11_modify_replaces_appointment (x : string) (nst : option string)
    (nnp : option Z) (nd : option string) (s s' : ReservationTools)
    (w w' : World) (name t : string) (p : Z) (i : string) :
  served w ->
  modify_appointment x nst nnp nd (s, w)
  = (Ok (Modified name t p i), (s', w')) ->
  exists original a,
    In original (appointments w) /\ Appt.id original = x /\
    Appt.status original = booked /\
    _user_id s = Some (Appt.user_id original) /\
    appointments w'
    = (map (rewrite_id (Appt.set_status cancelled) x) (appointments w)
       ++ [a])%list /\
    users w' = users w /\
    Appt.id a = i /\ i <> x /\
    Appt.user_id a = Appt.user_id original /\
    Appt.status a = booked /\
    Appt.start_time a = t /\ t = str_or nst (Appt.start_time original) /\
    Appt.num_people a = Some p /\
    p = int_or nnp (Appt.get_num_people original 2) /\
    Appt.details a
    = "Guests: " ++ str_of_Z p ++ ". " ++ str_or nd (Appt.details original) /\
    same_session s s' /\
    (forall nst' nnp' nd',
       truthy_str nst' || truthy_int nnp' || truthy_str nd' = true ->
       exists s'',
         modify_appointment x nst' nnp' nd' (s', w')
         = (Ok Modify_not_found, (s'', w'))) /\
    (forall s2 w2 uid nst' nnp' nd',
       store_step w' w2 ->
       _user_id s2 = Some uid -> uid <> "" ->
       truthy_str nst' || truthy_int nnp' || truthy_str nd' = true ->
       exists s'',
         modify_appointment x nst' nnp' nd' (s2, w2)
         = (Ok Modify_not_found, (s'', w2))).
Proof.
  intros S H.
  destruct (modify_appointment_modified x nst nnp nd s s' w w' name t p i
              S H)
    as (original & a & Hin & Hx & Hst & Hid & Ea & Eu & Ei & Hi & Hu & Hsa
        & Et & Et' & Ep & Ep' & Ed & Ss & Huid).
  exists original, a.
  do 15 (split; [assumption|]). split; [exact Ss|].
  split.
  - intros nst' nnp' nd' Hsome'.
    apply (modify_appointment_not_found x (Appt.user_id original));
      try assumption.
    + destruct Ss as (-> & _). exact Hid.
    + apply find_id_none. intros b Hb. unfold active in Hb.
      rewrite Ea, filter_app in Hb. apply in_app_or in Hb.
      destruct Hb as [Hb|Hb].
      * now apply (active_after_cancel x (Appt.user_id original)
                     (appointments w)).
      * apply filter_In in Hb. destruct Hb as [[<-|[]] _]. now rewrite Ei.
  - intros s2 w2 uid nst' nnp' nd' St Hu2 Hne Hsome'.
    pose proof (served_invariant w S) as (Hids & _ & _).
    assert (S' : served w').
    { replace w' with (snd (exec (T_modify_appointment x nst nnp nd) (s, w)))
        by (cbn [exec]; now rewrite H).
      now apply served_call. }
    pose proof (served_invariant w' S') as (Hids' & _ & _).
    assert (C : cancelled_row x (appointments w')).
    { split; [exact Hids'|]. rewrite Ea. split.
      - exists (rewrite_id (Appt.set_status cancelled) x original).
        split; [apply in_or_app; left; now apply in_map|].
        unfold rewrite_id. rewrite Hx, String.eqb_refl. exact Hx.
      - intros b Hb Eb. apply in_app_or in Hb.
        destruct Hb as [Hb|[<-|[]]].
        + apply in_map_iff in Hb. destruct Hb as (b0 & <- & _).
          revert Eb. unfold rewrite_id.
          destruct (String.eqb_spec (Appt.id b0) x) as [E|NE];
            [reflexivity|intros Eb; now destruct NE].
        + exfalso. apply Hi. now rewrite <- Ei. }
    apply (store_step_cancelled_row x w' w2 St) in C.
    destruct C as (_ & _ & Hc).
    apply (modify_appointment_not_found x uid); try assumption.
    apply find_id_none. intros b Hb Eb. unfold active in Hb.
    apply filter_In in Hb. destruct Hb as [Hb Hf].
    rewrite (Hc b Hb Eb) in Hf. cbn in Hf.
    now rewrite andb_false_r in Hf.
Qed.

(** X12.  A request to modify an active appointment that repeats the
    appointment's own start time is never confirmed, whatever party size
    and details come with it: the slot counts as taken by the appointment
    itself, and the store and the session stay as they were. *)
Theorem X12_modify_to_own_time_refused (x uid : string) (nnp : option Z)
    (nd : option string) (s : ReservationTools) (w : World)
    (original : Appt.t) :
  _user_id s = Some uid ->
  find (fun a => String.eqb (Appt.id a) x) (active uid w) = Some original ->
  Appt.start_time original <> "" ->
  exists r s' w',
    modify_appointment x (Some (Appt.start_time original)) nnp nd (s, w)
    = (r, (s', w')) /\
    same_store w w' /\ same_session s s' /\
    forall name t p i, r <> Ok (Modified name t p i).
Proof.
  intros Hid F Hne.
  destruct (modify_appointment_cases x (Some (Appt.start_time original))
              nnp nd s w)
    as [A|(uid' & original' & w1 & Hid' & _ & _ & F' & Hc)];
    [exact A|exfalso].
  rewrite Hid in Hid'. injection Hid' as <-.
  rewrite F in F'. injection F' as <-.
  rewrite (truthy_some _ Hne), (str_or_some _ _ Hne) in Hc.
  apply check_availability_true in Hc.
  destruct Hc as (dt & _ & _ & _ & Hb & _).
  destruct (find_in_active _ _ _ _ F) as (Hin & _ & _ & Hst).
  rewrite booked_at_false_iff in Hb.
  now apply (Hb original Hin eq_refl), active_booked.
Qed.

End ModifyContract.

(** ** Listing a guest's appointments *)

Section Listing.
Context {P : Platform}.

(** The store after the tool [cancel_appointment]. *)
Lemma tool_cancel_appointment_store (x : string) (s : ReservationTools)
    (w : World) :
  served w ->
  appointments (snd (snd (tool_cancel_appointment x (s, w))))
  = map (rewrite_id (Appt.set_status cancelled) x) (appointments w) /\
  users (snd (snd (tool_cancel_appointment x (s, w)))) = users w.
Proof.
  intros S. rewrite tool_cancel_appointment_eq, (served_update_first _ x w S).
  destruct (existsb _ (appointments w)) eqn:E; cbn [snd].
  - destruct w; split; reflexivity.
  - rewrite map_rewrite_id_absent by now apply existsb_id_false.
    split; reflexivity.
Qed.

(** Cancelling an id removes the lines with that id from a guest's
    listing and leaves the others in their order. *)
Lemma lines_after_cancel (x uid : string) (l : list Appt.t) :
  map (fun a => (Appt.start_time a, Appt.status a, Appt.id a))
      (filter (fun a => String.eqb (Appt.user_id a) uid
                        && negb (Status_eqb (Appt.status a) cancelled))
         (map (rewrite_id (Appt.set_status cancelled) x) l))
  = filter (fun line => negb (String.eqb (snd line) x))
      (map (fun a => (Appt.start_time a, Appt.status a, Appt.id a))
         (filter (fun a => String.eqb (Appt.user_id a) uid
                           && negb (Status_eqb (Appt.status a) cancelled))
            l)).
Proof.
  induction l as [|a l IH]; [reflexivity|].
  cbn [map filter].
  replace (rewrite_id (Appt.set_status cancelled) x a)
    with (if String.eqb (Appt.id a) x
          then Appt.set_status cancelled a else a) by reflexivity.
  destruct (String.eqb (Appt.id a) x) eqn:E.
  - cbn [Appt.set_status Appt.status Appt.user_id Status_eqb negb].
    rewrite andb_false_r.
    destruct (String.eqb (Appt.user_id a) uid
              && negb (Status_eqb (Appt.status a) cancelled)).
    + cbn [map filter snd]. rewrite E. cbn [negb]. exact IH.
    + exact IH.
  - destruct (String.eqb (Appt.user_id a) uid
              && negb (Status_eqb (Appt.status a) cancelled)).
    + cbn [map filter snd]. rewrite E. cbn [negb]. now rewrite IH.
    + exact IH.
Qed.

(** X13.  For an identified guest [retrieve_appointments] lists, in the
    order of the store, the guest's appointments that are not cancelled
    and nothing else, answers with the empty sentence exactly when there
    is none, and changes neither the store nor the session; after the tool
    [cancel_appointment] has run for an id, from any session, the listing
    is the former one without the lines of that id. *)
Theorem X13_retrieve_lists_active (s : ReservationTools) (w : World)
    (uid : string) :
  served w -> _user_id s = Some uid -> uid <> "" ->
  exists r s',
    retrieve_appointments (s, w) = (Ok r, (s', w)) /\
    same_session s s' /\
    lines_of r
    = map (fun a => (Appt.start_time a, Appt.status a, Appt.id a))
          (active uid w) /\
    (r = Retrieve_none <-> active uid w = []) /\
    (forall st status i, In (st, status, i) (lines_of r) ->
       status = booked /\
       exists a, In a (appointments w) /\ Appt.user_id a = uid /\
                 Appt.id a = i /\ Appt.start_time a = st) /\
    forall x s2,
      let w2 := snd (snd (tool_cancel_appointment x (s2, w))) in
      exists r2 s2',
        retrieve_appointments (s', w2) = (Ok r2, (s2', w2)) /\
        lines_of r2
        = filter (fun line => negb (String.eqb (snd line) x)) (lines_of r).
Proof.
  intros S Hid Huid.
  assert (R : forall s0 w0, _user_id s0 = Some uid ->
            exists r s',
              retrieve_appointments (s0, w0) = (Ok r, (s', w0)) /\
              same_session s0 s' /\
              lines_of r
              = map (fun a => (Appt.start_time a, Appt.status a, Appt.id a))
                    (active uid w0) /\
              (r = Retrieve_none <-> active uid w0 = [])).
  { intros s0 w0 H0. rewrite retrieve_appointments_eq. cbv zeta.
    rewrite H0, (truthy_some _ Huid), (str_or_some _ _ Huid).
    destruct (active uid w0) as [|a l].
    - do 2 eexists. split; [reflexivity|].
      split; [eapply same_session_trans; apply same_session_publish|].
      split; [reflexivity|]. split; reflexivity.
    - do 2 eexists. split; [reflexivity|].
      split; [eapply same_session_trans; apply same_session_publish|].
      split; [reflexivity|]. split; discriminate. }
  destruct (R s w Hid) as (r & s' & E & Ss & L & N).
  exists r, s'. do 4 (split; [assumption|]). split.
  - intros st status i Hl. rewrite L in Hl. apply in_map_iff in Hl.
    destruct Hl as (a & Ea & Ha). injection Ea as <- <- <-.
    apply filter_In in Ha. destruct Ha as [Ha Q].
    apply andb_true_iff in Q. destruct Q as [Q1 Q2].
    apply String.eqb_eq in Q1. split.
    + destruct (Appt.status a); [reflexivity|discriminate].
    + exists a. auto.
  - intros x s2 w2.
    assert (Hid' : _user_id s' = Some uid)
      by (destruct Ss as (-> & _); exact Hid).
    destruct (R s' w2 Hid') as (r2 & s2' & E2 & _ & L2 & _).
    exists r2, s2'. split; [exact E2|].
    rewrite L2, L. unfold active, w2.
    destruct (tool_cancel_appointment_store x s2 w S) as [-> _].
    apply lines_after_cancel.
Qed.

End Listing.

(** ** The session's record of its bookings *)

Section SessionData.
Context {P : Platform}.

Lemma session_rows_map (f : Appt.t -> Appt.t) (l : list Appt.t)
    (rows : list nat) :
  flat_map (fun row => match nth_error (map f l) row with
                       | Some a => [a]
                       | None => []
                       end) rows
  = map f (flat_map (fun row => match nth_error l row with
                                | Some a => [a]
                                | None => []
                                end) rows).
Proof.
  induction rows as [|row rows IH]; [reflexivity|].
  cbn [flat_map]. rewrite map_app, IH, nth_error_map.
  now destruct (nth_error l row).
Qed.

Lemma session_rows_snoc (l : list Appt.t) (a : Appt.t) (rows : list nat) :
  Forall (fun row => (row < List.length l)%nat) rows ->
  flat_map (fun row => match nth_error (l ++ [a]) row with
                       | Some a => [a]
                       | None => []
                       end) rows
  = flat_map (fun row => match nth_error l row with
                         | Some a => [a]
                         | None => []
                         end) rows.
Proof.
  induction 1 as [|row rows Hrow _ IH]; [reflexivity|].
  cbn [flat_map]. now rewrite IH, nth_error_app1.
Qed.

Lemma session_rows_in (l : list Appt.t) (rows : list nat) (a : Appt.t) :
  In a (flat_map (fun row => match nth_error l row with
                             | Some a => [a]
                             | None => []
                             end) rows) ->
  In a l.
Proof.
  intros H. apply in_flat_map in H. destruct H as (row & _ & H).
  destruct (nth_error l row) as [b|] eqn:E; [|destruct H].
  destruct H as [<-|[]]. now apply nth_error_In in E.
Qed.

(** X14.  On the in-memory store, where the session holds the stored
    dicts themselves, the bookings of [get_session_data] are read from
    the store as it is now: a confirmed booking adds its appointment at
    the end of the session's bookings, and when an appointment is
    cancelled later, by this or another session, the session's bookings
    still hold it, shown as cancelled. *)
Theorem X14_session_data_is_live (start : string) (n : Z)
    (name contact : option string) (details uname i : string)
    (s s1 : ReservationTools) (w w1 : World) :
  served w ->
  Forall (fun row => (row < List.length (appointments w))%nat)
         (_session_bookings s) ->
  book_appointment start n name contact details (s, w)
  = (Ok (Booked uname start n i), (s1, w1)) ->
  exists a,
    Appt.id a = i /\ Appt.status a = booked /\
    snd (get_session_data (s1, w1))
    = (snd (get_session_data (s, w)) ++ [a])%list /\
    forall x s2,
      snd (get_session_data
             (s1, snd (snd (tool_cancel_appointment x (s2, w1)))))
      = map (rewrite_id (Appt.set_status cancelled) x)
            (snd (get_session_data (s1, w1))).
Proof.
  intros S Hrows H.
  assert (S1 : served w1).
  { pose proof (served_call w s
                  (T_book_appointment start n name contact details) S)
      as S1.
    cbn [exec] in S1. now rewrite H in S1. }
  destruct (book_appointment_outcome start n name contact details s w)
    as (r & s' & w' & E & [(uname' & a & w0 & Hr & Ha & _ & _ & Hst & _ & _
                             & Hsb & _)|(Hn & _)]).
  2:{ rewrite E in H. injection H as -> _ _. now destruct (Hn uname i). }
  rewrite E in H. injection H as -> -> ->.
  injection Hr as _ ->.
  exists a. split; [reflexivity|]. split; [exact Hst|]. split.
  - cbn [get_session_data fst snd]. rewrite Hsb, Ha, flat_map_app.
    rewrite (session_rows_snoc _ _ _ Hrows). f_equal.
    cbn [flat_map]. rewrite nth_error_app2, Nat.sub_diag by apply Nat.le_refl.
    reflexivity.
  - intros x s2. cbn [get_session_data fst snd].
    destruct (tool_cancel_appointment_store x s2 w1 S1) as [-> _].
    apply session_rows_map.
Qed.

(** X15.  On the in-memory store, where the session holds the stored
    dicts themselves, a confirmed modification does not reach the
    session's bookings: they are the former ones with the original
    appointment shown as cancelled where the session holds it, and the
    appointment that replaces it, although stored and booked, is not
    among them. *)
Theorem X15_modified_booking_not_in_session_data (x : string)
    (nst : option string) (nnp : option Z) (nd : option string)
    (s s' : ReservationTools) (w w' : World) (name t : string) (p : Z)
    (i : string) :
  served w ->
  Forall (fun row => (row < List.length (appointments w))%nat)
         (_session_bookings s) ->
  modify_appointment x nst nnp nd (s, w)
  = (Ok (Modified name t p i), (s', w')) ->
  snd (get_session_data (s', w'))
  = map (rewrite_id (Appt.set_status cancelled) x)
        (snd (get_session_data (s, w))) /\
  (forall b, In b (snd (get_session_data (s', w'))) -> Appt.id b <> i) /\
  exists a, In a (appointments w') /\ Appt.id a = i /\
            Appt.status a = booked.
Proof.
  intros Sv Hrows H.
  destruct (modify_appointment_modified x nst nnp nd s s' w w' name t p i
              Sv H)
    as (original & a & Hin & Hx & Hst & Hid & Ea & Eu & Ei & Hi & Hu & Hsa
        & _ & _ & _ & _ & _ & (_ & _ & Hsb) & _).
  pose proof (served_invariant w Sv) as (Hids & _ & _).
  set (l := map (rewrite_id (Appt.set_status cancelled) x) (appointments w))
    in *.
  assert (Hl : ids_by_row l).
  { apply (ids_by_row_map (appointments w)); [|exact Hids].
    unfold l. rewrite map_map. apply map_ext. intros b.
    unfold rewrite_id. now destruct (String.eqb (Appt.id b) x). }
  assert (Sv' : served w').
  { pose proof (served_call w s (T_modify_appointment x nst nnp nd) Sv)
      as Sv'.
    cbn [exec] in Sv'. now rewrite H in Sv'. }
  pose proof (served_invariant w' Sv') as (Hids' & _ & _).
  assert (Hnew : Appt.id a
                 = "appt_" ++ str_of_nat (Datatypes.S (List.length l))).
  { apply (Hids' (List.length l) a). rewrite Ea.
    rewrite nth_error_app2, Nat.sub_diag by apply Nat.le_refl.
    reflexivity. }
  assert (Hrows' : Forall (fun row => (row < List.length l)%nat)
                     (_session_bookings s))
    by (unfold l; now rewrite length_map).
  assert (Hdata : snd (get_session_data (s', w'))
                  = map (rewrite_id (Appt.set_status cancelled) x)
                        (snd (get_session_data (s, w)))).
  { cbn [get_session_data fst snd]. rewrite Hsb, Ea.
    rewrite (session_rows_snoc _ _ _ Hrows'). apply session_rows_map. }
  split; [exact Hdata|]. split.
  - intros b Hb. cbn [get_session_data fst snd] in Hb.
    rewrite Hsb, Ea, (session_rows_snoc _ _ _ Hrows') in Hb.
    apply session_rows_in in Hb. rewrite <- Ei, Hnew.
    now apply ids_by_row_fresh.
  - exists a. split; [|split; assumption].
    rewrite Ea. apply in_or_app. right. now left.
Qed.

End SessionData.

(** ** The slots on offer *)

Section Offer.
Context {P : Platform}.

Lemma In_firstn {A : Type} (n : nat) (l : list A) (x : A) :
  In x (firstn n l) -> In x l.
Proof.
  intros H. rewrite <- (firstn_skipn n l). apply in_or_app. now left.
Qed.

Lemma dt_gt_naive (a b : datetime) :
  tzinfo a = None -> tzinfo b = None -> exists r, dt_gt a b = Ok r.
Proof.
  intros Ha Hb. unfold dt_gt, dt_compare. rewrite Ha, Hb.
  destruct (lex_compare (fields a) (fields b)); eauto.
Qed.

(** The slots of one day: hours of the list that lie after the clock. *)
Lemma day_slots_spec (n : datetime) (d : date) (day_label : string)
    (hours : list Z) :
  tzinfo n = None ->
  exists slots,
    day_slots n d day_label hours = Ok slots /\
    forall sl, In sl slots ->
      exists h, In h hours /\
        dt_gt (combine_hour d h) n = Ok true /\
        iso sl = strftime_iso (combine_hour d h) /\
        display sl
        = day_label ++ " at " ++ strftime_12h (combine_hour d h).
Proof.
  intros Hn. induction hours as [|h hours (more & E & IH)].
  - exists []. split; [reflexivity|]. intros sl [].
  - cbn [day_slots]. rewrite E.
    destruct (dt_gt_naive (combine_hour d h) n eq_refl Hn) as [later Hl].
    rewrite Hl. destruct later.
    + eexists. split; [reflexivity|]. intros sl [<-|Hsl].
      * exists h. split; [now left|]. auto.
      * destruct (IH sl Hsl) as (h' & Hh & R). exists h'.
        split; [now right|exact R].
    + exists more. split; [reflexivity|]. intros sl Hsl.
      destruct (IH sl Hsl) as (h' & Hh & R). exists h'.
      split; [now right|exact R].
Qed.

(** X16.  [fetch_slots] works from the clock alone: it reads the clock
    once and leaves guests, appointments and the session as they are, and
    whatever is stored or booked, any call that reads the same clock gets
    the same answer.  Unless today or tomorrow lies outside the calendar,
    the answer has at most 8 slots, each one an hour of the list 10, 14,
    17, 18, 19, 20, 21 of today or tomorrow that lies strictly after the
    clock, given as ISO text and as a label with the 12-hour time. *)
Theorem X16_fetch_slots_by_the_clock (s : ReservationTools) (w : World) :
  let n := localtime (clock (ticks w)) in
  exists r s',
    fetch_slots (s, w) = (r, (s', tick w)) /\
    same_session s s' /\
    (forall s2 w2, ticks w2 = ticks w -> fst (fetch_slots (s2, w2)) = r) /\
    ((r = Raise OverflowError /\
      exists k, (k = 0 \/ k = 1) /\ date_add_days (date_of n) k = None) \/
     exists slots,
       r = Ok slots /\ (List.length slots <= 8)%nat /\
       forall sl, In sl slots ->
         exists k d h,
           (k = 0 \/ k = 1) /\
           date_add_days (date_of n) k = Some d /\
           In h fetch_hours /\
           dt_gt (combine_hour d h) n = Ok true /\
           iso sl = strftime_iso (combine_hour d h) /\
           display sl
           = (if k =? 0 then "Today" else "Tomorrow") ++ " at "
             ++ strftime_12h (combine_hour d h)).
Proof.
  intros n.
  assert (Hn : tzinfo n = None) by apply localtime_naive.
  assert (A : (all_slots n [0; 1] = Raise OverflowError /\
               exists k, (k = 0 \/ k = 1) /\
                         date_add_days (date_of n) k = None) \/
              exists slots,
                all_slots n [0; 1] = Ok slots /\
                forall sl, In sl slots ->
                  exists k d h,
                    (k = 0 \/ k = 1) /\
                    date_add_days (date_of n) k = Some d /\
                    In h fetch_hours /\
                    dt_gt (combine_hour d h) n = Ok true /\
                    iso sl = strftime_iso (combine_hour d h) /\
                    display sl
                    = (if k =? 0 then "Today" else "Tomorrow") ++ " at "
                      ++ strftime_12h (combine_hour d h)).
  { cbn [all_slots].
    destruct (date_add_days (date_of n) 0) as [d0|] eqn:E0.
    2:{ left. split; [reflexivity|]. exists 0. auto. }
    destruct (day_slots_spec n d0 "Today" fetch_hours Hn)
      as (today & Et & Ht).
    cbn [Z.eqb]. rewrite Et.
    destruct (date_add_days (date_of n) 1) as [d1|] eqn:E1.
    2:{ left. split; [reflexivity|]. exists 1. auto. }
    destruct (day_slots_spec n d1 "Tomorrow" fetch_hours Hn)
      as (tomorrow & Em & Hm).
    cbn [Z.eqb Pos.eqb]. rewrite Em. right. eexists. split; [reflexivity|].
    intros sl Hsl. rewrite app_nil_r in Hsl. apply in_app_or in Hsl.
    destruct Hsl as [Hsl|Hsl].
    - destruct (Ht sl Hsl) as (h & Hh & R). exists 0, d0, h. auto.
    - destruct (Hm sl Hsl) as (h & Hh & R). exists 1, d1, h. auto. }
  assert (Same : forall s2 w2, ticks w2 = ticks w ->
            fst (fetch_slots (s2, w2))
            = match all_slots n [0; 1] with
              | Ok slots => Ok (firstn 8 slots)
              | Raise e => Raise e
              end).
  { intros s2 w2 E. rewrite fetch_slots_eq. cbv zeta. rewrite E. fold n.
    now destruct (all_slots n [0; 1]). }
  rewrite fetch_slots_eq. cbv zeta. fold n.
  destruct A as [(E & Hk)|(slots & E & Hs)]; rewrite E in *.
  - do 2 eexists. split; [reflexivity|].
    split; [apply same_session_publish|]. split; [exact Same|]. left. auto.
  - do 2 eexists. split; [reflexivity|].
    split; [eapply same_session_trans; apply same_session_publish|].
    split; [exact Same|]. right. eexists. split; [reflexivity|].
    split; [apply firstn_le_length|].
    intros sl Hsl. apply Hs. now apply In_firstn in Hsl.
Qed.

End Offer.

(** ** Call summaries *)

(** The compact timestamp of the reference platform is determined by the
    second of the reading. *)
Lemma strftime_compact_by_second (a b : Z) :
  a / 1000000 = b / 1000000 ->
  strftime_compact (civil_of_us a) = strftime_compact (civil_of_us b).
Proof.
  intros H. unfold strftime_compact, civil_of_us.
  cbn [year month day hour minute second]. now rewrite H.
Qed.

(** X17.  On a server with a fixed offset from UTC, [save_summary] names
    a summary by the second of its first clock reading: two summaries
    saved with these readings in the same second, whatever their guest,
    content and bookings, are both appended to the stored summaries and
    carry the same id.  Guests and appointments are left as they are. *)
Theorem X17_summary_ids_by_the_second (utcoffset : Z) (readings : nat -> Z)
    (u1 u2 : option string) (c1 c2 : string) (b1 b2 : list nat)
    (t1 t2 : string) (l : list Summary.t) (w : World) :
  (readings (ticks w) + utcoffset) / 1000000
  = (readings (S (S (ticks w))) + utcoffset) / 1000000 ->
  exists x y st w',
    save_summary (P := Ref.platform utcoffset readings) u1 c1 b1 t1 (l, w)
    = (Ok x, st) /\
    save_summary (P := Ref.platform utcoffset readings) u2 c2 b2 t2 st
    = (Ok y, ((l ++ [x; y])%list, w')) /\
    Summary.id x = Summary.id y /\
    Summary.content x = c1 /\ Summary.content y = c2 /\
    same_store w w'.
Proof.
  intros H. unfold save_summary. cbn [fst snd tick ticks].
  do 4 eexists. split; [reflexivity|]. split.
  - cbv beta zeta. cbn [fst snd]. rewrite <- app_assoc. reflexivity.
  - cbn [Summary.id Summary.content localtime clock Ref.platform fst snd
         tick ticks].
    rewrite (strftime_compact_by_second _ _ H).
    repeat split; reflexivity.
Qed.

(** ** The guest of a session *)

Section SessionGuest.
Context {P : Platform}.

(** X18.  Once a session is identified, [book_appointment] does not look
    at the name and contact number it is given: the run is the same for
    any two pairs of them, no guest is created or renamed, and the
    session stays with its guest. *)
Theorem X18_identified_booking_ignores_contact (start : string) (n : Z)
    (name contact name' contact' : option string) (details : string)
    (s : ReservationTools) (w : World) :
  truthy_str (_user_id s) = true ->
  let run := book_appointment start n name contact details (s, w) in
  run = book_appointment start n name' contact' details (s, w) /\
  users (snd (snd run)) = users w /\
  _user_id (fst (snd run)) = _user_id s /\
  _user_context (fst (snd run)) = _user_context s.
Proof.
  intros H run. subst run.
  rewrite !(book_appointment_identified _ _ _ _ _ _ _ H).
  split; [reflexivity|].
  destruct (book_tail_cases start n details (publish started s) w)
    as [(w1 & uname & s' & Ec & E & I1 & I2 & _)
       |(r & s' & w' & E & [Su _] & (I1 & I2 & _) & _)];
    rewrite E; cbn [fst snd].
  - rewrite create_appointment_eq. cbn [snd users set_appointments tick].
    destruct (check_availability_same_store _ _ _ _ _ Ec) as [-> _].
    rewrite I1, I2, publish_user_id, publish_user_context. auto.
  - rewrite I1, I2, publish_user_id, publish_user_context. auto.
Qed.

(** X19.  On the in-memory store the guest record a session holds is the
    stored dict itself ([get_or_create_user] returns the element of
    [Database.users] and writes a new name into it): when a call
    identifies with the number of that guest and a name, the session that
    was identified before reads the new name, in its session data and in
    the name its confirmations use.  The guest keeps id and row, and no
    guest or appointment is added. *)
Theorem X19_guest_record_is_shared (raw canon nm : string) (row : nat)
    (u : User.t) (s1 s2 : ReservationTools) (w : World) :
  normalize_phone raw = Some canon ->
  NoDup (map User.contact_number (users w)) ->
  _user_context s1 = Some row ->
  nth_error (users w) row = Some u ->
  User.contact_number u = canon ->
  nm <> "" ->
  exists s2' w',
    identify_user raw (Some nm) (s2, w) = (Ok (Identified nm), (s2', w')) /\
    fst (get_session_data (s1, w')) = Some (User.set_name nm u) /\
    context_name (s1, w') = (Ok nm, (s1, w')) /\
    _user_id s2' = Some (User.id u) /\ _user_context s2' = Some row /\
    List.length (users w') = List.length (users w) /\
    appointments w' = appointments w.
Proof.
  intros Hn N Hc Hrow Hnum Hnm.
  destruct (identify_user_ok raw canon (Some nm) s2 w Hn)
    as (row' & u' & s2' & w' & E & G & _ & _ & Hid & Hctx).
  rewrite get_or_create_user_eq in G.
  destruct (lookup_user (users w) canon (Some nm)) as [[us' [i u1]]|] eqn:L.
  2:{ pose proof (proj1 (lookup_user_none _ _ _) L u) as L'.
      destruct L'; [|assumption]. now apply nth_error_In in Hrow. }
  destruct (lookup_user_some _ _ _ _ _ _ L)
    as (u0 & H0 & H1 & Hc0 & Hu1 & Hlen & _ & _ & _).
  assert (Ei : i = row).
  { apply (NoDup_map_nth_error User.contact_number (users w) i row u0 u);
      congruence. }
  subst i. rewrite Hrow in H0. injection H0 as <-.
  rewrite (truthy_some _ Hnm), (str_or_some _ _ Hnm) in Hu1. subst u1.
  injection G as <- <- <-.
  exists s2', (set_users us' w). rewrite E.
  cbn [User.set_name User.name User.id] in *.
  split; [reflexivity|]. split.
  - cbn [get_session_data fst snd]. rewrite Hc. exact H1.
  - split.
    + unfold context_name, bind, self, ret. rewrite db_eq.
      cbn [fst snd get]. rewrite Hc. cbn [users set_users] in *.
      now rewrite H1.
    + split; [exact Hid|]. split; [exact Hctx|].
      split; [exact Hlen|reflexivity].
Qed.

End SessionGuest.

(** ** The further properties on the scenarios *)

Lemma served_exec {P : Platform} (t : Tool) (c : Call) :
  served (snd c) -> served (snd (exec t c)).
Proof. destruct c as [s w]. apply served_call. Qed.

Lemma ana_served : served (P := Demo.platform) (snd Demo.ana).
Proof.
  exact (served_exec (P := Demo.platform)
           (T_identify_user "555-123-4567" (Some "Ana")) Demo.fresh
           served_init).
Qed.

Lemma ana_booked_served : served (P := Demo.platform) (snd Demo.ana_booked).
Proof.
  exact (served_exec (P := Demo.platform)
           (T_book_appointment "2026-10-27T19:00:00" 2 None None
              "General Reservation") Demo.ana ana_served).
Qed.

Lemma ana_two_served : served (P := Demo.platform) (snd Demo.ana_two).
Proof.
  exact (served_exec (P := Demo.platform)
           (T_book_appointment "2026-10-27T18:00:00" 4 None None
              "General Reservation") Demo.ana_booked ana_booked_served).
Qed.

Lemma X1_update_appointment_details_only_witness :
  let w := snd Demo.ana_two in
  let r := update_appointment "appt_1" "window seat" w in
  (fst r = Ok true <-> exists a, In a (appointments w) /\ Appt.id a = "appt_1") /\
  (fst r = Ok false <->
   forall a, In a (appointments w) -> Appt.id a <> "appt_1") /\
  users (snd r) = users w /\
  (forall i a, nth_error (appointments w) i = Some a ->
     nth_error (appointments (snd r)) i =
     Some (if String.eqb (Appt.id a) "appt_1"
           then Appt.set_details "window seat" a else a)) /\
  (forall s n, check_availability (P := Demo.platform) s n (snd r)
               = (fst (check_availability (P := Demo.platform) s n w),
                  set_appointments (appointments (snd r))
                    (snd (check_availability (P := Demo.platform) s n w)))) /\
  (forall u, map Appt.id (active u (snd r)) = map Appt.id (active u w)).
Proof.
  exact (X1_update_appointment_details_only (P := Demo.platform) "appt_1"
           "window seat" (snd Demo.ana_two) ana_two_reachable).
Defined.

Lemma X2_listing_round_trip_witness :
  let w := snd Demo.ana_two in
  let created :=
    create_appointment (P := Demo.platform) "user_1" "2026-10-28T10:00:00" 2
      "Terrace" w in
  let a := new_appt (P := Demo.platform) w "user_1" "2026-10-28T10:00:00" 2
             "Terrace" in
  let w1 := snd created in
  let w2 := snd (cancel_appointment (Appt.id a) w1) in
  fst created = Ok (List.length (appointments w), a) /\
  get_user_appointments "user_1" w1
  = (Ok (active "user_1" w ++ [a])%list, w1) /\
  (forall u', u' <> "user_1" ->
     fst (get_user_appointments u' w1) = fst (get_user_appointments u' w)) /\
  fst (cancel_appointment (Appt.id a) w1) = Ok true /\
  (forall u',
     fst (get_user_appointments u' w2) = fst (get_user_appointments u' w)).
Proof.
  exact (X2_listing_round_trip (P := Demo.platform) (snd Demo.ana_two)
           "user_1" "2026-10-28T10:00:00" 2 "Terrace" ana_two_reachable).
Defined.

Lemma X3_ids_follow_rows_witness :
  let w := snd Demo.ana_two in
  (forall i a, nth_error (appointments w) i = Some a ->
               Appt.id a = "appt_" ++ str_of_nat (S i)) /\
  (forall i u, nth_error (users w) i = Some u ->
               User.id u = "user_" ++ str_of_nat (S i)) /\
  NoDup (map Appt.id (appointments w)) /\
  NoDup (map User.id (users w)).
Proof.
  exact (X3_ids_follow_rows (P := Demo.platform) (snd Demo.ana_two)
           ana_two_reachable).
Defined.

Lemma X4_next_slot_sound_witness :
  let w := snd Demo.ana_booked in
  let slot := "2026-10-28T10:00:00" in
  exists ref k d h wk,
    reference_of (P := Demo.platform) "2026-10-27T19:00:00" w = Ok ref /\
    In k [0; 1; 2; 3; 4; 5; 6] /\
    date_add_days (date_of ref) k = Some d /\
    In h [10; 14; 17; 18; 19] /\
    slot = strftime_iso (combine_hour d h) /\
    dt_gt (combine_hour d h) ref = Ok true /\
    users wk = users w /\ appointments wk = appointments w /\
    check_availability (P := Demo.platform) slot 1 wk
    = (Ok true,
       snd (get_next_available_slot (P := Demo.platform)
              "2026-10-27T19:00:00" w)).
Proof.
  apply (X4_next_slot_sound (P := Demo.platform) "2026-10-27T19:00:00"
           "2026-10-28T10:00:00" (snd Demo.ana_booked)).
  vm_compute. reflexivity.
Defined.

Lemma X5_next_slot_none_witness :
  exists ref slots,
    reference_of (P := Demo2.jumping) "2026-10-27T19:00:00" init_world
    = Ok ref /\
    slots = map strftime_iso
              (filter (later_than ref)
                 (candidates_on ref [0; 1; 2; 3; 4; 5; 6])) /\
    refused_in_turn (P := Demo2.jumping) slots (tick init_world)
      (snd (get_next_available_slot (P := Demo2.jumping)
              "2026-10-27T19:00:00" init_world)) /\
    forall k d h,
      In k [0; 1; 2; 3; 4; 5; 6] ->
      date_add_days (date_of ref) k = Some d ->
      In h [10; 14; 17; 18; 19] ->
      dt_le (combine_hour d h) ref = Ok true \/
      (dt_le (combine_hour d h) ref = Ok false /\
       In (strftime_iso (combine_hour d h)) slots).
Proof.
  apply (X5_next_slot_none (P := Demo2.jumping) "2026-10-27T19:00:00"
           init_world
           (snd (get_next_available_slot (P := Demo2.jumping)
                   "2026-10-27T19:00:00" init_world))).
  vm_compute. reflexivity.
Defined.

Lemma X6_next_slot_returns_witness :
  exists r,
    fst (get_next_available_slot (P := Demo.platform) "2026-10-27T19:00:00"
           init_world) = Ok r.
Proof.
  apply (X6_next_slot_returns (P := Demo.platform)).
  - intros dt H. vm_compute in H. injection H as <-. reflexivity.
  - intros ref k H Hk. vm_compute in H. injection H as <-.
    simpl in Hk.
    destruct Hk as [<-|[<-|[<-|[<-|[<-|[<-|[<-|[]]]]]]]];
      vm_compute; discriminate.
Defined.

Lemma X7_one_booked_appointment_per_slot_witness :
  let w := snd Demo.ana_two in
  (forall s, (count_booked s (appointments w) <= 1)%nat) /\
  (forall i j a b,
     nth_error (appointments w) i = Some a ->
     nth_error (appointments w) j = Some b ->
     Appt.status a = booked -> Appt.status b = booked ->
     Appt.start_time a = Appt.start_time b -> i = j).
Proof.
  exact (X7_one_booked_appointment_per_slot (P := Demo.platform)
           (snd Demo.ana_two) ana_two_served).
Defined.

Lemma X8_stored_appointments_in_opening_hours_witness :
  exists dt,
    fromisoformat (Platform := Demo.platform)
      (replace_Z (Appt.start_time Demo2.appt2))
    = Some dt /\
    10 <= hour dt < 22.
Proof.
  apply (X8_stored_appointments_in_opening_hours (P := Demo.platform)
           (snd Demo.ana_two) ana_two_served Demo2.appt2).
  vm_compute. right. left. reflexivity.
Defined.

(** A caller who has not identified cancels Ana's first appointment, or
    rewrites its details. *)
Lemma X10_cancel_and_update_by_id_alone_witness :
  let s := new_tools None in
  let w := snd Demo.ana_two in
  exists r1 s1 w1 r2 s2 w2,
    tool_cancel_appointment "appt_1" (s, w) = (Ok r1, (s1, w1)) /\
    update_booking_details "appt_1" "none" (s, w) = (Ok r2, (s2, w2)) /\
    same_session s s1 /\ same_session s s2 /\
    users w1 = users w /\ users w2 = users w /\
    appointments w1
    = map (rewrite_id (Appt.set_status cancelled) "appt_1")
          (appointments w) /\
    appointments w2
    = map (rewrite_id (Appt.set_details "none") "appt_1") (appointments w) /\
    ((exists a, In a (appointments w) /\ Appt.id a = "appt_1") ->
     r1 = Cancelled "appt_1" /\ r2 = Details_updated "none") /\
    ((forall a, In a (appointments w) -> Appt.id a <> "appt_1") ->
     r1 = Cancel_failed "appt_1" /\ r2 = Details_not_found /\
     w1 = w /\ w2 = w).
Proof.
  exact (X10_cancel_and_update_by_id_alone (P := Demo.platform) "appt_1"
           "none" (new_tools None) (snd Demo.ana_two) ana_two_served).
Defined.

(** Ana moves her first appointment to the next morning. *)
Lemma X11_modify_replaces_appointment_witness :
  let s := fst Demo.ana_two in
  let w := snd Demo.ana_two in
  let run :=
    modify_appointment (P := Demo.platform) "appt_1"
      (Some "2026-10-28T10:00:00") None None (s, w) in
  let s' := fst (snd run) in
  let w' := snd (snd run) in
  exists original a,
    In original (appointments w) /\ Appt.id original = "appt_1" /\
    Appt.status original = booked /\
    _user_id s = Some (Appt.user_id original) /\
    appointments w'
    = (map (rewrite_id (Appt.set_status cancelled) "appt_1")
           (appointments w) ++ [a])%list /\
    users w' = users w /\
    Appt.id a = "appt_3" /\ "appt_3" <> "appt_1" /\
    Appt.user_id a = Appt.user_id original /\
    Appt.status a = booked /\
    Appt.start_time a = "2026-10-28T10:00:00" /\
    "2026-10-28T10:00:00"
    = str_or (Some "2026-10-28T10:00:00") (Appt.start_time original) /\
    Appt.num_people a = Some 2 /\
    2 = int_or None (Appt.get_num_people original 2) /\
    Appt.details a
    = "Guests: " ++ str_of_Z 2 ++ ". "
      ++ str_or None (Appt.details original) /\
    same_session s s' /\
    (forall nst' nnp' nd',
       truthy_str nst' || truthy_int nnp' || truthy_str nd' = true ->
       exists s'',
         modify_appointment (P := Demo.platform) "appt_1" nst' nnp' nd'
           (s', w')
         = (Ok Modify_not_found, (s'', w'))) /\
    (forall s2 w2 uid nst' nnp' nd',
       store_step (P := Demo.platform) w' w2 ->
       _user_id s2 = Some uid -> uid <> "" ->
       truthy_str nst' || truthy_int nnp' || truthy_str nd' = true ->
       exists s'',
         modify_appointment (P := Demo.platform) "appt_1" nst' nnp' nd'
           (s2, w2)
         = (Ok Modify_not_found, (s'', w2))).
Proof.
  apply (X11_modify_replaces_appointment (P := Demo.platform) "appt_1"
           (Some "2026-10-28T10:00:00") None None (fst Demo.ana_two)
           _ (snd Demo.ana_two) _ "Ana").
  - exact ana_two_served.
  - vm_compute. reflexivity.
Defined.

Lemma X12_modify_to_own_time_refused_witness :
  exists r s' w',
    modify_appointment (P := Demo.platform) "appt_1"
      (Some (Appt.start_time Demo.appt1)) (Some 6) None
      (fst Demo.ana_two, snd Demo.ana_two)
    = (r, (s', w')) /\
    same_store (snd Demo.ana_two) w' /\
    same_session (fst Demo.ana_two) s' /\
    forall name t p i, r <> Ok (Modified name t p i).
Proof.
  apply (X12_modify_to_own_time_refused (P := Demo.platform) "appt_1"
           "user_1" (Some 6) None (fst Demo.ana_two) (snd Demo.ana_two)
           Demo.appt1).
  - vm_compute. reflexivity.
  - vm_compute. reflexivity.
  - discriminate.
Defined.

Lemma X13_retrieve_lists_active_witness :
  let s := fst Demo.ana_two in
  let w := snd Demo.ana_two in
  exists r s',
    retrieve_appointments (s, w) = (Ok r, (s', w)) /\
    same_session s s' /\
    lines_of r
    = map (fun a => (Appt.start_time a, Appt.status a, Appt.id a))
          (active "user_1" w) /\
    (r = Retrieve_none <-> active "user_1" w = []) /\
    (forall st status i, In (st, status, i) (lines_of r) ->
       status = booked /\
       exists a, In a (appointments w) /\ Appt.user_id a = "user_1" /\
                 Appt.id a = i /\ Appt.start_time a = st) /\
    forall x s2,
      let w2 := snd (snd (tool_cancel_appointment x (s2, w))) in
      exists r2 s2',
        retrieve_appointments (s', w2) = (Ok r2, (s2', w2)) /\
        lines_of r2
        = filter (fun line => negb (String.eqb (snd line) x)) (lines_of r).
Proof.
  apply (X13_retrieve_lists_active (P := Demo.platform) (fst Demo.ana_two)
           (snd Demo.ana_two) "user_1").
  - exact ana_two_served.
  - vm_compute. reflexivity.
  - discriminate.
Defined.

(** Ana's second booking, and what her session holds after it. *)
Lemma X14_session_data_is_live_witness :
  let s1 := fst Demo.ana_two in
  let w1 := snd Demo.ana_two in
  exists a,
    Appt.id a = "appt_2" /\ Appt.status a = booked /\
    snd (get_session_data (s1, w1))
    = (snd (get_session_data (fst Demo.ana_booked, snd Demo.ana_booked))
       ++ [a])%list /\
    forall x s2,
      snd (get_session_data
             (s1, snd (snd (tool_cancel_appointment x (s2, w1)))))
      = map (rewrite_id (Appt.set_status cancelled) x)
            (snd (get_session_data (s1, w1))).
Proof.
  apply (X14_session_data_is_live (P := Demo.platform)
           "2026-10-27T18:00:00" 4 None None "General Reservation" "Ana"
           "appt_2" (fst Demo.ana_booked) (fst Demo.ana_two)
           (snd Demo.ana_booked) (snd Demo.ana_two)).
  - exact ana_booked_served.
  - vm_compute. repeat constructor.
  - vm_compute. reflexivity.
Defined.

Lemma X15_modified_booking_not_in_session_data_witness :
  let s := fst Demo.ana_two in
  let w := snd Demo.ana_two in
  let run :=
    modify_appointment (P := Demo.platform) "appt_1"
      (Some "2026-10-28T10:00:00") None None (s, w) in
  let s' := fst (snd run) in
  let w' := snd (snd run) in
  snd (get_session_data (s', w'))
  = map (rewrite_id (Appt.set_status cancelled) "appt_1")
        (snd (get_session_data (s, w))) /\
  (forall b, In b (snd (get_session_data (s', w'))) ->
             Appt.id b <> "appt_3") /\
  exists a, In a (appointments w') /\ Appt.id a = "appt_3" /\
            Appt.status a = booked.
Proof.
  apply (X15_modified_booking_not_in_session_data (P := Demo.platform)
           "appt_1" (Some "2026-10-28T10:00:00") None None
           (fst Demo.ana_two) _ (snd Demo.ana_two) _ "Ana"
           "2026-10-28T10:00:00" 2).
  - exact ana_two_served.
  - vm_compute. repeat constructor.
  - vm_compute. reflexivity.
Defined.

(** Two summaries saved within the same second of the quick clock. *)
Lemma X17_summary_ids_by_the_second_witness :
  exists x y st w',
    save_summary (P := Demo2.quick) (Some "user_1") "First call" [0%nat]
      "2026-10-27 09:00:00" ([], init_world)
    = (Ok x, st) /\
    save_summary (P := Demo2.quick) None "Second call" []
      "2026-10-27 09:00:00" st
    = (Ok y, (([] ++ [x; y])%list, w')) /\
    Summary.id x = Summary.id y /\
    Summary.content x = "First call" /\ Summary.content y = "Second call" /\
    same_store init_world w'.
Proof.
  apply (X17_summary_ids_by_the_second Ref.IST
           (fun n => Demo.start + 1000 * Z.of_nat n)).
  vm_compute. reflexivity.
Defined.

(** Ana, identified, asks to book with another name and number. *)
Lemma X18_identified_booking_ignores_contact_witness :
  let run :=
    book_appointment (P := Demo.platform) "2026-10-28T10:00:00" 2
      (Some "Ben") (Some "555-000-1111") "Terrace" Demo.ana_two in
  run
  = book_appointment (P := Demo.platform) "2026-10-28T10:00:00" 2 None None
      "Terrace" Demo.ana_two /\
  users (snd (snd run)) = users (snd Demo.ana_two) /\
  _user_id (fst (snd run)) = _user_id (fst Demo.ana_two) /\
  _user_context (fst (snd run)) = _user_context (fst Demo.ana_two).
Proof.
  apply (X18_identified_booking_ignores_contact (P := Demo.platform)
           "2026-10-28T10:00:00" 2 (Some "Ben") (Some "555-000-1111") None
           None "Terrace" (fst Demo.ana_two) (snd Demo.ana_two)).
  vm_compute. reflexivity.
Defined.

(** A second call gives Ana's number with another name. *)
Lemma X19_guest_record_is_shared_witness :
  let s1 := fst Demo.ana_two in
  let w := snd Demo.ana_two in
  exists s2' w',
    identify_user (P := Demo.platform) "+91 555 123 4567" (Some "Anna")
      (new_tools None, w)
    = (Ok (Identified "Anna"), (s2', w')) /\
    fst (get_session_data (s1, w'))
    = Some (User.set_name "Anna"
              (User.mk "user_1" "5551234567" "Ana" "2026-10-27T09:00:00")) /\
    context_name (s1, w') = (Ok "Anna", (s1, w')) /\
    _user_id s2' = Some "user_1" /\ _user_context s2' = Some 0%nat /\
    List.length (users w') = List.length (users w) /\
    appointments w' = appointments w.
Proof.
  apply (X19_guest_record_is_shared (P := Demo.platform) "+91 555 123 4567"
           "5551234567" "Anna" 0
           (User.mk "user_1" "5551234567" "Ana" "2026-10-27T09:00:00")
           (fst Demo.ana_two) (new_tools None) (snd Demo.ana_two)).
  - vm_compute. reflexivity.
  - vm_compute. constructor; [intros []|constructor].
  - vm_compute. reflexivity.
  - vm_compute. reflexivity.
  - reflexivity.
  - discriminate.
Defined.
